(** * CurhatKuy backend: conversation routing and session lifecycle

    A shallow embedding of [backend.py]: the text classifiers, the
    [{{dotted.path}}] templating of the configuration loader, the session
    table with its opportunistic sweep, the [/status] and [/chat]
    handlers, the hot reload of the configuration and the admin
    endpoints, followed by the properties of the routing state machine
    and of the code around it.

    Modelling conventions.
    - A Python [str] is a [string] that holds its UTF-8 bytes.  What
      depends on the Unicode tables, [str.lower] and the whitespace of
      [str.strip] and of the regex class [\s], is an interface [PyText];
      the code is modelled over any instance of it.
    - [CFG.data] is a record [Config] holding the values the handlers read
      from the snapshot, already converted ([int(...)], [float(...)]).
    - The session table [chat_sessions] is a [gmap string Session]; a
      timestamp is [time.time()] in whole seconds.
    - A Python [float] is a binary64 [float]; [>=] is [PrimFloat.leb].
    - Everything a request takes from outside the handler (clock, uuid,
      the generative service, [json.loads], [float], [round]) is a field of
      the record [Env]. *)

From Stdlib Require Import ZArith Ascii String List Bool Lia PrimFloat.
From stdpp Require Import base option list strings gmap fin_maps pretty.

Set Warnings "-register-all,-inexact-float".
Local Open Scope string_scope.
Local Open Scope Z_scope.

(** ** Python string primitives *)

Module PyStr.

Definition code (c : ascii) : N := N_of_ascii c.

(** The operations of [str] and [re] that consult the Unicode tables, on
    text held as its UTF-8 bytes.  [lower] is [str.lower].  [spaces s] is
    the length of the run of whitespace characters [s] starts with,
    [len(s) - len(s.lstrip())], in bytes; the whitespace characters are
    those [str.isspace] accepts, which are also the regex class [\s].
    No whitespace run starts inside the encoding of a character. *)
Class PyText : Type := {
  lower : string -> string;
  spaces : string -> nat
}.

(** [s[:n]] *)
Fixpoint stake (n : nat) (s : string) : string :=
  match n, s with
  | S n', String c s' => String c (stake n' s')
  | _, _ => EmptyString
  end.

(** [s[n:]] *)
Fixpoint sdrop (n : nat) (s : string) : string :=
  match n, s with
  | S n', String _ s' => sdrop n' s'
  | _, _ => s
  end.

(** [s.lstrip()] *)
Definition lstrip {py : PyText} (s : string) : string := sdrop (spaces s) s.

(** [s.rstrip()]: [s] up to the first position from which only whitespace
    follows. *)
Fixpoint rstrip {py : PyText} (s : string) : string :=
  match s with
  | EmptyString => EmptyString
  | String c s' =>
      if Nat.eqb (spaces (String c s')) (String.length (String c s')) then EmptyString
      else String c (rstrip s')
  end.

(** [s.strip()] *)
Definition strip {py : PyText} (s : string) : string := rstrip (lstrip s).

(** [k in t] for two strings. *)
Fixpoint contains (k t : string) : bool :=
  String.prefix k t ||
  match t with
  | EmptyString => false
  | String _ t' => contains k t'
  end.

(** [sep.join(l)] *)
Fixpoint join (sep : string) (l : list string) : string :=
  match l with
  | [] => EmptyString
  | [x] => x
  | x :: l' => x ++ sep ++ join sep l'
  end.

(** Truthiness of a string: [bool(s)]. *)
Definition truthy (s : string) : bool :=
  match s with EmptyString => false | _ => true end.

(** [a or b] on strings. *)
Definition str_or (a b : string) : string := if truthy a then a else b.

(** A capital letter [A] to [Z]. *)
Definition is_capital (c : ascii) : bool :=
  ((65 <=? code c) && (code c <=? 90))%N.

(** *** The operations on text of the ASCII range

    On text whose characters are all below 128 [str.lower] maps [A-Z] to
    [a-z], and the whitespace characters are the codes 9 to 13 and 28 to
    32.  The examples of this file use such text only. *)

Definition ascii_lower_char (c : ascii) : ascii :=
  if is_capital c then ascii_of_N (code c + 32) else c.

Fixpoint ascii_lower (s : string) : string :=
  match s with
  | EmptyString => EmptyString
  | String c s' => String (ascii_lower_char c) (ascii_lower s')
  end.

Definition ascii_isspace (c : ascii) : bool :=
  (((9 <=? code c) && (code c <=? 13)) || ((28 <=? code c) && (code c <=? 32)))%N.

Fixpoint ascii_spaces (s : string) : nat :=
  match s with
  | EmptyString => O
  | String c s' => if ascii_isspace c then S (ascii_spaces s') else O
  end.

Definition ascii_text : PyText :=
  {| lower := ascii_lower; spaces := ascii_spaces |}.

End PyStr.

Import PyStr.

(** ** Templating: [_template] of the configuration loader *)

Module Template.

(** A value of the templating context.  [settings.json] is arbitrary JSON;
    a node that is neither a string nor an object is kept as the text
    [str()] gives for it, and an object carries that text next to its
    items. *)
Inductive value : Type :=
| VStr (s : string)
| VAtom (shown : string)
| VDict (shown : string) (items : list (string * value)).

(** [str(val)] *)
Definition py_str (v : value) : string :=
  match v with
  | VStr s => s
  | VAtom shown => shown
  | VDict shown _ => shown
  end.

(** [d.get(k)] on the item list of a dict. *)
Fixpoint assoc {A : Type} (k : string) (d : list (string * A)) : option A :=
  match d with
  | [] => None
  | (k', v) :: d' => if String.eqb k k' then Some v else assoc k d'
  end.

(** [s.split(".")] *)
Fixpoint split_dot (s : string) : list string :=
  match s with
  | EmptyString => [EmptyString]
  | String c s' =>
      if Ascii.eqb c "."%char then EmptyString :: split_dot s'
      else match split_dot s' with
           | h :: t => String c h :: t
           | [] => [String c EmptyString]
           end
  end.

(** The loop of [repl]: follow [parts] from [val]; [None] is the early
    [return m.group(0)]. *)
Fixpoint walk (val : value) (parts : list string) : option value :=
  match parts with
  | [] => Some val
  | p :: ps =>
      match val with
      | VDict _ items =>
          match assoc p items with
          | Some v => walk v ps
          | None => None
          end
      | _ => None
      end
  end.

(** [repl(m)] with [m.group(1) = g1] and [m.group(0) = g0]. *)
Definition repl (ctx : value) (g1 g0 : string) : string :=
  match walk ctx (split_dot g1) with
  | Some v => py_str v
  | None => g0
  end.

(** The class [[a-zA-Z0-9_.]]. *)
Definition is_ident (c : ascii) : bool :=
  (((97 <=? code c) && (code c <=? 122)) || ((65 <=? code c) && (code c <=? 90))
   || ((48 <=? code c) && (code c <=? 57)) || (code c =? 95) || (code c =? 46))%N.

(** The longest prefix of [s] in the class [p], and what follows it. *)
Fixpoint span (p : ascii -> bool) (s : string) : string * string :=
  match s with
  | EmptyString => (EmptyString, EmptyString)
  | String c s' =>
      if p c then let '(a, b) := span p s' in (String c a, b)
      else (EmptyString, s)
  end.

(** A match of [\{\{\s*([a-zA-Z0-9_.]+)\s*\}\}] anchored at the start of
    [s]: group 1, group 0 and the text after the match.  Whitespace, the
    class of the path and the braces are pairwise disjoint, so the greedy
    choice is the only one the regex engine can succeed with. *)
Definition match_token {py : PyText} (s : string) : option (string * string * string) :=
  match s with
  | String "{" (String "{" s1) =>
      let w1 := stake (spaces s1) s1 in
      let s2 := sdrop (spaces s1) s1 in
      let '(name, s3) := span is_ident s2 in
      let w2 := stake (spaces s3) s3 in
      let s4 := sdrop (spaces s3) s3 in
      match name, s4 with
      | String _ _, String "}" (String "}" rest) =>
          Some (name, "{{" ++ w1 ++ name ++ w2 ++ "}}", rest)
      | _, _ => None
      end
  | _ => None
  end.

(** [re.sub(pattern, repl, s)]: scan from the left; at a match emit the
    replacement and go on after it, otherwise copy one character.  A match
    is never empty, so [fuel = len(s)] steps are enough. *)
Fixpoint sub_fuel {py : PyText} (fuel : nat) (ctx : value) (s : string) : string :=
  match fuel with
  | O => s
  | S fuel' =>
      match s with
      | EmptyString => EmptyString
      | String c s' =>
          match match_token s with
          | Some (g1, g0, rest) => repl ctx g1 g0 ++ sub_fuel fuel' ctx rest
          | None => String c (sub_fuel fuel' ctx s')
          end
      end
  end.

Definition _template {py : PyText} (s : string) (ctx : value) : string :=
  sub_fuel (String.length s) ctx s.

(** [re.findall] of the same pattern: the dotted paths of the tokens of
    [s], in order. *)
Fixpoint findall_fuel {py : PyText} (fuel : nat) (s : string) : list string :=
  match fuel with
  | O => []
  | S fuel' =>
      match s with
      | EmptyString => []
      | String c s' =>
          match match_token s with
          | Some (g1, _, rest) => g1 :: findall_fuel fuel' rest
          | None => findall_fuel fuel' s'
          end
      end
  end.

Definition tokens {py : PyText} (s : string) : list string := findall_fuel (String.length s) s.

(** The path of a token is absent from the context. *)
Definition absent (ctx : value) (path : string) : bool :=
  match walk ctx (split_dot path) with Some _ => false | None => true end.

(** A brace is not a whitespace character: the whitespace run a text
    starts with lies within the text and is the same when a brace and
    more text follow.  [str.isspace] and the class [\s] have this
    property; the facts about a token that stands after other tokens rest
    on it. *)
Definition brace_ends_spaces {py : PyText} : Prop :=
  forall l r : string,
    (spaces l <= String.length l)%nat /\ spaces (l ++ String "{" r) = spaces l.

End Template.

Import Template.

(** ** The configuration snapshot [CFG.data] *)

Record Config : Type := {
  max_turns : Z;                 (* int(settings.get("max_turns", 5)) *)
  classify_confidence : float;   (* float(settings.get("classify_confidence", 0.4)) *)
  reply_fallback : string;       (* settings.get("reply_fallback", ...) *)
  clinic_name : string;          (* clinic.get("name", "CurhatKuy") *)
  crisis_keywords : list string; (* crisis["keywords"] *)
  crisis_text : string;          (* crisis["message"] *)
  faq : gmap string string;      (* faq: key -> answer *)
  faq_keys : list (string * list string);  (* faq_keys.items(), in order *)
  psy_words : list string;
  suggestions : list (string * string);    (* suggestions.items(), in order *)
  closing_text : string          (* CFG.data["closing"] *)
}.

(** The rendering pass of [Config._load_all]: the crisis message, every
    FAQ answer and the stripped closing text go through [_template] with
    the context [{"clinic": ..., "settings": ...}]; the rest of the
    snapshot is the file contents. *)
Definition _load_all {py : PyText} (ctx : value) (files : Config) : Config :=
  {| max_turns := max_turns files;
     classify_confidence := classify_confidence files;
     reply_fallback := reply_fallback files;
     clinic_name := clinic_name files;
     crisis_keywords := crisis_keywords files;
     crisis_text := _template (crisis_text files) ctx;
     faq := (fun v => _template v ctx) <$> faq files;
     faq_keys := faq_keys files;
     psy_words := psy_words files;
     suggestions := suggestions files;
     closing_text := _template (strip (closing_text files)) ctx |}.

(** [PATS]: the compiled intent patterns, each as its [search] predicate;
    [None] when the pattern is missing or empty. *)
Record Patterns : Type := {
  greet : option (string -> bool);
  thanks : option (string -> bool);
  ack : option (string -> bool);
  who : option (string -> bool);
  can : option (string -> bool);
  about : option (string -> bool)
}.

(** ** Text classifiers *)

(** [any(k in t for k in kws)] *)
Definition any_in (kws : list string) (t : string) : bool :=
  existsb (fun k => contains k t) kws.

Definition is_crisis {py : PyText} (cfg : Config) (text : string) : bool :=
  let t := lower text in
  any_in (crisis_keywords cfg) t.

Definition crisis_message (cfg : Config) : string := crisis_text cfg.

(** The [for k, kws in keys.items()] loop of [match_faq]. *)
Fixpoint match_faq_loop (answers : gmap string string)
    (keys : list (string * list string)) (t : string) : option string :=
  match keys with
  | [] => None
  | (k, kws) :: keys' =>
      if any_in kws t then answers !! k else match_faq_loop answers keys' t
  end.

Definition match_faq {py : PyText} (cfg : Config) (text : string) : option string :=
  let t := lower text in
  match_faq_loop (faq cfg) (faq_keys cfg) t.

Definition is_psychology_domain {py : PyText} (cfg : Config) (texts : list string) : bool :=
  let t := lower (join " " texts) in
  any_in (psy_words cfg) t.

(** [p and p.search(t)] *)
Definition searches (p : option (string -> bool)) (t : string) : bool :=
  match p with
  | Some search => search t
  | None => false
  end.

Definition is_smalltalk {py : PyText} (pats : Patterns) (text : string) : bool :=
  let t := strip text in
  if negb (truthy t) then true
  else existsb (fun p => searches p t) [greet pats; thanks pats; ack pats].

Inductive meta : Type := MetaWho | MetaCan | MetaAbout.

Definition match_meta_query {py : PyText} (pats : Patterns) (text : string) : option meta :=
  let t := strip text in
  if negb (truthy t) then None
  else if searches (who pats) t then Some MetaWho
  else if searches (can pats) t then Some MetaCan
  else if searches (about pats) t then Some MetaAbout
  else if (contains "kamu" (lower t) || contains "curhatkuy" (lower t))
          && any_in ["siapa"; "apa"; "jelaskan"; "tentang"; "perkenalkan"; "kenalan"] (lower t)
  then
    if any_in ["bisa"; "fitur"; "kemampuan"; "fungsi"] (lower t) then Some MetaCan
    else if contains "curhatkuy" (lower t) then Some MetaAbout
    else Some MetaWho
  else None.

(** ** The session table *)

Record Session : Type := {
  turns : Z;
  texts : list string;
  ended : bool;
  ts : Z   (* time.time() of the last access, in seconds *)
}.

Definition new_session (now : Z) : Session :=
  {| turns := 0; texts := []; ended := false; ts := now |}.

Definition touch (now : Z) (s : Session) : Session :=
  {| turns := turns s; texts := texts s; ended := ended s; ts := now |}.

(** [sess["ended"] = True] *)
Definition set_ended (s : Session) : Session :=
  {| turns := turns s; texts := texts s; ended := true; ts := ts s |}.

(** [sess["turns"] += 1; sess["texts"].append(m)] *)
Definition add_turn (m : string) (s : Session) : Session :=
  {| turns := turns s + 1; texts := (texts s ++ [m])%list; ended := ended s; ts := ts s |}.

(** The entry is a victim of the sweep. *)
Definition stale (cutoff : Z) (s : Session) : bool :=
  (ts s <? cutoff) || ended s.

(** The [for k in list(chat_sessions.keys())] loop of [get_sess]. *)
Definition sweep (now : Z) (tbl : gmap string Session) : gmap string Session :=
  let cutoff := now - 60 * 60 in
  filter (fun kv => stale cutoff kv.2 = false) tbl.

(** The first statements of [get_sess]: the stored session with its
    timestamp refreshed, or a new one. *)
Definition open_session (now : Z) (sid : string) (tbl : gmap string Session) : Session :=
  match tbl !! sid with
  | Some s0 => touch now s0
  | None => new_session now
  end.

(** [get_sess(sid)] returns the session object and leaves the table
    updated.  The object stays valid for the caller when the sweep drops
    its key in the same call; a later write through it reaches the table
    only if the key is still there, which is what [alter] does. *)
Definition get_sess (now : Z) (sid : string) (tbl : gmap string Session)
    : Session * gmap string Session :=
  let s := open_session now sid tbl in
  let tbl1 := <[sid := s]> tbl in
  let tbl2 := if Z.of_nat (size tbl1) mod 100 =? 0 then sweep now tbl1 else tbl1 in
  (s, tbl2).

(** ** What a request takes from outside the handler *)

Inductive json : Type :=
| JNull
| JBool (b : bool)
| JInt (z : Z)
| JFloat (f : float)
| JStr (s : string)
| JArr (l : list json)
| JObj (items : list (string * json)).

(** The outcome of [m.generate_content(prompt)]: the [text] of the
    response ([None] when it has none) or the raised exception as text. *)
Inductive gen_result : Type :=
| GenText (t : option string)
| GenFail (e : string).

Record Env : Type := {
  now : Z;                       (* time.time() *)
  uuid4 : string;                (* str(uuid.uuid4()) *)
  api_key : bool;                (* GEMINI_API_KEY is set *)
  generate_content : nat -> string -> gen_result;
                                 (* the n-th call of this request, on a prompt *)
  json_loads : string -> option (list (string * json));
                                 (* json.loads on text that starts with a brace:
                                    the items of the object, None for JSONDecodeError
                                    (no other exception of json.loads is an outcome here) *)
  float_of_int : Z -> option float;       (* float(int), None when it raises *)
  float_of_str : string -> option float;  (* float(str), None when it raises *)
  round3 : float -> float                 (* round(x, 3) *)
}.

Definition nl : string := String "010"%char EmptyString.
Definition dq : string := String "034"%char EmptyString.

(** [gemini_generate(user_text)], with the prompts sent so far.  Without
    an API key [gemini_model()] returns [None] and nothing is sent.  With
    one, the model object is taken as built: [generate_content] is its
    method, and the constructor call, which stands before the [try], is
    not among the outcomes of [Env]. *)
Definition gemini_generate {py : PyText} (env : Env) (sent : list string) (user_text : string)
    : string * list string :=
  if negb (api_key env) then
    ("⚠️ Server belum dikonfigurasi dengan GEMINI_API_KEY. Hubungi admin.", sent)
  else
    match generate_content env (length sent) user_text with
    | GenText t => (strip (default EmptyString t), (sent ++ [user_text])%list)
    | GenFail e => ("⚠️ Terjadi kendala saat memproses jawaban: " ++ e, (sent ++ [user_text])%list)
    end.

(** The text after the first opening brace, that brace included. *)
Fixpoint from_open (s : string) : option string :=
  match s with
  | EmptyString => None
  | String c s' => if Ascii.eqb c "{"%char then Some s else from_open s'
  end.

(** The text up to the last closing brace, that brace included. *)
Fixpoint upto_close (s : string) : option string :=
  match s with
  | EmptyString => None
  | String c s' =>
      match upto_close s' with
      | Some r => Some (String c r)
      | None => if Ascii.eqb c "}"%char then Some (String c EmptyString) else None
      end
  end.

(** [re.search(r"\{.*\}", s, flags=re.S)]: group 0 of the match. *)
Definition brace_span (s : string) : option string :=
  match from_open s with
  | Some s' => upto_close s'
  | None => None
  end.

Definition parse_json_obj (env : Env) (s : string) : list (string * json) :=
  match brace_span s with
  | None => []
  | Some g0 =>
      match json_loads env g0 with
      | Some d => d
      | None => []
      end
  end.

(** [float(v)] for a JSON value other than null. *)
Definition to_float (env : Env) (v : json) : option float :=
  match v with
  | JNull => None
  | JBool b => Some (if b then 1%float else 0%float)
  | JInt z => float_of_int env z
  | JFloat f => Some f
  | JStr s => float_of_str env s
  | JArr _ | JObj _ => None
  end.

(** [category in suggestions]; [None] is the TypeError of an unhashable
    operand. *)
Definition in_suggestions (cfg : Config) (category : json) : option bool :=
  match category with
  | JStr s => Some (bool_decide (is_Some (assoc s (suggestions cfg))))
  | JArr _ | JObj _ => None
  | _ => Some false
  end.

(** [l[-n:]] *)
Definition last_slice {A : Type} (n : Z) (l : list A) : list A :=
  if 0 <? n then drop (length l - Z.to_nat n) l else drop (Z.to_nat (- n)) l.

(** ** The handlers *)

(** The body of a request whose fields, when present and not null, are
    strings. *)
Record ChatRequest : Type := {
  req_message : option string;      (* data.get("message") *)
  req_session_id : option string    (* data.get("session_id") *)
}.

(** The JSON object a handler returns; an optional field is a key that
    may be missing, [Some None] in [confidence] is a null. *)
Record Response : Type := {
  reply : option string;
  end_ : bool;
  session_id : string;
  remaining : Z;
  handoff : option bool;
  category : option json;
  confidence : option (option float)
}.

Inductive outcome : Type :=
| Return (r : Response)
| Raise (exn : string).

(** A handled request: what the handler returned or raised, the session
    table it left, and the prompts it sent to the generative service. *)
Record Run : Type := {
  result : outcome;
  table : gmap string Session;
  prompts : list string
}.

(** [data.get("session_id") or str(uuid.uuid4())] *)
Definition resolve_sid (env : Env) (sid : option string) : string :=
  match sid with
  | Some s => if truthy s then s else uuid4 env
  | None => uuid4 env
  end.

Definition ended_reply : string :=
  "Sesi ini sudah berakhir. Klik 'Mulai Sesi Baru' untuk memulai lagi.".

Definition redirect_reply : string :=
  "Maaf, aku fokus pada topik psikologi & FAQ klinik. Kalau ada kebutuhan lain, Admin bisa membantu. "
  ++ "Boleh ceritakan topik psikologi yang kamu pikirkan?".

Definition smalltalk_reply : string :=
  "Halo! 😊" ++ nl ++ nl
  ++ "Aku siap bantu seputar **psikologi** (kecemasan, tidur anak, hubungan, burnout) "
  ++ "atau **FAQ** klinik (jam, lokasi, layanan, tarif, booking). Ceritakan singkat yang ingin kamu bahas, ya.".

Definition meta_reply (cfg : Config) (m : meta) : string :=
  match m with
  | MetaWho =>
      "### Aku asisten " ++ clinic_name cfg ++ " 🤖" ++ nl
      ++ "Aku membantu topik **psikologi** dan **FAQ** klinik."
  | MetaCan =>
      "### Yang bisa kulakukan" ++ nl
      ++ "1. Menjawab pertanyaan psikologi & langkah awal yang aman." ++ nl
      ++ "2. Menjawab **FAQ** (jam, lokasi, layanan, tarif, booking)." ++ nl
      ++ "3. Setelah **5 pesan**, mengklasifikasikan topik & menyarankan tipe psikolog."
  | MetaAbout =>
      "### Tentang " ++ clinic_name cfg ++ nl
      ++ "Layanan klinik psikologi. Bot membantu menyaring kebutuhan sebelum buat janji."
  end.

(** [CFG.data["closing"] or f"Sesi chat berakhir (kebijakan {max_turns} pesan). ..."] *)
Definition closing (cfg : Config) : string :=
  str_or (closing_text cfg)
    ("Sesi chat berakhir (kebijakan " ++ pretty (max_turns cfg)
     ++ " pesan). Kamu bisa mulai sesi baru kapan saja.").

Definition cls_prompt (cfg : Config) (combined : string) : string :=
  "Klasifikasikan topik obrolan berikut ke salah satu label:" ++ nl
  ++ join ", " (map fst (suggestions cfg) ++ ["non_psikologi"])%list
  ++ "." ++ nl ++ "Balas ONLY dalam JSON: {" ++ dq ++ "category" ++ dq ++ ":" ++ dq ++ "<label>" ++ dq
  ++ ", " ++ dq ++ "confidence" ++ dq ++ ": <0..1>}" ++ nl ++ nl
  ++ "OBROLAN:" ++ nl ++ combined.

(** The reply of the closing turn with a specialist recommendation. *)
Definition with_suggestion (reply specialist closing_msg : string) : string :=
  reply ++ nl ++ nl ++ "Dari obrolan kita, sepertinya kamu cocok berkonsultasi dengan **"
  ++ specialist ++ "**. Mau jadwalkan sesi?" ++ nl ++ closing_msg.

(** The reply of the closing turn without one. *)
Definition with_closing (reply closing_msg : string) : string :=
  reply ++ nl ++ nl ++ closing_msg.

(** [confidence is None or confidence >= conf_thr] *)
Definition confident (cfg : Config) (confidence : option float) : bool :=
  match confidence with
  | None => true
  | Some c => PrimFloat.leb (classify_confidence cfg) c
  end.

Definition plain (r : string) (fin : bool) (sid : string) (rem : Z) : Response :=
  {| reply := Some r; end_ := fin; session_id := sid; remaining := rem;
     handoff := None; category := None; confidence := None |}.

(** [POST /status] *)
Definition status (cfg : Config) (env : Env) (sid : option string)
    (tbl : gmap string Session) : Run :=
  let session_id := resolve_sid env sid in
  let '(sess, tbl) := get_sess (now env) session_id tbl in
  let remaining := if ended sess then 0 else Z.max 0 (max_turns cfg - turns sess) in
  {| result := Return {| reply := None; end_ := ended sess; session_id := session_id;
                         remaining := remaining; handoff := None; category := None;
                         confidence := None |};
     table := tbl; prompts := [] |}.

(** The classification request of the closing turn: the answer of the
    service on the last [max_turns] messages, [or "{}"]. *)
Definition classifier_raw {py : PyText} (cfg : Config) (env : Env) (sess : Session)
    (sent : list string) : string * list string :=
  let combined := join " " (last_slice (max_turns cfg) (texts sess)) in
  let '(generated, sent) := gemini_generate env sent (cls_prompt cfg combined) in
  (str_or generated "{}", sent).

(** [dataj.get("category", "non_psikologi")] *)
Definition read_category (dataj : list (string * json)) : json :=
  default (JStr "non_psikologi") (assoc "category" dataj).

(** [dataj.get("confidence", None)] through the guarded [float(...)]. *)
Definition read_confidence (env : Env) (dataj : list (string * json)) : option float :=
  match assoc "confidence" dataj with
  | None | Some JNull => None
  | Some v => to_float env v
  end.

(** [suggestions[category]] *)
Definition specialist (cfg : Config) (category : json) : string :=
  match category with
  | JStr c => default EmptyString (assoc c (suggestions cfg))
  | _ => EmptyString
  end.

(** The closing turn of [chat]: classification of the last [max_turns]
    messages, the closing reply, and the end of the session. *)
Definition close_session {py : PyText} (cfg : Config) (env : Env) (sid : string) (sess : Session)
    (reply : string) (sent : list string) (tbl : gmap string Session) : Run :=
  let '(cat_raw, sent) := classifier_raw cfg env sess sent in
  let dataj := parse_json_obj env cat_raw in
  let category := read_category dataj in
  let confidence := read_confidence env dataj in
  match in_suggestions cfg category with
  | None => {| result := Raise "TypeError"; table := tbl; prompts := sent |}
  | Some known =>
      let reply :=
        if known && confident cfg confidence then
          with_suggestion reply (specialist cfg category) (closing cfg)
        else with_closing reply (closing cfg) in
      {| result := Return {| reply := Some reply; end_ := true; session_id := sid;
                             remaining := 0; handoff := None;
                             category := Some category;
                             confidence := Some (round3 env <$> confidence) |};
         table := alter set_ended sid tbl; prompts := sent |}
  end.

(** The reply to a substantive message before the turn limit is looked
    at: the redirect of the domain gate, or the generated text
    [or fallback]. *)
Definition answer {py : PyText} (cfg : Config) (env : Env) (user_message : string)
    (sess : Session) : string * list string :=
  if negb (is_psychology_domain cfg (texts sess)) then (redirect_reply, [])
  else let '(generated, sent) := gemini_generate env [] user_message in
       (str_or generated (reply_fallback cfg), sent).

(** The part of [chat] that a message reaches when no canned reply
    applies: the turn is counted, the reply is the redirect of the domain
    gate or the generated text, and the turn limit is checked. *)
Definition substantive {py : PyText} (cfg : Config) (env : Env) (session_id user_message : string)
    (sess : Session) (tbl : gmap string Session) : Run :=
  let '(sess, tbl) :=
    if truthy user_message
    then (add_turn user_message sess, alter (add_turn user_message) session_id tbl)
    else (sess, tbl) in
  let '(reply, sent) := answer cfg env user_message sess in
  let remaining := Z.max 0 (max_turns cfg - turns sess) in
  if turns sess >=? max_turns cfg then
    close_session cfg env session_id sess reply sent tbl
  else
    {| result := Return (plain reply false session_id remaining);
       table := tbl; prompts := sent |}.

(** [POST /chat] *)
Definition chat {py : PyText} (cfg : Config) (pats : Patterns) (env : Env) (req : ChatRequest)
    (tbl : gmap string Session) : Run :=
  let user_message := strip (default EmptyString (req_message req)) in
  let session_id := resolve_sid env (req_session_id req) in
  let '(sess, tbl) := get_sess (now env) session_id tbl in
  if ended sess then
    {| result := Return (plain ended_reply true session_id 0); table := tbl; prompts := [] |}
  else if is_crisis cfg user_message then
    {| result := Return {| reply := Some (crisis_message cfg); end_ := true;
                           session_id := session_id; remaining := 0;
                           handoff := Some true; category := None; confidence := None |};
       table := alter set_ended session_id tbl; prompts := [] |}
  else
    match match_faq cfg user_message with
    | Some (String _ _ as faq_ans) =>
        let sess := add_turn user_message sess in
        {| result := Return (plain faq_ans false session_id
                               (Z.max 0 (max_turns cfg - turns sess)));
           table := alter (add_turn user_message) session_id tbl; prompts := [] |}
    | _ =>
        match match_meta_query pats user_message with
        | Some m =>
            {| result := Return (plain (meta_reply cfg m) false session_id
                                   (Z.max 0 (max_turns cfg - turns sess)));
               table := tbl; prompts := [] |}
        | None =>
            if is_smalltalk pats user_message then
              {| result := Return (plain smalltalk_reply false session_id
                                     (Z.max 0 (max_turns cfg - turns sess)));
                 table := tbl; prompts := [] |}
            else substantive cfg env session_id user_message sess tbl
        end
    end.

(** The message and the session a [/chat] request works on. *)
Definition chat_message {py : PyText} (req : ChatRequest) : string :=
  strip (default EmptyString (req_message req)).

Definition chat_sid (env : Env) (req : ChatRequest) : string :=
  resolve_sid env (req_session_id req).

(** No FAQ answer for a message: [match_faq] gave [None] or an empty
    answer, so [if faq_ans:] fails. *)
Definition no_faq_answer {py : PyText} (cfg : Config) (m : string) : Prop :=
  match_faq cfg m = None \/ match_faq cfg m = Some "".

(** ** Runs of several requests *)

(** One request, with the snapshot [CFG.reload()] left for it and what it
    takes from outside. *)
Inductive call : Type :=
| CallChat (cfg : Config) (env : Env) (req : ChatRequest)
| CallStatus (cfg : Config) (env : Env) (sid : option string).

Definition handle {py : PyText} (pats : Patterns) (c : call) (tbl : gmap string Session) : Run :=
  match c with
  | CallChat cfg env req => chat cfg pats env req tbl
  | CallStatus cfg env sid => status cfg env sid tbl
  end.

(** The session identifier a request resolves to. *)
Definition call_sid (c : call) : string :=
  match c with
  | CallChat _ env req => resolve_sid env (req_session_id req)
  | CallStatus _ env sid => resolve_sid env sid
  end.

Definition call_cfg (c : call) : Config :=
  match c with
  | CallChat cfg _ _ => cfg
  | CallStatus cfg _ _ => cfg
  end.

(** The table after a sequence of requests, served one after the other. *)
Definition serve {py : PyText} (pats : Patterns) (calls : list call)
    (tbl : gmap string Session) : gmap string Session :=
  fold_left (fun t c => table (handle pats c t)) calls tbl.

(** The entry of [sid] is in the table before every request of the
    sequence and after the last one: no sweep drops it on the way. *)
Fixpoint retained {py : PyText} (pats : Patterns) (sid : string) (calls : list call)
    (tbl : gmap string Session) : Prop :=
  match calls with
  | [] => is_Some (tbl !! sid)
  | c :: calls' =>
      is_Some (tbl !! sid) /\ retained pats sid calls' (table (handle pats c tbl))
  end.

(** [s] is ended and has the turn counter and the transcript of [s0]. *)
Definition ended_like (s0 s : Session) : Prop :=
  ended s = true /\ turns s = turns s0 /\ texts s = texts s0.

(** ** Notions of the specification *)

(** [k] occurs in [t] as a substring. *)
Definition occurs (k t : string) : Prop := exists a b, t = a ++ k ++ b.

(** [k] occurs in [t] up to letter case. *)
Definition occurs_ci {py : PyText} (k t : string) : Prop := occurs (lower k) (lower t).

(** The text from the first opening brace to the closing brace that
    balances it: the first brace-delimited object of [s], as the
    specification words it. *)
Fixpoint balanced_prefix (depth : nat) (s : string) : option string :=
  match s with
  | EmptyString => None
  | String c s' =>
      if Ascii.eqb c "{"%char then String c <$> balanced_prefix (S depth) s'
      else if Ascii.eqb c "}"%char then
        match depth with
        | O => None
        | S O => Some (String c EmptyString)
        | S d => String c <$> balanced_prefix d s'
        end
      else String c <$> balanced_prefix depth s'
  end.

Definition first_braced_object (s : string) : option string :=
  match from_open s with
  | Some s' => balanced_prefix 0 s'
  | None => None
  end.

(** No character of [s] is [c]. *)
Fixpoint free_of (c : ascii) (s : string) : bool :=
  match s with
  | EmptyString => true
  | String c' s' => negb (Ascii.eqb c' c) && free_of c s'
  end.

(** Every character of [s] is in the class [p]. *)
Fixpoint all_in (p : ascii -> bool) (s : string) : bool :=
  match s with
  | EmptyString => true
  | String c s' => p c && all_in p s'
  end.

(** No character of [s] is a capital letter [A] to [Z]. *)
Definition no_capital (s : string) : bool :=
  all_in (fun c => negb (is_capital c)) s.

(** ** Invariants of the session table *)

(** The turn counter of a session is the length of its transcript. *)
Definition well_counted (s : Session) : Prop :=
  turns s = Z.of_nat (length (texts s)).

(** What one request can do to the session it works on: nothing, end it,
    count a turn for a message, or count the turn and end it. *)
Definition step_of (m : string) (s s' : Session) : Prop :=
  s' = s \/ s' = set_ended s \/ s' = add_turn m s \/ s' = set_ended (add_turn m s).

(** The clock reading a request is served with. *)
Definition call_now (c : call) : Z :=
  match c with
  | CallChat _ env _ => now env
  | CallStatus _ env _ => now env
  end.

(** ** Hot reload of the configuration *)

(** The nine files [Config.reload] looks at, in its order. *)
Definition config_files : list string :=
  ["settings.json"; "crisis.json"; "faq.json"; "faq_keys.json"; "psy_words.json";
   "system_prompt.md"; "suggestions.json"; "closing.txt"; "patterns.json"].

(** The settings the admin endpoints read from the snapshot:
    the truth value of [settings.get("admin_enabled", False)] and
    [settings.get("admin_token", "")]. *)
Record AdminSettings : Type := {
  admin_enabled : bool;
  admin_token : string
}.

(** [CFG.data] with the settings of the admin endpoints. *)
Record Snapshot : Type := {
  snap_admin : AdminSettings;
  snap_config : Config
}.

(** The object [CFG]: the modification times it recorded and its
    snapshot.  A modification time is a number; the code only compares
    two of them for equality. *)
Record ConfigState : Type := {
  mtimes : gmap string Z;
  data : Snapshot
}.

(** [p.stat().st_mtime if p.exists() else -1], with [stat fn = None] for
    a file that does not exist. *)
Definition mtime_of (stat : string -> option Z) (fn : string) : Z :=
  default (-1) (stat fn).

(** The body of the loop of [reload] for one file: the times recorded so
    far and the flag [changed]. *)
Definition note_file (stat : string -> option Z) (force : bool)
    (acc : gmap string Z * bool) (fn : string) : gmap string Z * bool :=
  let mt := mtime_of stat fn in
  if force || negb (bool_decide (acc.1 !! fn = Some mt))
  then (<[fn := mt]> acc.1, true)
  else acc.

(** [CFG.reload(force)], on a disk where [stat] gives the modification
    times and [_load_all()] would return [loaded]. *)
Definition reload (stat : string -> option Z) (loaded : Snapshot) (force : bool)
    (c : ConfigState) : ConfigState :=
  let '(recorded, changed) :=
    fold_left (note_file stat force) config_files (mtimes c, false) in
  if changed || force then {| mtimes := recorded; data := loaded |}
  else {| mtimes := recorded; data := data c |}.

(** ** The admin endpoints *)

Inductive http_error : Type :=
| HTTPException (status_code : Z) (detail : string).

(** [_require_admin(req)], with the value of the header [X-Admin-Token];
    [None] when it returns without raising. *)
Definition _require_admin (st : AdminSettings) (header : option string)
    : option http_error :=
  if negb (admin_enabled st) then Some (HTTPException 403 "admin endpoints disabled")
  else
    let token := str_or (default EmptyString header) EmptyString in
    let want := admin_token st in
    if negb (truthy want) || negb (String.eqb token want)
    then Some (HTTPException 401 "unauthorized")
    else None.

Definition ALLOWED_FILES : list string :=
  ["settings.json"; "crisis.json"; "faq.json"; "faq_keys.json"; "psy_words.json";
   "system_prompt.md"; "suggestions.json"; "closing.txt"; "patterns.json"].

(** [s.endswith(suffix)] *)
Fixpoint endswith (s suffix : string) : bool :=
  String.eqb s suffix ||
  match s with
  | EmptyString => false
  | String _ s' => endswith s' suffix
  end.

(** Truth value of a JSON value. *)
Definition json_truthy (d : json) : bool :=
  match d with
  | JNull => false
  | JBool b => b
  | JInt z => negb (z =? 0)
  | JFloat f => negb (PrimFloat.eqb f 0%float)
  | JStr s => truthy s
  | JArr l => match l with [] => false | _ => true end
  | JObj items => match items with [] => false | _ => true end
  end.

(** The two library renderings [admin_put_config] writes with:
    [json.dumps(data, ensure_ascii=False, indent=2)] and [str(data)] for
    data that is not a string. *)
Record Rendering : Type := {
  dumps : json -> string;
  str_of : json -> string
}.

(** [str(data or "")] *)
Definition text_of (lib : Rendering) (d : json) : string :=
  if json_truthy d then
    match d with
    | JStr s => s
    | _ => str_of lib d
    end
  else EmptyString.

(** The body of [PUT /admin/config]: [payload.get("file")] and
    [payload.get("data")] (null when missing). *)
Record PutPayload : Type := {
  put_file : option string;
  put_data : json
}.

(** The configuration directory, file name to content, and [CFG]. *)
Record Server : Type := {
  disk : gmap string string;
  CFG : ConfigState
}.

(** [PUT /admin/config].  [stat] and [loaded] are what the forced
    reload finds after the write: the modification times, and the
    snapshot [_load_all] returns on the files as written. *)
Definition admin_put_config (lib : Rendering) (stat : string -> option Z)
    (loaded : Snapshot) (header : option string) (payload : PutPayload) (srv : Server)
    : (http_error + string) * Server :=
  match _require_admin (snap_admin (data (CFG srv))) header with
  | Some e => (inl e, srv)
  | None =>
      match put_file payload with
      | Some fname =>
          if bool_decide (fname ∈ ALLOWED_FILES) then
            let text := if endswith fname ".json" then dumps lib (put_data payload)
                        else text_of lib (put_data payload) in
            (inr fname,
             {| disk := <[fname := text]> (disk srv);
                CFG := reload stat loaded true (CFG srv) |})
          else (inl (HTTPException 400 ("file not allowed: " ++ fname)), srv)
      | None => (inl (HTTPException 400 "file not allowed: None"), srv)
      end
  end.

(** [GET /admin/config]: the snapshot after a reload. *)
Definition admin_get_config (stat : string -> option Z) (loaded : Snapshot)
    (header : option string) (srv : Server) : (http_error + Snapshot) * Server :=
  match _require_admin (snap_admin (data (CFG srv))) header with
  | Some e => (inl e, srv)
  | None =>
      let c := reload stat loaded false (CFG srv) in
      (inr (data c), {| disk := disk srv; CFG := c |})
  end.

(** [POST /admin/reload]: a forced reload. *)
Definition admin_reload (stat : string -> option Z) (loaded : Snapshot)
    (header : option string) (srv : Server) : option http_error * Server :=
  match _require_admin (snap_admin (data (CFG srv))) header with
  | Some e => (Some e, srv)
  | None => (None, {| disk := disk srv; CFG := reload stat loaded true (CFG srv) |})
  end.

(** ** Example data *)

Definition mk_cfg (limit : Z) (keywords : list string)
    (sugg : list (string * string)) : Config :=
  {| max_turns := limit;
     classify_confidence := 0.4%float;
     reply_fallback := "Baik, terima kasih sudah berbagi.";
     clinic_name := "CurhatKuy";
     crisis_keywords := keywords;
     crisis_text := "Kamu tidak sendirian. Segera hubungi 119 ext. 8.";
     faq := {[ "jam" := "Klinik buka 09.00-17.00." ]};
     faq_keys := [("jam", ["jam buka"; "buka jam"])];
     psy_words := ["cemas"; "stres"; "tidur"];
     suggestions := sugg;
     closing_text := "Terima kasih sudah berbagi." |}.

Definition cfg_demo : Config :=
  mk_cfg 5 ["bunuh diri"; "mau mati"]
    [("kecemasan", "Psikolog Klinis Dewasa"); ("anak", "Psikolog Anak")].

(** A snapshot whose only crisis keyword is written in capitals. *)
Definition cfg_capitals : Config := mk_cfg 5 ["SOS"] [].

(** Configuration files whose crisis text carries a token. *)
Definition files_token : Config :=
  {| max_turns := 5;
     classify_confidence := 0.4%float;
     reply_fallback := "Baik, terima kasih sudah berbagi.";
     clinic_name := "CurhatKuy";
     crisis_keywords := ["bunuh diri"; "mau mati"];
     crisis_text := "Kamu tidak sendirian. Hubungi {{ clinic.name }} atau 119 ext. 8.";
     faq := {[ "jam" := "Klinik buka 09.00-17.00." ]};
     faq_keys := [("jam", ["jam buka"; "buka jam"])];
     psy_words := ["cemas"; "stres"; "tidur"];
     suggestions := [];
     closing_text := "Terima kasih sudah berbagi." |}.

(** A templating context in the shape [_load_all] builds. *)
Definition ctx_demo : value :=
  VDict "" [("clinic", VDict "" [("name", VStr "CurhatKuy")]);
            ("settings", VDict "" [("max_turns", VAtom "5")])].

(** A context one of whose values is itself a token. *)
Definition ctx_nested : value :=
  VDict "" [("a", VStr "{{b}}"); ("b", VStr "x")].

(** Intent patterns: a greeting and a thanks pattern, the others unset. *)
Definition pats_demo : Patterns :=
  {| greet := Some (fun t => contains "halo" (ascii_lower t));
     thanks := Some (fun t => contains "terima kasih" (ascii_lower t));
     ack := None; who := None; can := None; about := None |}.

(** Three texts a classifier may answer with. *)
Definition obj_inner : string :=
  dq ++ "category" ++ dq ++ ": " ++ dq ++ "kecemasan" ++ dq ++ ", "
  ++ dq ++ "confidence" ++ dq ++ ": 0.9".

Definition obj_ok : string := "{" ++ obj_inner ++ "}".

Definition obj_null : string := "{" ++ dq ++ "category" ++ dq ++ ": null}".

Definition obj_with_note : string := "Hasil: " ++ obj_ok ++ " (format {label})".

(** An environment for the examples.  The service answers a
    classification prompt with [raw] and any other prompt with a fixed
    sentence; [json_loads] is [json.loads] on the texts the examples reach
    (any other text they reach is not JSON); [round3] is [round(x, 3)] on
    values of at most three decimals. *)
Definition env_demo (raw : string) : Env :=
  {| now := 1000;
     uuid4 := "3f2b8c1e-7a55-4c1d-9b0e-5a1f0c2d4e6f";
     api_key := true;
     generate_content := fun _ p =>
       if String.prefix "Klasifikasikan" p then GenText (Some raw)
       else GenText (Some "Aku mengerti, ceritakan lebih lanjut.");
     json_loads := fun g =>
       if String.eqb g obj_ok
       then Some [("category", JStr "kecemasan"); ("confidence", JFloat 0.9%float)]
       else if String.eqb g obj_null then Some [("category", JNull)]
       else if String.eqb g "{}" then Some []
       else None;
     float_of_int := fun z =>
       if z =? 0 then Some 0%float else if z =? 1 then Some 1%float else None;
     float_of_str := fun _ => None;
     round3 := fun x => x |}.

Definition ask (sid m : string) : ChatRequest :=
  {| req_message := Some m; req_session_id := Some sid |}.

(** A table with one active session one turn short of the limit of
    [cfg_demo]. *)
Definition tbl_four : gmap string Session :=
  {[ "s1" := {| turns := 4;
                texts := ["aku cemas"; "susah tidur"; "stres kerja"; "sering cemas"];
                ended := false; ts := 900 |} ]}.

(** Ninety-nine clients that ask for their status, one after the other. *)
Definition other_clients : list call :=
  map (fun i : nat => CallStatus cfg_demo (env_demo "{}") (Some (pretty i))) (seq 1 99).

(** The table after a crisis message ended session [s1], and two
    requests that follow. *)
Definition tbl_ended : gmap string Session :=
  table (chat (py := ascii_text) cfg_demo pats_demo (env_demo "{}")
           (ask "s1" "aku mau mati") ∅).

(** The table of a hundred sessions in which a crisis message ended
    session [s1]: the next access sweeps the entry of [s1] away. *)
Definition tbl_swept : gmap string Session :=
  table (chat (py := ascii_text) cfg_demo pats_demo (env_demo "{}") (ask "s1" "aku mau mati")
           (serve (py := ascii_text) pats_demo other_clients ∅)).

Definition calls_between : list call :=
  [CallChat cfg_demo (env_demo "{}") (ask "s2" "halo");
   CallStatus cfg_demo (env_demo "{}") (Some "s1")].

(** A snapshot that closes a session after one message. *)
Definition cfg_one : Config :=
  mk_cfg 1 ["bunuh diri"; "mau mati"] [("kecemasan", "Psikolog Klinis Dewasa")].

(** A snapshot that lists the sentinel label among its suggestions. *)
Definition cfg_sentinel : Config := mk_cfg 1 [] [("non_psikologi", "Admin Klinik")].

(** The session stored in [tbl_four]. *)
Definition sess_four : Session :=
  {| turns := 4;
     texts := ["aku cemas"; "susah tidur"; "stres kerja"; "sering cemas"];
     ended := false; ts := 900 |}.

(** A snapshot with an empty string among its crisis keywords. *)
Definition cfg_blank_keyword : Config := mk_cfg 5 [""] [].

(** A classifier answer whose category is a list, and an environment
    whose service gives that answer to a classification prompt. *)
Definition obj_list : string :=
  "{" ++ dq ++ "category" ++ dq ++ ": [" ++ dq ++ "kecemasan" ++ dq ++ "]}".

Definition env_list_category : Env :=
  {| now := 1000;
     uuid4 := "3f2b8c1e-7a55-4c1d-9b0e-5a1f0c2d4e6f";
     api_key := true;
     generate_content := fun _ p =>
       if String.prefix "Klasifikasikan" p then GenText (Some obj_list)
       else GenText (Some "Aku mengerti, ceritakan lebih lanjut.");
     json_loads := fun g =>
       if String.eqb g obj_list then Some [("category", JArr [JStr "kecemasan"])]
       else None;
     float_of_int := fun _ => None;
     float_of_str := fun _ => None;
     round3 := fun x => x |}.

(** A server whose admin endpoints are enabled with a token, a rendering
    for the examples, and a request body for the closing text. *)
Definition snap_admin_on : Snapshot :=
  {| snap_admin := {| admin_enabled := true; admin_token := "rahasia" |};
     snap_config := cfg_demo |}.

Definition srv_demo : Server :=
  {| disk := {[ "closing.txt" := "Sampai jumpa." ]};
     CFG := {| mtimes := ∅; data := snap_admin_on |} |}.

Definition lib_demo : Rendering :=
  {| dumps := fun _ => "{}"; str_of := fun _ => "" |}.

Definition put_closing : PutPayload :=
  {| put_file := Some "closing.txt"; put_data := JStr "Terima kasih, {{clinic.name}}." |}.

(** * Properties *)

Section Properties.

Context {py : PyText}.

(** ** Strings *)

Section StringFacts.

Lemma sapp_nil_l (s : string) : "" ++ s = s.
Proof. reflexivity. Qed.

Lemma sapp_cons (c : ascii) (a b : string) : String c a ++ b = String c (a ++ b).
Proof. reflexivity. Qed.

Lemma sapp_nil_r (s : string) : s ++ "" = s.
Proof. induction s as [|c s IH]; [reflexivity|]. rewrite sapp_cons, IH. reflexivity. Qed.

Lemma sapp_assoc (a b c : string) : (a ++ b) ++ c = a ++ b ++ c.
Proof.
  induction a as [|x a IH]; [reflexivity|].
  rewrite !sapp_cons, IH. reflexivity.
Qed.

Lemma slength_app (a b : string) :
  String.length (a ++ b) = (String.length a + String.length b)%nat.
Proof.
  induction a as [|x a IH]; [reflexivity|].
  rewrite sapp_cons. simpl. rewrite IH. reflexivity.
Qed.

Lemma prefix_occurs (k t : string) :
  String.prefix k t = true <-> exists b, t = k ++ b.
Proof.
  revert t. induction k as [|c k IH]; intros t.
  - destruct t; simpl; split; eauto.
  - destruct t as [|c' t]; simpl.
    + split; [discriminate|]. intros [b Hb]. rewrite sapp_cons in Hb. discriminate.
    + destruct (Ascii.ascii_dec c c') as [->|Hne].
      * rewrite IH. split; intros [b Hb]; exists b.
        -- rewrite sapp_cons. congruence.
        -- rewrite sapp_cons in Hb. congruence.
      * split; [discriminate|]. intros [b Hb]. rewrite sapp_cons in Hb. congruence.
Qed.

Lemma contains_occurs (k t : string) : contains k t = true <-> occurs k t.
Proof.
  induction t as [|c t IH]; cbn [contains].
  - rewrite orb_false_r, prefix_occurs. split.
    + intros [b Hb]. exists "", b. exact Hb.
    + intros [a [b Hb]]. destruct a; [exists b; exact Hb|].
      rewrite sapp_cons in Hb. discriminate.
  - rewrite orb_true_iff, IH, prefix_occurs. split.
    + intros [[b Hb]|[a [b Hb]]].
      * exists "", b. exact Hb.
      * exists (String c a), b. rewrite sapp_cons. congruence.
    + intros [a [b Hb]]. destruct a as [|c' a].
      * left. exists b. exact Hb.
      * right. exists a, b. rewrite sapp_cons in Hb. congruence.
Qed.

Lemma any_in_occurs (kws : list string) (t : string) :
  any_in kws t = true <-> exists k, k ∈ kws /\ occurs k t.
Proof.
  unfold any_in. rewrite existsb_exists. split.
  - intros [k [Hin Hk]]. exists k. split; [apply list_elem_of_In; exact Hin|].
    apply contains_occurs. exact Hk.
  - intros [k [Hin Hk]]. exists k. split; [apply list_elem_of_In; exact Hin|].
    apply contains_occurs. exact Hk.
Qed.

Lemma all_in_app (p : ascii -> bool) (a b : string) :
  all_in p (a ++ b) = all_in p a && all_in p b.
Proof.
  induction a as [|c a IH]; [reflexivity|].
  rewrite sapp_cons. cbn [all_in]. rewrite IH, andb_assoc. reflexivity.
Qed.

(** A text without capitals has none in any of its substrings. *)
Lemma no_capital_occurs (k t : string) :
  occurs k t -> no_capital t = true -> no_capital k = true.
Proof.
  unfold no_capital. intros (a & b & ->). rewrite !all_in_app.
  intros H. apply andb_true_iff in H as [_ H]. apply andb_true_iff in H as [H _]. exact H.
Qed.

End StringFacts.

(** ** Text classifiers *)

Section ClassifierFacts.

Lemma match_faq_loop_spec (answers : gmap string string)
    (keys : list (string * list string)) (t : string) (a : string) :
  match_faq_loop answers keys t = Some a <->
  exists pre k kws post,
    keys = (pre ++ (k, kws) :: post)%list
    /\ Forall (fun kv => any_in kv.2 t = false) pre
    /\ any_in kws t = true
    /\ answers !! k = Some a.
Proof.
  induction keys as [|[k kws] keys IH]; simpl.
  - split; [discriminate|]. intros (pre & k & kws & post & H & _).
    destruct pre; discriminate.
  - destruct (any_in kws t) eqn:Hany.
    + split.
      * intros Ha. exists [], k, kws, keys. auto.
      * intros (pre & k' & kws' & post & H & Hpre & Hk & Ha).
        destruct pre as [|[k0 kws0] pre]; simpl in H.
        -- congruence.
        -- inversion H; subst. inversion Hpre; subst. simpl in *. congruence.
    + rewrite IH. split.
      * intros (pre & k' & kws' & post & H & Hpre & Hk & Ha).
        exists ((k, kws) :: pre), k', kws', post. subst. repeat split; auto.
      * intros (pre & k' & kws' & post & H & Hpre & Hk & Ha).
        destruct pre as [|[k0 kws0] pre]; simpl in H.
        -- inversion H; subst. congruence.
        -- inversion H; subst. inversion Hpre; subst.
           exists pre, k', kws', post. auto.
Qed.

End ClassifierFacts.

(** C8, amended: each classifier fires exactly when a configured keyword,
    as written in the configuration, is a substring of the lowered text.
    [match_faq] answers with the entry of the first trigger set that has
    such a keyword.  The results are functions of the snapshot and the
    text; two texts with the same lowered form are classified alike, so
    the letter case of the text does not matter; and since [str.lower]
    leaves no capital [A] to [Z] in a text, a keyword that contains one
    never matches. *)
Theorem classifiers_match_lowered_text (cfg : Config) (text : string)
    (texts : list string) :
  (is_crisis cfg text = true <->
     exists k, k ∈ crisis_keywords cfg /\ occurs k (lower text))
  /\ (is_psychology_domain cfg texts = true <->
       exists w, w ∈ psy_words cfg /\ occurs w (lower (join " " texts)))
  /\ (forall a, match_faq cfg text = Some a <->
       exists pre k kws post,
         faq_keys cfg = (pre ++ (k, kws) :: post)%list
         /\ (forall k' kws' w, (k', kws') ∈ pre -> w ∈ kws' -> ~ occurs w (lower text))
         /\ (exists w, w ∈ kws /\ occurs w (lower text))
         /\ faq cfg !! k = Some a)
  /\ (forall text', lower text' = lower text ->
       is_crisis cfg text' = is_crisis cfg text
       /\ match_faq cfg text' = match_faq cfg text)
  /\ (forall texts', lower (join " " texts') = lower (join " " texts) ->
       is_psychology_domain cfg texts' = is_psychology_domain cfg texts)
  /\ ((forall s, no_capital (lower s) = true) ->
      (forall k, no_capital k = false ->
         ~ occurs k (lower text) /\ ~ occurs k (lower (join " " texts)))
      /\ (Forall (fun k => no_capital k = false) (crisis_keywords cfg) ->
          is_crisis cfg text = false)
      /\ (Forall (fun w => no_capital w = false) (psy_words cfg) ->
          is_psychology_domain cfg texts = false)
      /\ (Forall (fun kv => Forall (fun w => no_capital w = false) kv.2) (faq_keys cfg) ->
          match_faq cfg text = None)).
Proof.
  split; [|split; [|split; [|split; [|split]]]].
  - unfold is_crisis. apply any_in_occurs.
  - unfold is_psychology_domain. apply any_in_occurs.
  - intros a. unfold match_faq. rewrite match_faq_loop_spec. split.
    + intros (pre & k & kws & post & H & Hpre & Hk & Ha).
      exists pre, k, kws, post. repeat split; auto.
      * intros k' kws' w Hin Hw Hocc.
        rewrite Forall_forall in Hpre. specialize (Hpre _ Hin). simpl in Hpre.
        assert (any_in kws' (lower text) = true) as Hc
          by (apply any_in_occurs; eauto).
        congruence.
      * apply any_in_occurs. exact Hk.
    + intros (pre & k & kws & post & H & Hpre & Hk & Ha).
      exists pre, k, kws, post. repeat split; auto.
      * apply Forall_forall. intros [k' kws'] Hin. simpl.
        destruct (any_in kws' (lower text)) eqn:Hany; [|reflexivity].
        apply any_in_occurs in Hany. destruct Hany as (w & Hw & Hocc).
        exfalso. exact (Hpre _ _ _ Hin Hw Hocc).
      * apply any_in_occurs. exact Hk.
  - intros text' Heq. unfold is_crisis, match_faq. rewrite Heq. split; reflexivity.
  - intros texts' Heq. unfold is_psychology_domain. rewrite Heq. reflexivity.
  - intros Hlow.
    assert (forall k t, no_capital k = false -> ~ occurs k (lower t)) as Hnever.
    { intros k t Hk Hocc. rewrite (no_capital_occurs k _ Hocc (Hlow t)) in Hk. discriminate. }
    assert (forall kws t, Forall (fun k => no_capital k = false) kws ->
                          any_in kws (lower t) = false) as Hnone.
    { intros kws t Hall. destruct (any_in kws (lower t)) eqn:E; [|reflexivity].
      apply any_in_occurs in E as (k & Hin & Hocc).
      rewrite Forall_forall in Hall. exfalso. exact (Hnever k t (Hall k Hin) Hocc). }
    split; [|split; [|split]].
    + intros k Hk. split; apply Hnever; exact Hk.
    + intros Hall. unfold is_crisis. apply Hnone. exact Hall.
    + intros Hall. unfold is_psychology_domain. apply Hnone. exact Hall.
    + intros Hall. unfold match_faq.
      induction Hall as [|[k kws] keys Hk _ IH]; [reflexivity|].
      cbn [match_faq_loop]. cbn [snd] in Hk. rewrite (Hnone kws text Hk). exact IH.
Qed.

(** ** Templating *)

Section TemplateFacts.

Variable ctx : value.

Lemma span_split (p : ascii -> bool) (s a b : string) :
  span p s = (a, b) -> s = a ++ b.
Proof.
  revert a b. induction s as [|c s IH]; intros a b H; simpl in H.
  - inversion H. reflexivity.
  - destruct (p c).
    + destruct (span p s) as [a' b'] eqn:E. inversion H; subst.
      rewrite sapp_cons, (IH a' b eq_refl). reflexivity.
    + inversion H. reflexivity.
Qed.

(** A character outside the class stops [span] where it stands. *)
Lemma span_app_stop (p : ascii -> bool) (l r : string) (c : ascii) :
  p c = false ->
  span p (l ++ String c r) = ((span p l).1, (span p l).2 ++ String c r).
Proof.
  intros Hc. induction l as [|x l IH].
  - simpl. rewrite sapp_nil_l. simpl. rewrite Hc. reflexivity.
  - rewrite sapp_cons. simpl. destruct (p x).
    + rewrite IH. destruct (span p l) as [a b]. reflexivity.
    + simpl. rewrite sapp_cons. reflexivity.
Qed.

Lemma span_all (p : ascii -> bool) (a : string) (c : ascii) (r : string) :
  all_in p a = true -> p c = false -> span p (a ++ String c r) = (a, String c r).
Proof.
  intros Ha Hc. induction a as [|x a IH].
  - rewrite sapp_nil_l. simpl. rewrite Hc. reflexivity.
  - simpl in Ha. apply andb_true_iff in Ha as [Hx Ha].
    rewrite sapp_cons. simpl. rewrite Hx, (IH Ha). reflexivity.
Qed.

Lemma stake_sdrop (n : nat) (s : string) : stake n s ++ sdrop n s = s.
Proof.
  revert s. induction n as [|n IH]; intros [|c s]; try reflexivity.
  cbn [stake sdrop]. rewrite sapp_cons, IH. reflexivity.
Qed.

Lemma sdrop_length (n : nat) (s : string) :
  (String.length (sdrop n s) <= String.length s)%nat.
Proof.
  revert s. induction n as [|n IH]; intros [|c s]; cbn [sdrop String.length]; try lia.
  specialize (IH s). lia.
Qed.

Lemma stake_app (n : nat) (l r : string) :
  (n <= String.length l)%nat -> stake n (l ++ r) = stake n l.
Proof.
  revert l. induction n as [|n IH]; intros l Hn.
  - destruct l, r; reflexivity.
  - destruct l as [|c l]; [simpl in Hn; lia|].
    rewrite sapp_cons. cbn [stake]. rewrite IH; [reflexivity|simpl in Hn; lia].
Qed.

Lemma sdrop_app (n : nat) (l r : string) :
  (n <= String.length l)%nat -> sdrop n (l ++ r) = sdrop n l ++ r.
Proof.
  revert l. induction n as [|n IH]; intros l Hn.
  - destruct l; reflexivity.
  - destruct l as [|c l]; [simpl in Hn; lia|].
    rewrite sapp_cons. cbn [sdrop]. apply IH. simpl in Hn. lia.
Qed.

(** A match starts with a pair of opening braces. *)
Lemma match_token_open (s : string) (m : string * string * string) :
  match_token s = Some m -> exists r, s = String "{" (String "{" r).
Proof.
  unfold match_token. intros H.
  destruct s as [|c1 s]; [discriminate|].
  destruct (Ascii.ascii_dec c1 "{") as [->|Hn];
    [|destruct c1 as [[] [] [] [] [] [] [] []]; try discriminate; congruence].
  destruct s as [|c2 s]; [discriminate|].
  destruct (Ascii.ascii_dec c2 "{") as [->|Hn];
    [|destruct c2 as [[] [] [] [] [] [] [] []]; try discriminate; congruence].
  eexists. reflexivity.
Qed.

(** Group 0 of a match and the text after it make up the text, and a
    match is not empty. *)
Lemma match_token_sound (s g1 g0 rest : string) :
  match_token s = Some (g1, g0, rest) ->
  s = g0 ++ rest /\ (String.length rest < String.length s)%nat.
Proof.
  intros H. destruct (match_token_open s _ H) as [s1 ->].
  unfold match_token in H.
  pose proof (stake_sdrop (spaces s1) s1) as E1.
  pose proof (sdrop_length (spaces s1) s1) as L1.
  destruct (span is_ident (sdrop (spaces s1) s1)) as [name s3] eqn:E2.
  pose proof (stake_sdrop (spaces s3) s3) as E3.
  pose proof (sdrop_length (spaces s3) s3) as L3.
  destruct name as [|n0 name]; [discriminate|].
  destruct (sdrop (spaces s3) s3) as [|c3 s4]; [discriminate|].
  destruct (Ascii.ascii_dec c3 "}") as [->|Hn];
    [|destruct c3 as [[] [] [] [] [] [] [] []]; try discriminate; congruence].
  destruct s4 as [|c4 s4]; [discriminate|].
  destruct (Ascii.ascii_dec c4 "}") as [->|Hn];
    [|destruct c4 as [[] [] [] [] [] [] [] []]; try discriminate; congruence].
  inversion H; subst. apply span_split in E2.
  split.
  - rewrite <- E1 at 1. rewrite E2. rewrite <- E3 at 1.
    rewrite !sapp_cons, !sapp_nil_l, !sapp_assoc, !sapp_cons, !sapp_assoc.
    rewrite !sapp_cons, !sapp_nil_l. reflexivity.
  - assert (String.length s3 <= String.length (sdrop (spaces s1) s1))%nat as L2
      by (rewrite E2, slength_app; lia).
    cbn [String.length] in *. lia.
Qed.

End TemplateFacts.

Section TemplateScan.

Variable ctx : value.

Lemma sub_fuel_enough (n m : nat) (s : string) :
  (String.length s <= n)%nat -> (String.length s <= m)%nat ->
  sub_fuel n ctx s = sub_fuel m ctx s.
Proof.
  revert m s. induction n as [|n IH]; intros m s Hn Hm.
  - destruct s; [|simpl in Hn; lia]. destruct m; reflexivity.
  - destruct m as [|m].
    + destruct s; [reflexivity|simpl in Hm; lia].
    + destruct s as [|c s]; [reflexivity|].
      cbn [sub_fuel]. simpl in Hn, Hm.
      destruct (match_token (String c s)) as [[[g1 g0] rest]|] eqn:E.
      * apply match_token_sound in E as [_ Hlt]. simpl in Hlt.
        rewrite (IH m rest); [reflexivity|lia|lia].
      * rewrite (IH m s); [reflexivity|lia|lia].
Qed.

(** The equation of the scan, free of fuel. *)
Lemma template_eq (s : string) :
  _template s ctx =
  match s with
  | EmptyString => EmptyString
  | String c s' =>
      match match_token s with
      | Some (g1, g0, rest) => repl ctx g1 g0 ++ _template rest ctx
      | None => String c (_template s' ctx)
      end
  end.
Proof.
  unfold _template. destruct s as [|c s]; [reflexivity|].
  cbn [String.length sub_fuel].
  destruct (match_token (String c s)) as [[[g1 g0] rest]|] eqn:E.
  - apply match_token_sound in E as [_ Hlt]. simpl in Hlt.
    rewrite (sub_fuel_enough (String.length s) (String.length rest)); [reflexivity|lia|lia].
  - reflexivity.
Qed.

Lemma findall_fuel_enough (n m : nat) (s : string) :
  (String.length s <= n)%nat -> (String.length s <= m)%nat ->
  findall_fuel n s = findall_fuel m s.
Proof.
  revert m s. induction n as [|n IH]; intros m s Hn Hm.
  - destruct s; [|simpl in Hn; lia]. destruct m; reflexivity.
  - destruct m as [|m].
    + destruct s; [reflexivity|simpl in Hm; lia].
    + destruct s as [|c s]; [reflexivity|].
      cbn [findall_fuel]. simpl in Hn, Hm.
      destruct (match_token (String c s)) as [[[g1 g0] rest]|] eqn:E.
      * apply match_token_sound in E as [_ Hlt]. simpl in Hlt.
        rewrite (IH m rest); [reflexivity|lia|lia].
      * rewrite (IH m s); [reflexivity|lia|lia].
Qed.

Lemma tokens_eq (s : string) :
  tokens s =
  match s with
  | EmptyString => []
  | String c s' =>
      match match_token s with
      | Some (g1, _, rest) => g1 :: tokens rest
      | None => tokens s'
      end
  end.
Proof.
  unfold tokens. destruct s as [|c s]; [reflexivity|].
  cbn [String.length findall_fuel].
  destruct (match_token (String c s)) as [[[g1 g0] rest]|] eqn:E.
  - apply match_token_sound in E as [_ Hlt]. simpl in Hlt.
    rewrite (findall_fuel_enough (String.length s) (String.length rest)); [reflexivity|lia|lia].
  - reflexivity.
Qed.

(** A match that starts before a pair of opening braces ends before it. *)
Lemma match_token_before_open (l r : string) :
  brace_ends_spaces ->
  l <> "" ->
  match_token (l ++ String "{" (String "{" r)) =
  match match_token l with
  | Some (g1, g0, rest) => Some (g1, g0, rest ++ String "{" (String "{" r))
  | None => None
  end.
Proof.
  intros Hlaw Hl. destruct l as [|c1 l]; [congruence|]. clear Hl.
  rewrite sapp_cons.
  destruct (Ascii.ascii_dec c1 "{") as [->|Hn];
    [|destruct c1 as [[] [] [] [] [] [] [] []]; try reflexivity; congruence].
  destruct l as [|c2 l].
  { rewrite sapp_nil_l. unfold match_token.
    destruct (Hlaw "" r) as [H0 H1]. rewrite sapp_nil_l in H1.
    cbn [String.length] in H0. rewrite H1.
    replace (spaces "") with O by lia. reflexivity. }
  rewrite sapp_cons.
  destruct (Ascii.ascii_dec c2 "{") as [->|Hn];
    [|destruct c2 as [[] [] [] [] [] [] [] []]; try reflexivity; congruence].
  unfold match_token.
  destruct (Hlaw l (String "{" r)) as [Hle1 ->].
  rewrite (stake_app _ _ _ Hle1), (sdrop_app _ _ _ Hle1).
  rewrite (span_app_stop is_ident (sdrop (spaces l) l) _ "{" eq_refl).
  destruct (span is_ident (sdrop (spaces l) l)) as [name s3]. cbn [fst snd].
  destruct (Hlaw s3 (String "{" r)) as [Hle3 ->].
  rewrite (stake_app _ _ _ Hle3), (sdrop_app _ _ _ Hle3).
  destruct name as [|n0 name].
  - destruct (sdrop (spaces s3) s3); reflexivity.
  - destruct (sdrop (spaces s3) s3) as [|c3 s4]; [reflexivity|]. rewrite sapp_cons.
    destruct (Ascii.ascii_dec c3 "}") as [->|Hn];
      [|destruct c3 as [[] [] [] [] [] [] [] []]; try reflexivity; congruence].
    destruct s4 as [|c4 s4]; [reflexivity|]. rewrite sapp_cons.
    destruct (Ascii.ascii_dec c4 "}") as [->|Hn];
      [|destruct c4 as [[] [] [] [] [] [] [] []]; try reflexivity; congruence].
    reflexivity.
Qed.

(** The scan of the text before a pair of opening braces does not depend
    on what follows. *)
Lemma template_app_open (pre r : string) :
  brace_ends_spaces ->
  _template (pre ++ String "{" (String "{" r)) ctx
  = _template pre ctx ++ _template (String "{" (String "{" r)) ctx.
Proof.
  intros Hlaw.
  remember (String.length pre) as n eqn:Hn. revert pre Hn.
  induction n as [n IH] using lt_wf_ind. intros pre Hn.
  destruct pre as [|c pre].
  - rewrite (template_eq ""). reflexivity.
  - rewrite (template_eq (String c pre ++ _)), (template_eq (String c pre)).
    rewrite (match_token_before_open _ _ Hlaw) by discriminate.
    rewrite sapp_cons.
    destruct (match_token (String c pre)) as [[[g1 g0] rest]|] eqn:E.
    + apply match_token_sound in E as [_ Hlt].
      rewrite (IH (String.length rest)); [|lia|reflexivity].
      rewrite sapp_assoc. reflexivity.
    + rewrite (IH (String.length pre)); [|simpl in Hn; lia|reflexivity].
      rewrite sapp_cons. reflexivity.
Qed.

(** A token is replaced where it stands: the text before it and the text
    after it are rendered on their own. *)
Lemma template_token (pre tok name post : string) :
  brace_ends_spaces ->
  match_token (tok ++ post) = Some (name, tok, post) ->
  _template (pre ++ tok ++ post) ctx
  = _template pre ctx ++ repl ctx name tok ++ _template post ctx.
Proof.
  intros Hlaw Hm. destruct (match_token_open _ _ Hm) as [r Hr].
  rewrite Hr, (template_app_open _ _ Hlaw). f_equal.
  rewrite template_eq, <- Hr, Hm. reflexivity.
Qed.

(** The first token of a text stands after text without an opening
    brace, which is copied. *)
Lemma template_no_open (s : string) : free_of "{" s = true -> _template s ctx = s.
Proof.
  induction s as [|c s IH]; intros H; rewrite template_eq; [reflexivity|].
  cbn [free_of] in H. apply andb_true_iff in H as [Hc Hs].
  assert (match_token (String c s) = None) as ->.
  { destruct (match_token (String c s)) as [m|] eqn:E; [|reflexivity].
    destruct (match_token_open _ _ E) as [r [= -> _]]. discriminate Hc. }
  rewrite (IH Hs). reflexivity.
Qed.

Lemma template_first_token (pre tok name post : string) :
  free_of "{" pre = true ->
  match_token (tok ++ post) = Some (name, tok, post) ->
  _template (pre ++ tok ++ post) ctx = pre ++ repl ctx name tok ++ _template post ctx.
Proof.
  intros Hpre Hm. induction pre as [|c pre IH].
  - rewrite !sapp_nil_l. destruct (match_token_open _ _ Hm) as [r Hr].
    rewrite template_eq, Hr, <- Hr, Hm. reflexivity.
  - cbn [free_of] in Hpre. apply andb_true_iff in Hpre as [Hc Hpre].
    rewrite sapp_cons, template_eq.
    assert (match_token (String c (pre ++ tok ++ post)) = None) as ->.
    { destruct (match_token (String c (pre ++ tok ++ post))) as [m|] eqn:E; [|reflexivity].
      destruct (match_token_open _ _ E) as [r [= -> _]]. discriminate Hc. }
    rewrite (IH Hpre), sapp_cons. reflexivity.
Qed.

(** A template whose tokens are all absent from the context is left as
    it is. *)
Lemma template_all_absent (s : string) :
  forallb (absent ctx) (tokens s) = true -> _template s ctx = s.
Proof.
  remember (String.length s) as n eqn:Hn. revert s Hn.
  induction n as [n IH] using lt_wf_ind. intros s Hn Hall.
  rewrite template_eq. rewrite tokens_eq in Hall.
  destruct s as [|c s]; [reflexivity|].
  destruct (match_token (String c s)) as [[[g1 g0] rest]|] eqn:E.
  - apply match_token_sound in E as [Hs Hlt].
    simpl in Hall. apply andb_true_iff in Hall as [Habs Hall].
    rewrite (IH (String.length rest)); [|lia|reflexivity|exact Hall].
    unfold repl. unfold absent in Habs.
    destruct (walk ctx (split_dot g1)); [discriminate|]. symmetry. exact Hs.
  - rewrite (IH (String.length s)); [reflexivity|simpl in Hn; lia|reflexivity|exact Hall].
Qed.

End TemplateScan.

(** C9, amended: a token whose dotted path is absent from the context is
    left verbatim, wherever it stands in the template; and a second pass
    changes nothing when no token of the first output resolves in the
    context.  A token is a match of the pattern of [_template]: [tok] is
    its text and [name] its dotted path. *)
Theorem template_absent_verbatim (ctx : value) (pre tok name post s : string) :
  brace_ends_spaces ->
  match_token (tok ++ post) = Some (name, tok, post) ->
  absent ctx name = true ->
  forallb (absent ctx) (tokens (_template s ctx)) = true ->
  _template (pre ++ tok ++ post) ctx = _template pre ctx ++ tok ++ _template post ctx
  /\ _template (_template s ctx) ctx = _template s ctx.
Proof.
  intros Hlaw Hm Habs Hout. split.
  - rewrite (template_token ctx pre tok name post Hlaw Hm).
    unfold repl. unfold absent in Habs.
    destruct (walk ctx (split_dot name)); [discriminate|]. reflexivity.
  - apply template_all_absent. exact Hout.
Qed.

(** ** The session table *)

Section TableFacts.

Implicit Types (tbl : gmap string Session) (sid k : string) (s : Session).

Lemma sweep_lookup (t : Z) tbl k :
  sweep t tbl !! k =
  match tbl !! k with
  | Some s => if stale (t - 60 * 60) s then None else Some s
  | None => None
  end.
Proof.
  unfold sweep. destruct (tbl !! k) as [s|] eqn:E.
  - destruct (stale (t - 60 * 60) s) eqn:St.
    + apply map_lookup_filter_None. right. intros x Hx. simpl. congruence.
    + apply map_lookup_filter_Some. split; [exact E|exact St].
  - apply map_lookup_filter_None. left. exact E.
Qed.

Lemma open_session_ts (t : Z) sid tbl : ts (open_session t sid tbl) = t.
Proof. unfold open_session. destruct (tbl !! sid); reflexivity. Qed.

Lemma get_sess_fst (t : Z) sid tbl :
  (get_sess t sid tbl).1 = open_session t sid tbl.
Proof. reflexivity. Qed.

(** A session that is not ended survives the sweep of its own access. *)
Lemma get_sess_keeps_active (t : Z) sid tbl :
  ended (open_session t sid tbl) = false ->
  (get_sess t sid tbl).2 !! sid = Some (open_session t sid tbl).
Proof.
  intros Hact. unfold get_sess. cbn [snd].
  destruct (Z.of_nat (size (<[sid:=open_session t sid tbl]> tbl)) mod 100 =? 0).
  - rewrite sweep_lookup, lookup_insert_eq.
    unfold stale. rewrite open_session_ts, Hact.
    replace (t <? t - 60 * 60) with false by (symmetry; apply Z.ltb_ge; lia).
    reflexivity.
  - apply lookup_insert_eq.
Qed.

Lemma get_sess_self (t : Z) sid tbl :
  (get_sess t sid tbl).2 !! sid = Some (open_session t sid tbl)
  \/ ((get_sess t sid tbl).2 !! sid = None /\ ended (open_session t sid tbl) = true).
Proof.
  destruct (ended (open_session t sid tbl)) eqn:He.
  - unfold get_sess. cbn [snd].
    destruct (Z.of_nat (size (<[sid:=open_session t sid tbl]> tbl)) mod 100 =? 0).
    + right. split; [|reflexivity].
      rewrite sweep_lookup, lookup_insert_eq. unfold stale. rewrite He, orb_true_r.
      reflexivity.
    + left. apply lookup_insert_eq.
  - left. apply get_sess_keeps_active. exact He.
Qed.

(** An access changes another session only by sweeping it away. *)
Lemma get_sess_other (t : Z) sid tbl k :
  k <> sid ->
  (get_sess t sid tbl).2 !! k = tbl !! k \/ (get_sess t sid tbl).2 !! k = None.
Proof.
  intros Hk. unfold get_sess. cbn [snd].
  destruct (Z.of_nat (size (<[sid:=open_session t sid tbl]> tbl)) mod 100 =? 0).
  - rewrite sweep_lookup, lookup_insert_ne by congruence.
    destruct (tbl !! k) as [s|]; [|left; reflexivity].
    destruct (stale (t - 60 * 60) s); [right|left]; reflexivity.
  - left. apply lookup_insert_ne. congruence.
Qed.

(** When an access removes a stored entry: the sweep runs, and the entry
    is ended or, for another session, was last used more than an hour
    before. *)
Lemma get_sess_removed (t : Z) sid tbl k s :
  tbl !! k = Some s ->
  (get_sess t sid tbl).2 !! k = None <->
  Z.of_nat (size (<[sid := open_session t sid tbl]> tbl)) mod 100 = 0
  /\ (ended s = true \/ (k <> sid /\ ts s < t - 60 * 60)).
Proof.
  intros Hs. unfold get_sess. cbn [snd].
  destruct (Z.of_nat (size (<[sid := open_session t sid tbl]> tbl)) mod 100 =? 0) eqn:Hmod.
  - apply Z.eqb_eq in Hmod. rewrite sweep_lookup.
    destruct (decide (k = sid)) as [->|Hne].
    + rewrite lookup_insert_eq.
      assert (stale (t - 60 * 60) (open_session t sid tbl) = ended s) as ->.
      { unfold open_session. rewrite Hs. unfold stale. cbn [touch ts ended].
        replace (t <? t - 60 * 60) with false by (symmetry; apply Z.ltb_ge; lia).
        reflexivity. }
      destruct (ended s).
      * split; [intros _; split; [exact Hmod|left; reflexivity]|reflexivity].
      * split; [discriminate|]. intros [_ [H|[H _]]]; [discriminate|congruence].
    + rewrite lookup_insert_ne by congruence. rewrite Hs. unfold stale.
      destruct (ts s <? t - 60 * 60) eqn:Hold.
      * apply Z.ltb_lt in Hold. cbn [orb].
        split; [intros _; split; [exact Hmod|right; split; assumption]|reflexivity].
      * apply Z.ltb_ge in Hold. cbn [orb]. destruct (ended s).
        -- split; [intros _; split; [exact Hmod|left; reflexivity]|reflexivity].
        -- split; [discriminate|]. intros [_ [H|[_ H]]]; [discriminate|lia].
  - apply Z.eqb_neq in Hmod. split; [|intros [H _]; contradiction].
    destruct (decide (k = sid)) as [->|Hne].
    + rewrite lookup_insert_eq. discriminate.
    + rewrite lookup_insert_ne by congruence. rewrite Hs. discriminate.
Qed.

End TableFacts.

(** ** The routes of [chat] *)

Section Routes.

Variables (cfg : Config) (pats : Patterns) (env : Env) (req : ChatRequest).
Variable tbl : gmap string Session.

Local Abbreviation msg := (chat_message req).
Local Abbreviation sid := (chat_sid env req).
Local Abbreviation sess := (open_session (now env) (chat_sid env req) tbl).
Local Abbreviation tbl1 := (get_sess (now env) (chat_sid env req) tbl).2.

Ltac enter_chat :=
  unfold chat; fold (chat_message req); fold (chat_sid env req);
  rewrite (surjective_pairing (get_sess (now env) (chat_sid env req) tbl));
  rewrite get_sess_fst.

Lemma chat_ended :
  ended sess = true ->
  chat cfg pats env req tbl =
  {| result := Return (plain ended_reply true sid 0); table := tbl1; prompts := [] |}.
Proof. intros He. enter_chat. rewrite He. reflexivity. Qed.

Lemma chat_crisis :
  ended sess = false -> is_crisis cfg msg = true ->
  chat cfg pats env req tbl =
  {| result := Return {| reply := Some (crisis_message cfg); end_ := true;
                         session_id := sid; remaining := 0; handoff := Some true;
                         category := None; confidence := None |};
     table := alter set_ended sid tbl1; prompts := [] |}.
Proof. intros He Hc. enter_chat. rewrite He, Hc. reflexivity. Qed.

Lemma chat_faq (a : string) :
  ended sess = false -> is_crisis cfg msg = false ->
  match_faq cfg msg = Some a -> truthy a = true ->
  chat cfg pats env req tbl =
  {| result := Return (plain a false sid (Z.max 0 (max_turns cfg - (turns sess + 1))));
     table := alter (add_turn msg) sid tbl1; prompts := [] |}.
Proof.
  intros He Hc Hf Ha. enter_chat. rewrite He, Hc, Hf.
  destruct a; [discriminate|]. reflexivity.
Qed.

Lemma chat_meta (m : meta) :
  ended sess = false -> is_crisis cfg msg = false -> no_faq_answer cfg msg ->
  match_meta_query pats msg = Some m ->
  chat cfg pats env req tbl =
  {| result := Return (plain (meta_reply cfg m) false sid
                         (Z.max 0 (max_turns cfg - turns sess)));
     table := tbl1; prompts := [] |}.
Proof.
  intros He Hc Hf Hm. enter_chat. rewrite He, Hc.
  destruct Hf as [-> | ->]; rewrite Hm; reflexivity.
Qed.

Lemma chat_smalltalk :
  ended sess = false -> is_crisis cfg msg = false -> no_faq_answer cfg msg ->
  match_meta_query pats msg = None -> is_smalltalk pats msg = true ->
  chat cfg pats env req tbl =
  {| result := Return (plain smalltalk_reply false sid
                         (Z.max 0 (max_turns cfg - turns sess)));
     table := tbl1; prompts := [] |}.
Proof.
  intros He Hc Hf Hm Hs. enter_chat. rewrite He, Hc.
  destruct Hf as [-> | ->]; rewrite Hm, Hs; reflexivity.
Qed.

Lemma chat_substantive :
  ended sess = false -> is_crisis cfg msg = false -> no_faq_answer cfg msg ->
  match_meta_query pats msg = None -> is_smalltalk pats msg = false ->
  chat cfg pats env req tbl = substantive cfg env sid msg sess tbl1.
Proof.
  intros He Hc Hf Hm Hs. enter_chat. rewrite He, Hc.
  destruct Hf as [-> | ->]; rewrite Hm, Hs; reflexivity.
Qed.

End Routes.

(** ** Crisis *)

(** C2, amended: on a session that is not ended, a message whose lowered
    text contains a crisis keyword as the configuration writes it ends
    the session on that call, whatever its turn count.  The response is
    the crisis message of the snapshot with [handoff], [end] and
    [remaining = 0]; the turn counter and the transcript are untouched and
    nothing is sent to the generative service.  For a snapshot that
    [_load_all] rendered, the message is the text of [crisis.json] itself
    when that has no opening brace, and otherwise the text up to its first
    token, what the token stands for in the context, and the rendering of
    the rest. *)
Theorem crisis_ends_session (cfg : Config) (pats : Patterns) (env : Env)
    (req : ChatRequest) (tbl : gmap string Session) (k : string) :
  let sid := chat_sid env req in
  let sess := open_session (now env) sid tbl in
  ended sess = false ->
  k ∈ crisis_keywords cfg ->
  occurs k (lower (chat_message req)) ->
  let run := chat cfg pats env req tbl in
  result run = Return {| reply := Some (crisis_message cfg); end_ := true;
                         session_id := sid; remaining := 0; handoff := Some true;
                         category := None; confidence := None |}
  /\ prompts run = []
  /\ (exists s', table run !! sid = Some s'
        /\ ended s' = true /\ turns s' = turns sess /\ texts s' = texts sess)
  /\ (forall ctx files, cfg = _load_all ctx files ->
        (free_of "{" (crisis_text files) = true -> crisis_message cfg = crisis_text files)
        /\ (forall pre tok name post,
              crisis_text files = pre ++ tok ++ post ->
              free_of "{" pre = true ->
              match_token (tok ++ post) = Some (name, tok, post) ->
              crisis_message cfg = pre ++ repl ctx name tok ++ _template post ctx)).
Proof.
  cbv zeta. intros He Hk Hocc.
  assert (is_crisis cfg (chat_message req) = true) as Hc
    by (unfold is_crisis; apply any_in_occurs; eauto).
  rewrite (chat_crisis cfg pats env req tbl He Hc). cbn [result prompts table].
  split; [reflexivity|]. split; [reflexivity|]. split.
  - exists (set_ended (open_session (now env) (chat_sid env req) tbl)).
    split; [|repeat split].
    rewrite lookup_alter_eq, (get_sess_keeps_active _ _ _ He). reflexivity.
  - intros ctx files ->. unfold crisis_message. cbn [_load_all crisis_text]. split.
    + apply template_no_open.
    + intros pre tok name post -> Hpre Hm. apply template_first_token; assumption.
Qed.

(** ** Turn accounting *)

(** Slicing the empty text gives the empty text, whatever [spaces] says. *)
Lemma strip_empty : strip "" = "".
Proof. unfold strip, lstrip. destruct (spaces ""); reflexivity. Qed.

Lemma strip_truthy (m : string) : truthy (strip m) = true -> truthy m = true.
Proof. destruct m; [rewrite strip_empty; discriminate|reflexivity]. Qed.

Lemma not_smalltalk_truthy (pats : Patterns) (m : string) :
  is_smalltalk pats m = false -> truthy m = true.
Proof.
  unfold is_smalltalk. intros H. apply strip_truthy.
  destruct (truthy (strip m)); [reflexivity|discriminate].
Qed.

(** The closing turn either returns with [end] set and the session marked
    ended, or raises on an unhashable category and leaves the table. *)
Lemma close_session_cases (cfg : Config) (env : Env) (sid : string) (s : Session)
    (base : string) (sent : list string) (tbl : gmap string Session) :
  let run := close_session cfg env sid s base sent tbl in
  (exists r, result run = Return r /\ end_ r = true /\ remaining r = 0
             /\ session_id r = sid /\ table run = alter set_ended sid tbl
             /\ (reply r = Some (with_closing base (closing cfg))
                 \/ exists sp, reply r = Some (with_suggestion base sp (closing cfg))))
  \/ (result run = Raise "TypeError" /\ table run = tbl).
Proof.
  cbv zeta. unfold close_session.
  destruct (classifier_raw cfg env s sent) as [cat_raw sent'].
  destruct (in_suggestions cfg _) as [known|]; [left|right; split; reflexivity].
  eexists. split; [reflexivity|]. cbn [end_ remaining session_id table reply].
  repeat split.
  destruct (known && confident cfg _); [right; eexists|left]; reflexivity.
Qed.

(** What the substantive path leaves in the table for its session. *)
Lemma substantive_table (cfg : Config) (env : Env) (sid m : string) (s : Session)
    (tbl : gmap string Session) :
  truthy m = true -> tbl !! sid = Some s ->
  exists s', table (substantive cfg env sid m s tbl) !! sid = Some s'
             /\ turns s' = turns s + 1 /\ texts s' = (texts s ++ [m])%list.
Proof.
  intros Hm Hs. unfold substantive. rewrite Hm.
  destruct (answer cfg env m (add_turn m s)) as [reply sent].
  destruct (turns (add_turn m s) >=? max_turns cfg).
  - destruct (close_session_cases cfg env sid (add_turn m s) reply sent
                (alter (add_turn m) sid tbl)) as [(r & _ & _ & _ & _ & -> & _)|[_ ->]].
    + exists (set_ended (add_turn m s)).
      rewrite !lookup_alter_eq, Hs. repeat split.
    + exists (add_turn m s). rewrite lookup_alter_eq, Hs. repeat split.
  - exists (add_turn m s). cbn [table]. rewrite lookup_alter_eq, Hs. repeat split.
Qed.

(** C5: on a session that is not ended and a message that is not a crisis,
    an FAQ answer counts one turn and appends the message; a meta or
    small-talk reply leaves turn counter, transcript and ended flag as they
    were; a substantive message counts one turn and appends the message;
    and the FAQ, meta and small-talk replies all report [end = false] and
    leave the session active. *)
Theorem turn_accounting (cfg : Config) (pats : Patterns) (env : Env)
    (req : ChatRequest) (tbl : gmap string Session) :
  let sid := chat_sid env req in
  let m := chat_message req in
  let sess := open_session (now env) sid tbl in
  let run := chat cfg pats env req tbl in
  ended sess = false ->
  is_crisis cfg m = false ->
  (forall a, match_faq cfg m = Some a -> truthy a = true ->
     (exists r, result run = Return r /\ end_ r = false)
     /\ exists s', table run !! sid = Some s' /\ turns s' = turns sess + 1
                   /\ texts s' = (texts sess ++ [m])%list /\ ended s' = false)
  /\ (no_faq_answer cfg m ->
      is_Some (match_meta_query pats m) \/ is_smalltalk pats m = true ->
      (exists r, result run = Return r /\ end_ r = false)
      /\ exists s', table run !! sid = Some s' /\ turns s' = turns sess
                    /\ texts s' = texts sess /\ ended s' = false)
  /\ (no_faq_answer cfg m ->
      match_meta_query pats m = None -> is_smalltalk pats m = false ->
      exists s', table run !! sid = Some s' /\ turns s' = turns sess + 1
                 /\ texts s' = (texts sess ++ [m])%list).
Proof.
  cbv zeta. intros He Hc.
  pose proof (get_sess_keeps_active _ _ _ He) as Hkeep.
  split; [|split].
  - intros a Hf Ha. rewrite (chat_faq cfg pats env req tbl a He Hc Hf Ha).
    cbn [result table]. split; [eexists; split; reflexivity|].
    eexists. rewrite lookup_alter_eq, Hkeep. repeat split. exact He.
  - intros Hf Hroute.
    destruct (match_meta_query pats (chat_message req)) as [mq|] eqn:Hm.
    + rewrite (chat_meta cfg pats env req tbl mq He Hc Hf Hm).
      cbn [result table]. split; [eexists; split; reflexivity|].
      eexists. split; [exact Hkeep|]. repeat split. exact He.
    + destruct Hroute as [[x Hx]|Hs]; [discriminate|].
      rewrite (chat_smalltalk cfg pats env req tbl He Hc Hf Hm Hs).
      cbn [result table]. split; [eexists; split; reflexivity|].
      eexists. split; [exact Hkeep|]. repeat split. exact He.
  - intros Hf Hm Hs.
    rewrite (chat_substantive cfg pats env req tbl He Hc Hf Hm Hs).
    apply substantive_table; [|exact Hkeep].
    exact (not_smalltalk_truthy pats _ Hs).
Qed.

(** ** The turn limit and FAQ answers *)

(** C10: the turn limit is checked on the substantive path only.  An FAQ
    answer on a session with [max_turns - 1] turns or more counts the turn
    and returns [end = false] with [remaining = 0]: the session stays
    active with a turn counter at or above the limit. *)
Theorem faq_overshoots_turn_limit (cfg : Config) (pats : Patterns) (env : Env)
    (req : ChatRequest) (tbl : gmap string Session) (a : string) :
  let sid := chat_sid env req in
  let m := chat_message req in
  let sess := open_session (now env) sid tbl in
  let run := chat cfg pats env req tbl in
  ended sess = false ->
  is_crisis cfg m = false ->
  match_faq cfg m = Some a -> truthy a = true ->
  max_turns cfg - 1 <= turns sess ->
  result run = Return (plain a false sid 0)
  /\ exists s', table run !! sid = Some s' /\ turns s' = turns sess + 1
                /\ max_turns cfg <= turns s' /\ ended s' = false.
Proof.
  cbv zeta. intros He Hc Hf Ha Hlim.
  rewrite (chat_faq cfg pats env req tbl a He Hc Hf Ha). cbn [result table]. split.
  - f_equal. f_equal. lia.
  - eexists. rewrite lookup_alter_eq, (get_sess_keeps_active _ _ _ He).
    split; [reflexivity|]. cbn [add_turn turns ended]. repeat split; [lia|exact He].
Qed.

(** ** The reported [remaining] *)

(** What the substantive path returns. *)
Lemma substantive_cases (cfg : Config) (env : Env) (sid m : string) (s : Session)
    (tbl : gmap string Session) (r : Response) :
  truthy m = true ->
  result (substantive cfg env sid m s tbl) = Return r ->
  session_id r = sid
  /\ (end_ r = true -> remaining r = 0)
  /\ (end_ r = false ->
      remaining r = Z.max 0 (max_turns cfg - (turns s + 1))
      /\ table (substantive cfg env sid m s tbl) = alter (add_turn m) sid tbl).
Proof.
  intros Hm. unfold substantive. rewrite Hm.
  destruct (answer cfg env m (add_turn m s)) as [reply sent].
  destruct (turns (add_turn m s) >=? max_turns cfg).
  - destruct (close_session_cases cfg env sid (add_turn m s) reply sent
                (alter (add_turn m) sid tbl))
      as [(r' & -> & Hend & Hrem & Hsid & _)|[-> _]]; [|discriminate].
    intros [= <-]. repeat split; try assumption; congruence.
  - cbn [result table]. intros [= <-]. cbn [plain session_id end_ remaining].
    repeat split; discriminate.
Qed.

Lemma faq_answer_cases (cfg : Config) (m : string) :
  (exists a, match_faq cfg m = Some a /\ truthy a = true) \/ no_faq_answer cfg m.
Proof.
  unfold no_faq_answer. destruct (match_faq cfg m) as [[|c a]|]; eauto.
Qed.

(** C3, amended: every response of [/chat] and [/status] carries the
    session identifier the request resolves to, the supplied one or a
    newly generated one when none was supplied, reports [remaining = 0]
    when it reports [end = true], and otherwise reports
    [max(0, max_turns - turns)] for the turn counter the session has after
    the call. *)
Theorem remaining_reported (pats : Patterns) (c : call) (tbl : gmap string Session)
    (r : Response) :
  result (handle pats c tbl) = Return r ->
  session_id r = call_sid c
  /\ (forall env s, truthy s = true -> resolve_sid env (Some s) = s)
  /\ (forall env, resolve_sid env None = uuid4 env /\ resolve_sid env (Some "") = uuid4 env)
  /\ (end_ r = true -> remaining r = 0)
  /\ (end_ r = false ->
      exists s, table (handle pats c tbl) !! call_sid c = Some s
                /\ ended s = false
                /\ remaining r = Z.max 0 (max_turns (call_cfg c) - turns s)).
Proof.
  intros Hr.
  assert (forall env s, truthy s = true -> resolve_sid env (Some s) = s) as Hsup
    by (intros env s Hs; unfold resolve_sid; rewrite Hs; reflexivity).
  assert (forall env, resolve_sid env None = uuid4 env /\ resolve_sid env (Some "") = uuid4 env)
    as Hgen by (intros env; split; reflexivity).
  cut (session_id r = call_sid c
       /\ (end_ r = true -> remaining r = 0)
       /\ (end_ r = false ->
           exists s, table (handle pats c tbl) !! call_sid c = Some s
                     /\ ended s = false
                     /\ remaining r = Z.max 0 (max_turns (call_cfg c) - turns s))).
  { intros (? & ? & ?). repeat split; auto; apply Hgen. }
  clear Hsup Hgen.
  destruct c as [cfg env req|cfg env sid]; cbn [handle call_sid call_cfg] in *.
  - fold (chat_sid env req).
    destruct (ended (open_session (now env) (chat_sid env req) tbl)) eqn:He.
    { rewrite (chat_ended cfg pats env req tbl He) in Hr |- *.
      cbn [result] in Hr. injection Hr as <-. repeat split; discriminate. }
    pose proof (get_sess_keeps_active _ _ _ He) as Hkeep.
    destruct (is_crisis cfg (chat_message req)) eqn:Hc.
    { rewrite (chat_crisis cfg pats env req tbl He Hc) in Hr |- *.
      cbn [result] in Hr. injection Hr as <-. repeat split; discriminate. }
    destruct (faq_answer_cases cfg (chat_message req)) as [(a & Hf & Ha)|Hf].
    { rewrite (chat_faq cfg pats env req tbl a He Hc Hf Ha) in Hr |- *.
      cbn [result table] in *. injection Hr as <-.
      cbn [plain session_id end_ remaining]. repeat split; [discriminate|].
      intros _. eexists. rewrite lookup_alter_eq, Hkeep. repeat split. exact He. }
    destruct (match_meta_query pats (chat_message req)) as [mq|] eqn:Hm.
    { rewrite (chat_meta cfg pats env req tbl mq He Hc Hf Hm) in Hr |- *.
      cbn [result table] in *. injection Hr as <-.
      cbn [plain session_id end_ remaining]. repeat split; [discriminate|].
      intros _. eexists. split; [exact Hkeep|]. split; [exact He|reflexivity]. }
    destruct (is_smalltalk pats (chat_message req)) eqn:Hs.
    { rewrite (chat_smalltalk cfg pats env req tbl He Hc Hf Hm Hs) in Hr |- *.
      cbn [result table] in *. injection Hr as <-.
      cbn [plain session_id end_ remaining]. repeat split; [discriminate|].
      intros _. eexists. split; [exact Hkeep|]. split; [exact He|reflexivity]. }
    rewrite (chat_substantive cfg pats env req tbl He Hc Hf Hm Hs) in Hr |- *.
    destruct (substantive_cases _ _ _ _ _ _ _ (not_smalltalk_truthy pats _ Hs) Hr)
      as (Hsid & Hend & Hact).
    repeat split; [exact Hsid|exact Hend|].
    intros Hf'. destruct (Hact Hf') as [Hrem ->].
    eexists. rewrite lookup_alter_eq, Hkeep. repeat split; [exact He|exact Hrem].
  - unfold status in *.
    rewrite (surjective_pairing (get_sess (now env) (resolve_sid env sid) tbl)) in Hr |- *.
    rewrite get_sess_fst in Hr |- *. cbn [result table] in *. injection Hr as <-.
    cbn [session_id end_ remaining].
    destruct (ended (open_session (now env) (resolve_sid env sid) tbl)) eqn:He.
    + repeat split; discriminate.
    + repeat split; [discriminate|]. intros _.
      eexists. split; [apply (get_sess_keeps_active _ _ _ He)|].
      split; [exact He|reflexivity].
Qed.

(** ** Ended sessions *)

Section EndedFacts.

Variable pats : Patterns.

(** A request changes the entries of other sessions only through the
    sweep of [get_sess]. *)
Lemma chat_table_other (cfg : Config) (env : Env) (req : ChatRequest)
    (tbl : gmap string Session) (k : string) :
  k <> chat_sid env req ->
  table (chat cfg pats env req tbl) !! k
  = (get_sess (now env) (chat_sid env req) tbl).2 !! k.
Proof.
  intros Hk. unfold chat. fold (chat_message req). fold (chat_sid env req).
  rewrite (surjective_pairing (get_sess (now env) (chat_sid env req) tbl)).
  destruct (ended _); [reflexivity|].
  destruct (is_crisis _ _); [cbn [table]; apply lookup_alter_ne; congruence|].
  assert (forall s t, table (substantive cfg env (chat_sid env req) (chat_message req) s t) !! k
                      = t !! k) as Hsub.
  { intros s t. unfold substantive.
    destruct (truthy (chat_message req)).
    - destruct (answer _ _ _ _) as [reply sent].
      destruct (_ >=? _); [|cbn [table]; apply lookup_alter_ne; congruence].
      destruct (close_session_cases cfg env (chat_sid env req)
                  (add_turn (chat_message req) s) reply sent
                  (alter (add_turn (chat_message req)) (chat_sid env req) t))
        as [(r & _ & _ & _ & _ & -> & _)|[_ ->]];
        rewrite ?lookup_alter_ne by congruence; reflexivity.
    - destruct (answer _ _ _ _) as [reply sent].
      destruct (_ >=? _); [|reflexivity].
      destruct (close_session_cases cfg env (chat_sid env req) s reply sent t)
        as [(r & _ & _ & _ & _ & -> & _)|[_ ->]];
        rewrite ?lookup_alter_ne by congruence; reflexivity. }
  destruct (match_faq _ _) as [[|c a]|].
  - destruct (match_meta_query _ _); [reflexivity|].
    destruct (is_smalltalk _ _); [reflexivity|apply Hsub].
  - cbn [table]. apply lookup_alter_ne. congruence.
  - destruct (match_meta_query _ _); [reflexivity|].
    destruct (is_smalltalk _ _); [reflexivity|apply Hsub].
Qed.

(** The table a [/chat] request leaves is the one [get_sess] left, with
    at most the entry of its session ended, advanced by a turn, or both. *)
Lemma chat_table_cases (cfg : Config) (env : Env) (req : ChatRequest)
    (tbl : gmap string Session) :
  let sid := chat_sid env req in
  let m := chat_message req in
  let tbl1 := (get_sess (now env) sid tbl).2 in
  let tbl' := table (chat cfg pats env req tbl) in
  tbl' = tbl1 \/ tbl' = alter set_ended sid tbl1
  \/ tbl' = alter (add_turn m) sid tbl1
  \/ tbl' = alter set_ended sid (alter (add_turn m) sid tbl1).
Proof.
  cbv zeta. unfold chat. fold (chat_message req). fold (chat_sid env req).
  rewrite (surjective_pairing (get_sess (now env) (chat_sid env req) tbl)).
  destruct (ended _); [left; reflexivity|].
  destruct (is_crisis _ _); [right; left; reflexivity|].
  assert (forall s t,
    let t' := table (substantive cfg env (chat_sid env req) (chat_message req) s t) in
    t' = t \/ t' = alter set_ended (chat_sid env req) t
    \/ t' = alter (add_turn (chat_message req)) (chat_sid env req) t
    \/ t' = alter set_ended (chat_sid env req)
              (alter (add_turn (chat_message req)) (chat_sid env req) t)) as Hsub.
  { intros s t. cbv zeta. unfold substantive.
    destruct (truthy (chat_message req)).
    - destruct (answer _ _ _ _) as [reply sent].
      destruct (_ >=? _); [|right; right; left; reflexivity].
      destruct (close_session_cases cfg env (chat_sid env req)
                  (add_turn (chat_message req) s) reply sent
                  (alter (add_turn (chat_message req)) (chat_sid env req) t))
        as [(r & _ & _ & _ & _ & -> & _)|[_ ->]]; auto.
    - destruct (answer _ _ _ _) as [reply sent].
      destruct (_ >=? _); [|left; reflexivity].
      destruct (close_session_cases cfg env (chat_sid env req) s reply sent t)
        as [(r & _ & _ & _ & _ & -> & _)|[_ ->]]; auto. }
  destruct (match_faq _ _) as [[|c a]|].
  - destruct (match_meta_query _ _); [left; reflexivity|].
    destruct (is_smalltalk _ _); [left; reflexivity|apply Hsub].
  - right. right. left. reflexivity.
  - destruct (match_meta_query _ _); [left; reflexivity|].
    destruct (is_smalltalk _ _); [left; reflexivity|apply Hsub].
Qed.

(** One request, on any session, leaves an ended session ended and its
    counters alone, or sweeps it away. *)
Lemma handle_keeps_ended (c : call) (tbl : gmap string Session) (sid : string)
    (s0 s : Session) :
  tbl !! sid = Some s -> ended_like s0 s ->
  table (handle pats c tbl) !! sid = None
  \/ exists s', table (handle pats c tbl) !! sid = Some s' /\ ended_like s0 s'.
Proof.
  intros Hs (He & Ht & Hx).
  assert (forall t, ended_like s0 (open_session t sid tbl)) as Hopen.
  { intros t. unfold open_session. rewrite Hs. repeat split; assumption. }
  destruct (decide (call_sid c = sid)) as [Heq|Hne].
  - assert (table (handle pats c tbl) = (get_sess (now match c with
              | CallChat _ env _ | CallStatus _ env _ => env end) sid tbl).2) as ->.
    { destruct c as [cfg env req|cfg env o]; cbn [handle call_sid] in *.
      - rewrite chat_ended; unfold chat_sid; rewrite Heq; [reflexivity|apply Hopen].
      - unfold status. rewrite Heq.
        rewrite (surjective_pairing (get_sess (now env) sid tbl)). reflexivity. }
    destruct (get_sess_self (now match c with
              | CallChat _ env _ | CallStatus _ env _ => env end) sid tbl) as [H|[H _]].
    + right. eexists. split; [exact H|apply Hopen].
    + left. exact H.
  - assert (exists t, table (handle pats c tbl) !! sid = (get_sess t (call_sid c) tbl).2 !! sid)
      as [t ->].
    { destruct c as [cfg env req|cfg env o]; cbn [handle call_sid] in *; exists (now env).
      - apply chat_table_other. unfold chat_sid. congruence.
      - unfold status.
        rewrite (surjective_pairing (get_sess (now env) (resolve_sid env o) tbl)).
        reflexivity. }
    destruct (get_sess_other t (call_sid c) tbl sid) as [H|H]; [congruence| |].
    + right. exists s. rewrite H. split; [exact Hs|repeat split; assumption].
    + left. exact H.
Qed.

Lemma serve_keeps_ended (calls : list call) (tbl : gmap string Session) (sid : string)
    (s0 s : Session) :
  tbl !! sid = Some s -> ended_like s0 s ->
  retained pats sid calls tbl ->
  exists s', serve pats calls tbl !! sid = Some s' /\ ended_like s0 s'.
Proof.
  revert tbl s. induction calls as [|c calls IH]; intros tbl s Hs Hlike Hret.
  - exists s. split; assumption.
  - destruct Hret as [_ Hret]. cbn [serve fold_left].
    destruct (handle_keeps_ended c tbl sid s0 s Hs Hlike) as [Hnone|(s' & Hs' & Hlike')].
    + exfalso. destruct calls; cbn [retained] in Hret.
      * rewrite Hnone in Hret. destruct Hret. discriminate.
      * destruct Hret as [Hret _]. rewrite Hnone in Hret. destruct Hret. discriminate.
    + exact (IH _ s' Hs' Hlike' Hret).
Qed.

End EndedFacts.

(** ** An ended session and the sweep *)

Section Reopened.

Variable pats : Patterns.

(** The substantive path never gives the fixed reply of an ended
    session. *)
Lemma substantive_not_ended_reply (cfg : Config) (env : Env) (sid m : string) (s : Session)
    (tbl : gmap string Session) :
  result (substantive cfg env sid m s tbl) <> Return (plain ended_reply true sid 0).
Proof.
  unfold substantive.
  destruct (truthy m); destruct (answer _ _ _ _) as [reply sent];
    (destruct (_ >=? _); [|cbn [result]; unfold plain; intros H; inversion H]);
    unfold close_session; destruct (classifier_raw _ _ _ _) as [cat_raw sent'];
    destruct (in_suggestions _ _); cbn [result]; unfold plain; intros H; inversion H.
Qed.

(** Nor does any other route of [chat] on a session that is not ended. *)
Lemma chat_active_not_ended_reply (cfg : Config) (env : Env) (req : ChatRequest)
    (tbl : gmap string Session) :
  ended (open_session (now env) (chat_sid env req) tbl) = false ->
  result (chat cfg pats env req tbl) <> Return (plain ended_reply true (chat_sid env req) 0).
Proof.
  intros He.
  destruct (is_crisis cfg (chat_message req)) eqn:Hc.
  { rewrite (chat_crisis cfg pats env req tbl He Hc). cbn [result]. unfold plain.
    intros H. inversion H. }
  destruct (faq_answer_cases cfg (chat_message req)) as [(a & Hf & Ha)|Hf].
  { rewrite (chat_faq cfg pats env req tbl a He Hc Hf Ha). cbn [result]. unfold plain.
    intros H. inversion H. }
  destruct (match_meta_query pats (chat_message req)) as [mq|] eqn:Hm.
  { rewrite (chat_meta cfg pats env req tbl mq He Hc Hf Hm). cbn [result]. unfold plain.
    intros H. inversion H. }
  destruct (is_smalltalk pats (chat_message req)) eqn:Hs.
  { rewrite (chat_smalltalk cfg pats env req tbl He Hc Hf Hm Hs). cbn [result]. unfold plain.
    intros H. inversion H. }
  rewrite (chat_substantive cfg pats env req tbl He Hc Hf Hm Hs).
  apply substantive_not_ended_reply.
Qed.

(** A [/chat] request on an identifier the table does not hold works on a
    new session and leaves its entry, one step on. *)
Lemma chat_reopens (cfg : Config) (env : Env) (req : ChatRequest)
    (tbl : gmap string Session) :
  tbl !! chat_sid env req = None ->
  open_session (now env) (chat_sid env req) tbl = new_session (now env)
  /\ result (chat cfg pats env req tbl) <> Return (plain ended_reply true (chat_sid env req) 0)
  /\ exists s', table (chat cfg pats env req tbl) !! chat_sid env req = Some s'
                /\ step_of (chat_message req) (new_session (now env)) s'.
Proof.
  intros Hnone.
  assert (open_session (now env) (chat_sid env req) tbl = new_session (now env)) as Hopen
    by (unfold open_session; rewrite Hnone; reflexivity).
  assert (ended (open_session (now env) (chat_sid env req) tbl) = false) as He
    by (rewrite Hopen; reflexivity).
  split; [exact Hopen|]. split; [apply chat_active_not_ended_reply; exact He|].
  pose proof (get_sess_keeps_active _ _ _ He) as Hkeep. rewrite Hopen in Hkeep.
  unfold step_of.
  destruct (chat_table_cases pats cfg env req tbl) as [H|[H|[H|H]]];
    rewrite H; rewrite ?lookup_alter_eq; rewrite Hkeep; cbn [fmap option_fmap option_map];
    eexists; (split; [reflexivity|]); auto.
Qed.

(** So does a [/status] request, which leaves the new session as it is. *)
Lemma status_reopens (cfg : Config) (env : Env) (o : option string)
    (tbl : gmap string Session) :
  tbl !! resolve_sid env o = None ->
  table (status cfg env o tbl) !! resolve_sid env o = Some (new_session (now env))
  /\ result (status cfg env o tbl)
     = Return {| reply := None; end_ := false; session_id := resolve_sid env o;
                 remaining := Z.max 0 (max_turns cfg); handoff := None;
                 category := None; confidence := None |}.
Proof.
  intros Hnone.
  assert (open_session (now env) (resolve_sid env o) tbl = new_session (now env)) as Hopen
    by (unfold open_session; rewrite Hnone; reflexivity).
  pose proof (get_sess_keeps_active (now env) (resolve_sid env o) tbl) as Hkeep.
  rewrite Hopen in Hkeep. specialize (Hkeep eq_refl).
  unfold status.
  rewrite (surjective_pairing (get_sess (now env) (resolve_sid env o) tbl)).
  rewrite get_sess_fst, Hopen. cbn [table result new_session ended turns].
  rewrite Z.sub_0_r. split; [exact Hkeep|reflexivity].
Qed.

End Reopened.

(** C1, amended: as long as no sweep has dropped the entry of an ended
    session, every [/chat] request on its identifier, after any requests
    on any sessions, returns the fixed reply with [remaining = 0] and
    [end = true] whatever the message, sends nothing to the generative
    service, and leaves turn counter, transcript and ended flag as they
    were (the entry is refreshed or swept away).  Once the entry is gone
    from the table, the next request on the identifier works on a new
    session, empty and active: a [/chat] request does not get the fixed
    reply and stores the new session, one step of the router on; a
    [/status] request stores it as it is and reports [end = false]. *)
Theorem ended_session_stays_ended_while_stored (pats : Patterns)
    (tbl : gmap string Session) (sid : string) (s0 : Session) (calls : list call)
    (cfg : Config) (env : Env) (req : ChatRequest) :
  tbl !! sid = Some s0 ->
  ended s0 = true ->
  chat_sid env req = sid ->
  let tbl' := serve pats calls tbl in
  let run := chat cfg pats env req tbl' in
  (retained pats sid calls tbl ->
     result run = Return (plain ended_reply true sid 0)
     /\ prompts run = []
     /\ (table run !! sid = None
         \/ exists s', table run !! sid = Some s' /\ ended_like s0 s'))
  /\ (tbl' !! sid = None ->
      open_session (now env) sid tbl' = new_session (now env)
      /\ result run <> Return (plain ended_reply true sid 0)
      /\ exists s', table run !! sid = Some s'
                    /\ step_of (chat_message req) (new_session (now env)) s')
  /\ (tbl' !! sid = None ->
      forall (o : option string), resolve_sid env o = sid ->
        table (status cfg env o tbl') !! sid = Some (new_session (now env))
        /\ result (status cfg env o tbl')
           = Return {| reply := None; end_ := false; session_id := sid;
                       remaining := Z.max 0 (max_turns cfg); handoff := None;
                       category := None; confidence := None |}).
Proof.
  intros Hs He Hsid. cbv zeta. split; [|split].
  - intros Hret.
    destruct (serve_keeps_ended pats calls tbl sid s0 s0 Hs
                (conj He (conj eq_refl eq_refl)) Hret) as (s & Hs' & Hlike).
    assert (ended (open_session (now env) (chat_sid env req) (serve pats calls tbl)) = true)
      as Hopen.
    { unfold open_session. rewrite Hsid, Hs'. apply Hlike. }
    rewrite (chat_ended cfg pats env req _ Hopen). cbn [result prompts table].
    rewrite Hsid. repeat split.
    destruct (get_sess_self (now env) sid (serve pats calls tbl)) as [H|[H _]].
    + right. eexists. split; [exact H|].
      unfold open_session. rewrite Hs'. exact Hlike.
    + left. exact H.
  - intros Hgone. rewrite <- Hsid in Hgone |- *. apply chat_reopens. exact Hgone.
  - intros Hgone o Ho. rewrite <- Ho in Hgone |- *. apply status_reopens. exact Hgone.
Qed.

(** ** The domain gate and the closing turn *)

Lemma classifier_raw_prompts (cfg : Config) (env : Env) (s : Session) (sent : list string) :
  (classifier_raw cfg env s sent).2 =
  if api_key env
  then (sent ++ [cls_prompt cfg (join " " (last_slice (max_turns cfg) (texts s)))])%list
  else sent.
Proof.
  unfold classifier_raw, gemini_generate.
  destruct (api_key env); [|reflexivity]. cbn [negb].
  destruct (generate_content env _ _); reflexivity.
Qed.

Lemma close_session_prompts (cfg : Config) (env : Env) (sid : string) (s : Session)
    (base : string) (sent : list string) (tbl : gmap string Session) :
  prompts (close_session cfg env sid s base sent tbl) = (classifier_raw cfg env s sent).2.
Proof.
  unfold close_session. destruct (classifier_raw cfg env s sent) as [raw sent'].
  destruct (in_suggestions cfg _); reflexivity.
Qed.

Lemma answer_gate (cfg : Config) (env : Env) (m : string) (s : Session) :
  is_psychology_domain cfg (texts s) = false -> answer cfg env m s = (redirect_reply, []).
Proof. intros H. unfold answer. rewrite H. reflexivity. Qed.

(** C6, amended: when the domain gate fires on a substantive message, the
    turn is counted and the reply is the fixed redirect, with no reply
    requested from the generative service.  The turn limit is still
    checked on that call: below the limit the redirect is returned with
    [end = false]; at or above it the call is the closing turn on the
    redirect reply, which sends the classification prompt (when the
    service is configured) and, unless it raises, ends the session with
    the closing text after the redirect. *)
Theorem domain_gate_keeps_turn_limit (cfg : Config) (pats : Patterns) (env : Env)
    (req : ChatRequest) (tbl : gmap string Session) :
  let sid := chat_sid env req in
  let m := chat_message req in
  let sess := open_session (now env) sid tbl in
  let sess' := add_turn m sess in
  let run := chat cfg pats env req tbl in
  ended sess = false ->
  is_crisis cfg m = false ->
  no_faq_answer cfg m ->
  match_meta_query pats m = None ->
  is_smalltalk pats m = false ->
  is_psychology_domain cfg (texts sess') = false ->
  (turns sess' < max_turns cfg ->
     result run = Return (plain redirect_reply false sid (Z.max 0 (max_turns cfg - turns sess')))
     /\ prompts run = []
     /\ table run !! sid = Some sess')
  /\ (max_turns cfg <= turns sess' ->
      run = close_session cfg env sid sess' redirect_reply []
              (alter (add_turn m) sid (get_sess (now env) sid tbl).2)
      /\ prompts run =
         (if api_key env
          then [cls_prompt cfg (join " " (last_slice (max_turns cfg) (texts sess')))]
          else [])
      /\ (result run = Raise "TypeError"
          \/ exists r, result run = Return r /\ end_ r = true
               /\ (reply r = Some (with_closing redirect_reply (closing cfg))
                   \/ exists sp, reply r = Some (with_suggestion redirect_reply sp (closing cfg))))).
Proof.
  cbv zeta. intros He Hc Hf Hm Hs Hgate.
  rewrite (chat_substantive cfg pats env req tbl He Hc Hf Hm Hs).
  unfold substantive. rewrite (not_smalltalk_truthy pats _ Hs).
  rewrite (answer_gate cfg env _ _ Hgate).
  split.
  - intros Hlt.
    replace (turns (add_turn (chat_message req) (open_session (now env) (chat_sid env req) tbl))
             >=? max_turns cfg) with false by (symmetry; rewrite Z.geb_leb; apply Z.leb_gt; lia).
    cbv beta iota. cbn [result prompts table]. repeat split.
    rewrite lookup_alter_eq, (get_sess_keeps_active _ _ _ He). reflexivity.
  - intros Hge.
    replace (turns (add_turn (chat_message req) (open_session (now env) (chat_sid env req) tbl))
             >=? max_turns cfg) with true by (symmetry; rewrite Z.geb_leb; apply Z.leb_le; lia).
    cbv beta iota. split; [reflexivity|]. split.
    + rewrite close_session_prompts, classifier_raw_prompts. reflexivity.
    + match goal with |- context [close_session ?a ?b ?c ?d ?e ?f ?g] =>
        destruct (close_session_cases a b c d e f g)
          as [(r & Hr & Hend & _ & _ & _ & Hrep)|[Hr _]] end.
      * right. exists r. auto.
      * left. exact Hr.
Qed.

Lemma with_suggestion_differs (base sp closing_msg : string) :
  with_suggestion base sp closing_msg <> with_closing base closing_msg.
Proof.
  unfold with_suggestion, with_closing. intros H.
  apply (f_equal String.length) in H.
  rewrite !slength_app in H. simpl in H. lia.
Qed.

Lemma last_slice_pos {A : Type} (n : Z) (l : list A) :
  0 < n -> last_slice n l = drop (length l - Z.to_nat n) l.
Proof.
  intros Hn. unfold last_slice.
  replace (0 <? n) with true by (symmetry; apply Z.ltb_lt; exact Hn). reflexivity.
Qed.

Lemma substantive_closing (cfg : Config) (env : Env) (sid m : string) (s : Session)
    (tbl : gmap string Session) :
  truthy m = true -> max_turns cfg <= turns s + 1 ->
  substantive cfg env sid m s tbl
  = close_session cfg env sid (add_turn m s)
      (answer cfg env m (add_turn m s)).1 (answer cfg env m (add_turn m s)).2
      (alter (add_turn m) sid tbl).
Proof.
  intros Hm Hge. unfold substantive. rewrite Hm.
  destruct (answer cfg env m (add_turn m s)) as [reply sent]. cbn [fst snd].
  replace (turns (add_turn m s) >=? max_turns cfg) with true
    by (symmetry; rewrite Z.geb_leb; apply Z.leb_le; cbn [add_turn turns]; lia).
  reflexivity.
Qed.

Lemma in_suggestions_known (cfg : Config) (cat : json) (known : bool) :
  in_suggestions cfg cat = Some known ->
  (known = true <-> exists c sp, cat = JStr c /\ assoc c (suggestions cfg) = Some sp).
Proof.
  destruct cat; cbn [in_suggestions]; intros [= <-];
    try (split; [discriminate|intros (c & sp & Hc & _); discriminate]).
  rewrite bool_decide_eq_true. split.
  - intros [sp Hsp]. eauto.
  - intros (c & sp & [= <-] & Hsp). eauto.
Qed.

(** C4, amended: when a substantive message brings the turn count to
    [max_turns] or beyond, the router sends the classification prompt over
    the last [max_turns] transcript entries and, unless the parsed
    category is an array or an object, ends the session and returns the
    reply followed by the specialist recommendation and the closing text
    exactly when the category is a key of the suggestions and the
    confidence is absent or at least the threshold, and by the closing
    text alone otherwise.  The response carries the parsed category, which
    is a string when the classifier's object has a string category or
    none, and a confidence that is null or a rounded number. *)
Theorem closing_turn (cfg : Config) (pats : Patterns) (env : Env)
    (req : ChatRequest) (tbl : gmap string Session) (known : bool) :
  let sid := chat_sid env req in
  let m := chat_message req in
  let sess := open_session (now env) sid tbl in
  let sess' := add_turn m sess in
  let base := (answer cfg env m sess').1 in
  let sent := (answer cfg env m sess').2 in
  let dataj := parse_json_obj env (classifier_raw cfg env sess' sent).1 in
  let cat := read_category dataj in
  let conf := read_confidence env dataj in
  let run := chat cfg pats env req tbl in
  ended sess = false ->
  is_crisis cfg m = false ->
  no_faq_answer cfg m ->
  match_meta_query pats m = None ->
  is_smalltalk pats m = false ->
  0 < max_turns cfg ->
  max_turns cfg <= turns sess + 1 ->
  in_suggestions cfg cat = Some known ->
  result run =
    Return {| reply := Some (if known && confident cfg conf
                             then with_suggestion base (specialist cfg cat) (closing cfg)
                             else with_closing base (closing cfg));
              end_ := true; session_id := sid; remaining := 0; handoff := None;
              category := Some cat; confidence := Some (round3 env <$> conf) |}
  /\ with_suggestion base (specialist cfg cat) (closing cfg) <> with_closing base (closing cfg)
  /\ (known = true <-> exists c sp, cat = JStr c /\ assoc c (suggestions cfg) = Some sp)
  /\ (api_key env = true ->
      prompts run =
      (sent ++ [cls_prompt cfg
                  (join " " (drop (length (texts sess') - Z.to_nat (max_turns cfg))
                               (texts sess')))])%list)
  /\ (exists s', table run !! sid = Some s' /\ ended s' = true
                 /\ turns s' = turns sess + 1 /\ texts s' = (texts sess ++ [m])%list)
  /\ (assoc "category" dataj = None \/ (exists c, assoc "category" dataj = Some (JStr c)) ->
      exists c, cat = JStr c).
Proof.
  cbv zeta. intros He Hc Hf Hm Hs Hpos Hge Hin.
  rewrite (chat_substantive cfg pats env req tbl He Hc Hf Hm Hs).
  rewrite (substantive_closing cfg env _ _ _ _ (not_smalltalk_truthy pats _ Hs) Hge).
  split; [|split; [|split; [|split; [|split]]]].
  - unfold close_session.
    rewrite (surjective_pairing (classifier_raw cfg env _ _)). rewrite Hin. reflexivity.
  - apply with_suggestion_differs.
  - apply (in_suggestions_known cfg _ _ Hin).
  - intros Hkey. rewrite close_session_prompts, classifier_raw_prompts, Hkey.
    rewrite (last_slice_pos _ _ Hpos). reflexivity.
  - unfold close_session.
    rewrite (surjective_pairing (classifier_raw cfg env _ _)). rewrite Hin.
    cbn [table]. eexists.
    rewrite !lookup_alter_eq, (get_sess_keeps_active _ _ _ He). repeat split.
  - unfold read_category. intros [-> | [c ->]]; eexists; reflexivity.
Qed.

(** ** Parsing the classifier's answer *)

Section ParseFacts.

Lemma from_open_free (s : string) : free_of "{" s = true -> from_open s = None.
Proof.
  induction s as [|c s IH]; [reflexivity|]. simpl.
  destruct (Ascii.eqb c "{"); [discriminate|]. exact IH.
Qed.

Lemma upto_close_free (s : string) : free_of "}" s = true -> upto_close s = None.
Proof.
  induction s as [|c s IH]; [reflexivity|]. simpl.
  destruct (Ascii.eqb c "}"); [discriminate|]. cbn [negb andb].
  intros H. rewrite (IH H). reflexivity.
Qed.

Lemma from_open_suffix (c : ascii) (s s' : string) :
  from_open s = Some s' -> free_of c s = true -> free_of c s' = true.
Proof.
  induction s as [|x s IH]; [discriminate|]. cbn [from_open].
  destruct (Ascii.eqb x "{").
  - intros [= <-]. auto.
  - intros H. cbn [free_of]. intros Hf. apply andb_true_iff in Hf as [_ Hf]. auto.
Qed.

Lemma from_open_app (pre r : string) :
  free_of "{" pre = true -> from_open (pre ++ String "{" r) = Some (String "{" r).
Proof.
  induction pre as [|c pre IH]; [reflexivity|].
  rewrite sapp_cons. simpl. destruct (Ascii.eqb c "{"); [discriminate|]. exact IH.
Qed.

Lemma upto_close_app (a post : string) :
  free_of "}" post = true -> upto_close (a ++ String "}" post) = Some (a ++ "}").
Proof.
  intros Hp. induction a as [|c a IH].
  - rewrite !sapp_nil_l. cbn [upto_close]. rewrite (upto_close_free post Hp). reflexivity.
  - rewrite !sapp_cons. cbn [upto_close]. rewrite IH. reflexivity.
Qed.

(** The match of [\{.*\}] runs from the first opening brace to the last
    closing brace. *)
Lemma brace_span_spec (pre mid post : string) :
  free_of "{" pre = true -> free_of "}" post = true ->
  brace_span (pre ++ "{" ++ mid ++ "}" ++ post) = Some ("{" ++ mid ++ "}").
Proof.
  intros Hpre Hpost. unfold brace_span.
  change ("{" ++ mid ++ "}" ++ post) with (String "{" (mid ++ String "}" post)).
  rewrite (from_open_app pre _ Hpre).
  change (String "{" (mid ++ String "}" post)) with (String "{" mid ++ String "}" post).
  rewrite (upto_close_app _ post Hpost). reflexivity.
Qed.

Lemma brace_span_none (s : string) :
  free_of "{" s = true \/ free_of "}" s = true -> brace_span s = None.
Proof.
  unfold brace_span. intros [H|H].
  - rewrite (from_open_free s H). reflexivity.
  - destruct (from_open s) as [s'|] eqn:E; [|reflexivity].
    apply upto_close_free. exact (from_open_suffix _ _ _ E H).
Qed.

End ParseFacts.

(** C7, amended: the parser takes the text from the first opening brace
    to the last closing brace, whatever surrounds it, and returns what
    [json.loads] makes of it, or the empty object when [json.loads]
    rejects it with a [JSONDecodeError] or when the answer has no opening
    or no closing brace.  When the parse gives the empty object and the
    sentinel label [non_psikologi] is not a configured suggestion, the
    closing turn ends the session with the closing text alone, the
    sentinel as category and a null confidence. *)
Theorem parse_json_obj_degrades (env : Env) (cfg : Config) (pre mid post plain_text : string)
    (sid : string) (sess : Session) (base : string) (sent : list string)
    (tbl : gmap string Session) :
  free_of "{" pre = true ->
  free_of "}" post = true ->
  free_of "{" plain_text = true \/ free_of "}" plain_text = true ->
  assoc "non_psikologi" (suggestions cfg) = None ->
  parse_json_obj env (classifier_raw cfg env sess sent).1 = [] ->
  parse_json_obj env (pre ++ "{" ++ mid ++ "}" ++ post)
    = default [] (json_loads env ("{" ++ mid ++ "}"))
  /\ parse_json_obj env plain_text = []
  /\ result (close_session cfg env sid sess base sent tbl)
     = Return {| reply := Some (with_closing base (closing cfg)); end_ := true;
                 session_id := sid; remaining := 0; handoff := None;
                 category := Some (JStr "non_psikologi"); confidence := Some None |}.
Proof.
  intros Hpre Hpost Hplain Hsent Hempty. split; [|split].
  - unfold parse_json_obj. rewrite (brace_span_spec pre mid post Hpre Hpost).
    destruct (json_loads env _); reflexivity.
  - unfold parse_json_obj. rewrite (brace_span_none _ Hplain). reflexivity.
  - unfold close_session.
    rewrite (surjective_pairing (classifier_raw cfg env sess sent)).
    rewrite Hempty. cbn [read_category read_confidence assoc default in_suggestions].
    rewrite Hsent. reflexivity.
Qed.

(** * Further properties of the code *)

(** ** Dotted paths *)

Lemma split_dot_nonempty (s : string) : split_dot s <> [].
Proof.
  destruct s as [|c s]; [discriminate|]. simpl.
  destruct (Ascii.eqb c "."); [discriminate|].
  destruct (split_dot s); discriminate.
Qed.

Lemma join_cons (sep x : string) (l : list string) :
  l <> [] -> join sep (x :: l) = x ++ sep ++ join sep l.
Proof. destruct l; [congruence|reflexivity]. Qed.

(** X1: [".".join(s.split("."))] is [s], and no part of the split has a dot:
    the path of a token is cut at every dot, empty parts included. *)
Theorem split_dot_join (s : string) :
  join "." (split_dot s) = s
  /\ Forall (fun p => free_of "." p = true) (split_dot s).
Proof.
  induction s as [|c s [IHj IHf]]; [split; [reflexivity|repeat constructor]|].
  pose proof (split_dot_nonempty s) as Hne.
  cbn [split_dot]. destruct (Ascii.eqb c ".") eqn:Hc.
  - apply Ascii.eqb_eq in Hc. subst c. split.
    + rewrite (join_cons "." "" _ Hne), IHj. reflexivity.
    + constructor; [reflexivity|exact IHf].
  - destruct (split_dot s) as [|h t]; [congruence|]. split.
    + destruct t as [|h' t].
      * simpl in IHj |- *. congruence.
      * rewrite join_cons by discriminate. rewrite join_cons in IHj by discriminate.
        rewrite sapp_cons, IHj. reflexivity.
    + inversion IHf; subst. constructor; [|assumption].
      cbn [free_of]. rewrite Hc. assumption.
Qed.

(** X2: Conversely, splitting the dotted join of parts that have no dot gives
    the parts back. *)
Theorem join_split_dot (parts : list string) :
  parts <> [] ->
  Forall (fun p => free_of "." p = true) parts ->
  split_dot (join "." parts) = parts.
Proof.
  intros Hne Hall. induction parts as [|p parts IH]; [congruence|]. clear Hne.
  inversion Hall as [|? ? Hp Hrest]; subst.
  destruct parts as [|q parts].
  - clear IH Hall Hrest. cbn [join]. induction p as [|c p IHp]; [reflexivity|].
    cbn [free_of] in Hp. apply andb_true_iff in Hp as [Hc Hp].
    cbn [split_dot]. apply negb_true_iff in Hc. rewrite Hc, (IHp Hp). reflexivity.
  - rewrite join_cons by discriminate.
    specialize (IH ltac:(discriminate) Hrest).
    clear Hall Hrest. induction p as [|c p IHp].
    + rewrite sapp_nil_l. change ("." ++ join "." (q :: parts))
        with (String "." (join "." (q :: parts))).
      cbn [split_dot]. rewrite IH. reflexivity.
    + cbn [free_of] in Hp. apply andb_true_iff in Hp as [Hc Hp].
      rewrite sapp_cons. cbn [split_dot]. apply negb_true_iff in Hc.
      rewrite Hc, (IHp Hp). reflexivity.
Qed.

(** ** Templating: text without tokens, and resolved tokens *)

Lemma match_token_not_open (c : ascii) (s : string) :
  c <> "{"%char -> match_token (String c s) = None.
Proof.
  intros Hc. destruct c as [[] [] [] [] [] [] [] []]; try reflexivity; congruence.
Qed.

(** X3: Text without an opening brace goes through [_template] unchanged,
    whatever the context holds. *)
Theorem template_without_braces (ctx : value) (s : string) :
  free_of "{" s = true -> _template s ctx = s.
Proof.
  induction s as [|c s IH]; intros Hfree; rewrite template_eq; [reflexivity|].
  cbn [free_of] in Hfree. apply andb_true_iff in Hfree as [Hc Hfree].
  apply negb_true_iff, Ascii.eqb_neq in Hc.
  rewrite (match_token_not_open c s Hc), (IH Hfree). reflexivity.
Qed.

(** X4: A token whose dotted path resolves in the context is replaced by
    [str()] of the value it leads to, wherever it stands; the text before
    and the text after it are rendered on their own.  Whitespace inside
    the braces goes with the token. *)
Theorem template_resolved_token (ctx : value) (pre tok name post : string) (v : value) :
  brace_ends_spaces ->
  match_token (tok ++ post) = Some (name, tok, post) ->
  walk ctx (split_dot name) = Some v ->
  _template (pre ++ tok ++ post) ctx = _template pre ctx ++ py_str v ++ _template post ctx.
Proof.
  intros Hlaw Hm Hv.
  rewrite (template_token ctx pre tok name post Hlaw Hm).
  unfold repl. rewrite Hv. reflexivity.
Qed.

(** ** The loader and the classifiers *)

Lemma match_faq_loop_fmap (f : string -> string) (answers : gmap string string)
    (keys : list (string * list string)) (t : string) :
  match_faq_loop (f <$> answers) keys t = f <$> match_faq_loop answers keys t.
Proof.
  induction keys as [|[k kws] keys IH]; [reflexivity|]. cbn [match_faq_loop].
  destruct (any_in kws t); [apply lookup_fmap|exact IH].
Qed.

(** X5: Rendering the files does not change which messages the classifiers
    fire on; the loaded snapshot answers an FAQ message with the rendered
    text of the answer the files hold for it. *)
Theorem load_all_classifiers (ctx : value) (files : Config) (text : string)
    (texts : list string) :
  match_faq (_load_all ctx files) text
    = (fun v => _template v ctx) <$> match_faq files text
  /\ is_crisis (_load_all ctx files) text = is_crisis files text
  /\ is_psychology_domain (_load_all ctx files) texts = is_psychology_domain files texts.
Proof.
  split; [|split; reflexivity].
  unfold match_faq. cbn [_load_all faq faq_keys]. apply match_faq_loop_fmap.
Qed.

(** ** Empty keywords and empty messages *)

Lemma contains_empty_text (k : string) : contains k "" = true -> k = "".
Proof. destruct k; [reflexivity|discriminate]. Qed.

Lemma any_in_empty_text (kws : list string) :
  "" ∉ kws -> any_in kws "" = false.
Proof.
  intros Hnot. destruct (any_in kws "") eqn:E; [|reflexivity].
  apply existsb_exists in E as (k & Hin & Hk). apply contains_empty_text in Hk. subst k.
  exfalso. apply Hnot, list_elem_of_In, Hin.
Qed.

(** X7: An empty string among the keywords matches every text: with one in
    the crisis keywords [is_crisis] fires on every message, and with one
    in the domain keywords the domain gate never fires. *)
Theorem empty_keyword_matches_all (cfg : Config) (text : string) (texts : list string) :
  ("" ∈ crisis_keywords cfg -> is_crisis cfg text = true)
  /\ ("" ∈ psy_words cfg -> is_psychology_domain cfg texts = true).
Proof.
  split; intros Hin.
  - unfold is_crisis. apply any_in_occurs. exists "". split; [exact Hin|].
    exists "", (lower text). reflexivity.
  - unfold is_psychology_domain. apply any_in_occurs. exists "". split; [exact Hin|].
    exists "", (lower (join " " texts)). reflexivity.
Qed.

Lemma match_faq_loop_empty_text (answers : gmap string string)
    (keys : list (string * list string)) :
  Forall (fun kv => "" ∉ kv.2) keys -> match_faq_loop answers keys "" = None.
Proof.
  induction 1 as [|[k kws] keys Hk _ IH]; [reflexivity|]. cbn [match_faq_loop].
  rewrite (any_in_empty_text kws Hk). exact IH.
Qed.

(** X8: A request without a message, or with a message that [strip] leaves
    empty, on a session that is not ended gets the small-talk reply and
    counts no turn, whatever the intent patterns are, as long as no crisis
    keyword and no FAQ trigger word is the empty string.  The empty text
    is its own lower-case form. *)
Theorem blank_message_is_smalltalk (cfg : Config) (pats : Patterns) (env : Env)
    (req : ChatRequest) (tbl : gmap string Session) :
  let sid := chat_sid env req in
  let sess := open_session (now env) sid tbl in
  let run := chat cfg pats env req tbl in
  lower "" = "" ->
  chat_message req = "" ->
  ended sess = false ->
  "" ∉ crisis_keywords cfg ->
  Forall (fun kv => "" ∉ kv.2) (faq_keys cfg) ->
  result run = Return (plain smalltalk_reply false sid (Z.max 0 (max_turns cfg - turns sess)))
  /\ prompts run = []
  /\ table run !! sid = Some sess.
Proof.
  cbv zeta. intros Hlow Hmsg He Hkw Hfaq.
  assert (is_crisis cfg (chat_message req) = false) as Hc
    by (rewrite Hmsg; unfold is_crisis; rewrite Hlow; exact (any_in_empty_text _ Hkw)).
  assert (no_faq_answer cfg (chat_message req)) as Hf
    by (left; rewrite Hmsg; unfold match_faq; rewrite Hlow;
        exact (match_faq_loop_empty_text _ _ Hfaq)).
  assert (match_meta_query pats (chat_message req) = None) as Hm
    by (rewrite Hmsg; unfold match_meta_query; rewrite strip_empty; reflexivity).
  assert (is_smalltalk pats (chat_message req) = true) as Hs
    by (rewrite Hmsg; unfold is_smalltalk; rewrite strip_empty; reflexivity).
  rewrite (chat_smalltalk cfg pats env req tbl He Hc Hf Hm Hs). cbn [result prompts table].
  repeat split. exact (get_sess_keeps_active _ _ _ He).
Qed.

(** ** Invariants of the session table *)

Section TableInvariants.

Variable pats : Patterns.

Lemma handle_table_other (c : call) (tbl : gmap string Session) (k : string) :
  k <> call_sid c ->
  table (handle pats c tbl) !! k = (get_sess (call_now c) (call_sid c) tbl).2 !! k.
Proof.
  intros Hk. destruct c as [cfg env req|cfg env o]; cbn [handle call_sid call_now] in *.
  - apply chat_table_other. exact Hk.
  - unfold status.
    rewrite (surjective_pairing (get_sess (now env) (resolve_sid env o) tbl)). reflexivity.
Qed.

(** The entry a request leaves for its own session comes from the
    session it opened by one of the four steps. *)
Lemma handle_table_self (c : call) (tbl : gmap string Session) (s' : Session) :
  table (handle pats c tbl) !! call_sid c = Some s' ->
  exists m, step_of m (open_session (call_now c) (call_sid c) tbl) s'.
Proof.
  destruct c as [cfg env req|cfg env o]; cbn [handle call_sid call_now].
  - fold (chat_sid env req). intros Hs'.
    exists (chat_message req). unfold step_of.
    destruct (get_sess_self (now env) (chat_sid env req) tbl) as [Hin|[Hout _]];
      destruct (chat_table_cases pats cfg env req tbl) as [H|[H|[H|H]]];
      rewrite H in Hs'; rewrite ?lookup_alter_eq in Hs';
      rewrite ?Hin, ?Hout in Hs'; cbn in Hs'; try discriminate;
      injection Hs' as <-; auto.
  - unfold status.
    rewrite (surjective_pairing (get_sess (now env) (resolve_sid env o) tbl)).
    cbn [table]. intros Hs'. exists "". left.
    destruct (get_sess_self (now env) (resolve_sid env o) tbl) as [Hin|[Hout _]];
      congruence.
Qed.

(** A request leaves no entry for its own session only when [get_sess]
    left none. *)
Lemma handle_table_self_none (c : call) (tbl : gmap string Session) :
  table (handle pats c tbl) !! call_sid c = None <->
  (get_sess (call_now c) (call_sid c) tbl).2 !! call_sid c = None.
Proof.
  destruct c as [cfg env req|cfg env o]; cbn [handle call_sid call_now].
  - fold (chat_sid env req).
    destruct (chat_table_cases pats cfg env req tbl) as [H|[H|[H|H]]];
      rewrite H; rewrite ?lookup_alter_eq; rewrite ?fmap_None; reflexivity.
  - unfold status.
    rewrite (surjective_pairing (get_sess (now env) (resolve_sid env o) tbl)). reflexivity.
Qed.

Lemma step_of_well_counted (m : string) (s s' : Session) :
  step_of m s s' -> well_counted s -> well_counted s'.
Proof.
  unfold well_counted. intros [-> | [-> | [-> | ->]]] H; cbn [set_ended add_turn turns texts];
    rewrite ?length_app; cbn [length]; lia.
Qed.

Lemma open_session_well_counted (t : Z) (sid : string) (tbl : gmap string Session) :
  map_Forall (fun _ s => well_counted s) tbl -> well_counted (open_session t sid tbl).
Proof.
  intros Hall. unfold open_session. destruct (tbl !! sid) as [s|] eqn:E; [|reflexivity].
  exact (Hall _ _ E).
Qed.

Lemma handle_well_counted (c : call) (tbl : gmap string Session) :
  map_Forall (fun _ s => well_counted s) tbl ->
  map_Forall (fun _ s => well_counted s) (table (handle pats c tbl)).
Proof.
  intros Hall k s' Hs'. destruct (decide (k = call_sid c)) as [->|Hne].
  - destruct (handle_table_self c tbl s' Hs') as [m Hstep].
    exact (step_of_well_counted m _ _ Hstep (open_session_well_counted _ _ _ Hall)).
  - rewrite (handle_table_other c tbl k Hne) in Hs'.
    destruct (get_sess_other (call_now c) (call_sid c) tbl k Hne) as [H|H];
      rewrite H in Hs'; [exact (Hall _ _ Hs')|discriminate].
Qed.

End TableInvariants.

(** X9: After any sequence of [/chat] and [/status] requests, every stored
    session has a turn counter that is the length of its transcript, and
    so is never negative, provided the table started that way (the empty
    table of a fresh process does). *)
Theorem turns_count_transcript (pats : Patterns) (calls : list call)
    (tbl : gmap string Session) (k : string) (s : Session) :
  map_Forall (fun _ s0 => well_counted s0) tbl ->
  serve pats calls tbl !! k = Some s ->
  turns s = Z.of_nat (length (texts s)) /\ 0 <= turns s.
Proof.
  intros Hall Hs.
  assert (map_Forall (fun _ s0 => well_counted s0) (serve pats calls tbl)) as Hinv.
  { clear Hs. revert tbl Hall. induction calls as [|c calls IH]; intros tbl Hall; [exact Hall|].
    cbn [serve fold_left]. apply IH. apply handle_well_counted. exact Hall. }
  pose proof (Hinv _ _ Hs) as Hw. unfold well_counted in Hw. split; [exact Hw|lia].
Qed.

(** X10: One request removes the entry of a stored session exactly when the
    table size after its access is a multiple of one hundred and the
    session is ended or, being another session than the one of the
    request, was last used more than an hour before.  An entry it keeps
    has a turn counter that is the previous one or one more and a
    transcript that extends the previous one at its end; the entry of an
    ended session, when kept, is still ended with its counters as they
    were. *)
Theorem request_monotone (pats : Patterns) (c : call) (tbl : gmap string Session)
    (k : string) (s : Session) :
  tbl !! k = Some s ->
  let after := table (handle pats c tbl) !! k in
  let opened := <[call_sid c := open_session (call_now c) (call_sid c) tbl]> tbl in
  (after = None <->
     Z.of_nat (size opened) mod 100 = 0
     /\ (ended s = true \/ (k <> call_sid c /\ ts s < call_now c - 60 * 60)))
  /\ (forall s', after = Some s' ->
        turns s <= turns s' <= turns s + 1
        /\ texts s `prefix_of` texts s'
        /\ (ended s = true -> ended s' = true /\ turns s' = turns s /\ texts s' = texts s)).
Proof.
  intros Hs. cbv zeta. split.
  - rewrite <- (get_sess_removed (call_now c) (call_sid c) tbl k s Hs).
    destruct (decide (k = call_sid c)) as [->|Hne].
    + apply handle_table_self_none.
    + rewrite (handle_table_other pats c tbl k Hne). reflexivity.
  - intros s' Hs'.
    destruct (ended s) eqn:He.
    + destruct (handle_keeps_ended pats c tbl k s s Hs (conj He (conj eq_refl eq_refl)))
        as [Hnone|(s'' & Hs'' & Hend & Ht & Hx)]; [congruence|].
      assert (s'' = s') as -> by congruence.
      rewrite Ht, Hx. repeat split; [lia|lia|reflexivity|exact Hend].
    + assert (turns s <= turns s' <= turns s + 1 /\ texts s `prefix_of` texts s')
        as [Ht Hx]; [|repeat split; [apply Ht|apply Ht|exact Hx|discriminate..]].
      destruct (decide (k = call_sid c)) as [->|Hne].
      * destruct (handle_table_self pats c tbl s' Hs') as [m Hstep].
        unfold open_session in Hstep. rewrite Hs in Hstep.
        destruct Hstep as [-> | [-> | [-> | ->]]];
          cbn [touch set_ended add_turn turns texts];
          (split; [lia|]); try reflexivity; apply prefix_app_r; reflexivity.
      * rewrite (handle_table_other pats c tbl k Hne) in Hs'.
        destruct (get_sess_other (call_now c) (call_sid c) tbl k Hne) as [H|H];
          rewrite H in Hs'; [|discriminate].
        assert (s' = s) as -> by congruence. split; [lia|reflexivity].
Qed.

(** X11: A request leaves the entry of every other session exactly as it was,
    or sweeps it away; it sweeps only when the table size reached a
    multiple of one hundred, and only an entry that is ended or was last
    used more than an hour before. *)
Theorem request_isolated (pats : Patterns) (c : call) (tbl : gmap string Session)
    (k : string) :
  k <> call_sid c ->
  let after := table (handle pats c tbl) !! k in
  let opened := <[call_sid c := open_session (call_now c) (call_sid c) tbl]> tbl in
  after = tbl !! k
  \/ (after = None
      /\ Z.of_nat (size opened) mod 100 = 0
      /\ exists s, tbl !! k = Some s /\ (ended s = true \/ ts s < call_now c - 60 * 60)).
Proof.
  intros Hk. cbv zeta. rewrite (handle_table_other pats c tbl k Hk).
  unfold get_sess. cbn [snd].
  destruct (Z.of_nat (size _) mod 100 =? 0) eqn:Hmod.
  - rewrite sweep_lookup, lookup_insert_ne by congruence.
    destruct (tbl !! k) as [s|] eqn:Hs; [|left; reflexivity].
    destruct (stale (call_now c - 60 * 60) s) eqn:Hst; [right|left; reflexivity].
    split; [reflexivity|]. split; [apply Z.eqb_eq; exact Hmod|].
    exists s. split; [reflexivity|]. unfold stale in Hst.
    apply orb_true_iff in Hst as [Hold|Hend]; [right; apply Z.ltb_lt; exact Hold|left; exact Hend].
  - left. apply lookup_insert_ne. congruence.
Qed.

(** X12: When the table size after an access is a multiple of one hundred, the
    table [get_sess] leaves holds no ended session and no session last
    used more than an hour before. *)
Theorem sweep_leaves_clean (t : Z) (sid : string) (tbl : gmap string Session)
    (k : string) (s : Session) :
  Z.of_nat (size (<[sid := open_session t sid tbl]> tbl)) mod 100 = 0 ->
  (get_sess t sid tbl).2 !! k = Some s ->
  ended s = false /\ t - 60 * 60 <= ts s.
Proof.
  intros Hmod. unfold get_sess. cbn [snd].
  replace (Z.of_nat (size (<[sid := open_session t sid tbl]> tbl)) mod 100 =? 0) with true
    by (symmetry; apply Z.eqb_eq; exact Hmod).
  rewrite sweep_lookup.
  destruct (<[sid := open_session t sid tbl]> tbl !! k) as [s0|]; [|discriminate].
  destruct (stale (t - 60 * 60) s0) eqn:Hst; [discriminate|]. intros [= ->].
  unfold stale in Hst. apply orb_false_iff in Hst as [Hold Hend].
  split; [exact Hend|]. apply Z.ltb_ge. exact Hold.
Qed.

(** ** [/status] *)

(** X13: [/status] sends nothing to the generative service and returns no
    reply field.  It changes no turn counter, transcript or ended flag: an
    entry it leaves is the previous one, with the timestamp refreshed for
    its own session.  It removes entries through the sweep of [get_sess]
    only: when the table size after the access is a multiple of one
    hundred, the entries that are ended, the one of its own session
    included, and those of other sessions last used more than an hour
    before.  For an identifier the table does not hold it stores an empty
    session and reports [end = false] with the whole allowance. *)
Theorem status_read_only (cfg : Config) (env : Env) (o : option string)
    (tbl : gmap string Session) :
  let sid := resolve_sid env o in
  let run := status cfg env o tbl in
  let opened := <[sid := open_session (now env) sid tbl]> tbl in
  prompts run = []
  /\ (exists r, result run = Return r /\ reply r = None /\ session_id r = sid)
  /\ (forall k s', table run !! k = Some s' ->
        (k <> sid -> tbl !! k = Some s')
        /\ (k = sid -> forall s, tbl !! k = Some s ->
              turns s' = turns s /\ texts s' = texts s /\ ended s' = ended s
              /\ ts s' = now env))
  /\ (forall k s, tbl !! k = Some s ->
        (table run !! k = None <->
         Z.of_nat (size opened) mod 100 = 0
         /\ (ended s = true \/ (k <> sid /\ ts s < now env - 60 * 60))))
  /\ (tbl !! sid = None ->
        table run !! sid = Some (new_session (now env))
        /\ result run = Return {| reply := None; end_ := false; session_id := sid;
                                  remaining := Z.max 0 (max_turns cfg); handoff := None;
                                  category := None; confidence := None |}).
Proof.
  cbv zeta. split; [|split; [|split; [|split]]].
  - unfold status.
    rewrite (surjective_pairing (get_sess (now env) (resolve_sid env o) tbl)). reflexivity.
  - unfold status.
    rewrite (surjective_pairing (get_sess (now env) (resolve_sid env o) tbl)).
    eexists. repeat split.
  - unfold status.
    rewrite (surjective_pairing (get_sess (now env) (resolve_sid env o) tbl)).
    cbn [table]. intros k s' Hs'. split.
    + intros Hk. destruct (get_sess_other (now env) (resolve_sid env o) tbl k Hk) as [H|H];
        congruence.
    + intros -> s Hs.
      destruct (get_sess_self (now env) (resolve_sid env o) tbl) as [H|[H _]]; [|congruence].
      rewrite H in Hs'. injection Hs' as <-. unfold open_session. rewrite Hs. repeat split.
  - intros k s Hs. rewrite <- (get_sess_removed (now env) (resolve_sid env o) tbl k s Hs).
    unfold status.
    rewrite (surjective_pairing (get_sess (now env) (resolve_sid env o) tbl)). reflexivity.
  - apply status_reopens.
Qed.

(** ** Calls to the generative service *)

Lemma gemini_generate_sent (env : Env) (sent : list string) (p : string) :
  (gemini_generate env sent p).2 = if api_key env then (sent ++ [p])%list else sent.
Proof.
  unfold gemini_generate. destruct (api_key env); [|reflexivity]. cbn [negb].
  destruct (generate_content env _ _); reflexivity.
Qed.

Lemma answer_sent (cfg : Config) (env : Env) (m : string) (s : Session) :
  (answer cfg env m s).2 = [] \/ (api_key env = true /\ (answer cfg env m s).2 = [m]).
Proof.
  unfold answer. destruct (negb _); [left; reflexivity|].
  pose proof (gemini_generate_sent env [] m) as H.
  destruct (gemini_generate env [] m) as [g sent]. cbn [snd] in *.
  destruct (api_key env); [right|left]; auto.
Qed.

Lemma substantive_prompts (cfg : Config) (env : Env) (sid m : string) (s : Session)
    (tbl : gmap string Session) :
  exists s1, forall combined,
    combined = join " " (last_slice (max_turns cfg) (texts s1)) ->
    let sent := prompts (substantive cfg env sid m s tbl) in
    (api_key env = false -> sent = [])
    /\ (sent = [] \/ sent = [m] \/ sent = [cls_prompt cfg combined]
        \/ sent = [m; cls_prompt cfg combined]).
Proof.
  unfold substantive.
  destruct (truthy m);
    [exists (add_turn m s)|exists s]; intros combined ->; cbv zeta.
  - pose proof (answer_sent cfg env m (add_turn m s)) as Ha.
    destruct (answer cfg env m (add_turn m s)) as [reply sent]. cbn [snd] in Ha.
    destruct (_ >=? _).
    + rewrite close_session_prompts, classifier_raw_prompts.
      destruct Ha as [-> | [Hk ->]].
      * destruct (api_key env); split; auto; discriminate.
      * rewrite Hk. split; [discriminate|]. auto.
    + cbn [prompts]. destruct Ha as [-> | [Hk ->]]; split; auto; congruence.
  - pose proof (answer_sent cfg env m s) as Ha.
    destruct (answer cfg env m s) as [reply sent]. cbn [snd] in Ha.
    destruct (_ >=? _).
    + rewrite close_session_prompts, classifier_raw_prompts.
      destruct Ha as [-> | [Hk ->]].
      * destruct (api_key env); split; auto; discriminate.
      * rewrite Hk. split; [discriminate|]. auto.
    + cbn [prompts]. destruct Ha as [-> | [Hk ->]]; split; auto; congruence.
Qed.

Lemma chat_prompts_cases (cfg : Config) (pats : Patterns) (env : Env) (req : ChatRequest)
    (tbl : gmap string Session) :
  prompts (chat cfg pats env req tbl) = []
  \/ exists s t, prompts (chat cfg pats env req tbl)
                 = prompts (substantive cfg env (chat_sid env req) (chat_message req) s t).
Proof.
  unfold chat. fold (chat_message req). fold (chat_sid env req).
  rewrite (surjective_pairing (get_sess (now env) (chat_sid env req) tbl)).
  destruct (ended _); [left; reflexivity|].
  destruct (is_crisis _ _); [left; reflexivity|].
  destruct (match_faq _ _) as [[|c a]|]; [|left; reflexivity|];
    (destruct (match_meta_query _ _); [left; reflexivity|]);
    (destruct (is_smalltalk _ _); [left; reflexivity|right; eauto]).
Qed.

(** X14: A [/chat] request sends at most two prompts to the generative
    service, the message first and a classification prompt last, and none
    at all when no API key is configured. *)
Theorem chat_prompts_bounded (cfg : Config) (pats : Patterns) (env : Env)
    (req : ChatRequest) (tbl : gmap string Session) :
  let sent := prompts (chat cfg pats env req tbl) in
  (length sent <= 2)%nat
  /\ (api_key env = false -> sent = [])
  /\ exists combined,
       sent = [] \/ sent = [chat_message req] \/ sent = [cls_prompt cfg combined]
       \/ sent = [chat_message req; cls_prompt cfg combined].
Proof.
  cbv zeta.
  destruct (chat_prompts_cases cfg pats env req tbl) as [-> | (s & t & ->)].
  - split; [cbn; lia|]. split; [reflexivity|]. exists "". auto.
  - destruct (substantive_prompts cfg env (chat_sid env req) (chat_message req) s t)
      as [s1 Hs1].
    destruct (Hs1 _ eq_refl) as [Hkey Hcases]. split; [|split; [exact Hkey|eauto]].
    destruct Hcases as [-> | [-> | [-> | ->]]]; cbn; lia.
Qed.

(** X15: Below the turn limit a substantive message within the domain gets a
    reply with [end = false] whatever [generate_content] does: without an
    API key the reply is the fixed notice and nothing is sent; with one,
    once [gemini_model()] has built the model object, a call that raises
    gives the notice that carries the error, a response whose text is
    missing or blank gives the configured fallback, and otherwise the
    reply is the stripped text. *)
Theorem generated_reply_degrades (cfg : Config) (pats : Patterns) (env : Env)
    (req : ChatRequest) (tbl : gmap string Session) :
  let sid := chat_sid env req in
  let m := chat_message req in
  let sess := open_session (now env) sid tbl in
  let sess' := add_turn m sess in
  let run := chat cfg pats env req tbl in
  ended sess = false ->
  is_crisis cfg m = false ->
  no_faq_answer cfg m ->
  match_meta_query pats m = None ->
  is_smalltalk pats m = false ->
  is_psychology_domain cfg (texts sess') = true ->
  turns sess' < max_turns cfg ->
  exists r,
    result run = Return (plain r false sid (max_turns cfg - turns sess'))
    /\ table run !! sid = Some sess'
    /\ (api_key env = false ->
        prompts run = []
        /\ r = "⚠️ Server belum dikonfigurasi dengan GEMINI_API_KEY. Hubungi admin.")
    /\ (api_key env = true ->
        prompts run = [m]
        /\ match generate_content env 0 m with
           | GenFail e => r = "⚠️ Terjadi kendala saat memproses jawaban: " ++ e
           | GenText t =>
               r = if truthy (strip (default "" t)) then strip (default "" t)
                   else reply_fallback cfg
           end).
Proof.
  cbv zeta. intros He Hc Hf Hm Hs Hdom Hlt.
  rewrite (chat_substantive cfg pats env req tbl He Hc Hf Hm Hs).
  unfold substantive. rewrite (not_smalltalk_truthy pats _ Hs).
  unfold answer. rewrite Hdom. cbn [negb].
  unfold gemini_generate. cbn [length].
  replace (Z.max 0 (max_turns cfg - turns (add_turn (chat_message req)
             (open_session (now env) (chat_sid env req) tbl))))
    with (max_turns cfg - turns (add_turn (chat_message req)
             (open_session (now env) (chat_sid env req) tbl))) by lia.
  replace (turns (add_turn (chat_message req) (open_session (now env) (chat_sid env req) tbl))
           >=? max_turns cfg) with false by (symmetry; rewrite Z.geb_leb; apply Z.leb_gt; lia).
  assert (alter (add_turn (chat_message req)) (chat_sid env req)
            (get_sess (now env) (chat_sid env req) tbl).2 !! chat_sid env req
          = Some (add_turn (chat_message req) (open_session (now env) (chat_sid env req) tbl)))
    as Htbl by (rewrite lookup_alter_eq, (get_sess_keeps_active _ _ _ He); reflexivity).
  destruct (api_key env); cbn [negb].
  - destruct (generate_content env 0%nat (chat_message req)) as [t|e] eqn:Hg.
    + eexists. cbn [result table prompts]. split; [reflexivity|]. split; [exact Htbl|].
      split; [discriminate|]. intros _. split; [reflexivity|]. reflexivity.
    + eexists. cbn [result table prompts]. split; [reflexivity|]. split; [exact Htbl|].
      split; [discriminate|]. intros _. split; reflexivity.
  - eexists. cbn [result table prompts]. split; [reflexivity|]. split; [exact Htbl|].
    split; [|discriminate]. intros _. split; reflexivity.
Qed.

(** ** The closing turn: window and failure *)

(** X16: The slice [l[-n:]] is always an end of the list; for positive [n] it
    holds the last [n] entries, or all of them when there are fewer; for
    [n = 0] it is the whole list, so a turn limit of zero classifies the
    entire transcript. *)
Theorem last_slice_window {A : Type} (n : Z) (l : list A) :
  last_slice n l `suffix_of` l
  /\ (0 < n -> length (last_slice n l) = Nat.min (Z.to_nat n) (length l))
  /\ (n = 0 -> last_slice n l = l)
  /\ (Z.of_nat (length l) <= n -> last_slice n l = l).
Proof.
  unfold last_slice. split; [|split; [|split]].
  - destruct (0 <? n); apply suffix_drop.
  - intros Hn. replace (0 <? n) with true by (symmetry; apply Z.ltb_lt; exact Hn).
    rewrite length_drop. lia.
  - intros ->. reflexivity.
  - intros Hlen. destruct (0 <? n) eqn:Hn.
    + replace (length l - Z.to_nat n)%nat with 0%nat by lia. reflexivity.
    + apply Z.ltb_ge in Hn. assert (n = 0) as -> by lia. reflexivity.
Qed.

(** X17: When the classifier's object carries a list or an object as its
    category, the closing turn raises at [category in suggestions]: the
    request fails after the turn was counted, and the session is left
    active at or above the limit. *)
Theorem unhashable_category_raises (cfg : Config) (pats : Patterns) (env : Env)
    (req : ChatRequest) (tbl : gmap string Session) :
  let sid := chat_sid env req in
  let m := chat_message req in
  let sess := open_session (now env) sid tbl in
  let sess' := add_turn m sess in
  let sent := (answer cfg env m sess').2 in
  let dataj := parse_json_obj env (classifier_raw cfg env sess' sent).1 in
  let run := chat cfg pats env req tbl in
  ended sess = false ->
  is_crisis cfg m = false ->
  no_faq_answer cfg m ->
  match_meta_query pats m = None ->
  is_smalltalk pats m = false ->
  max_turns cfg <= turns sess + 1 ->
  (exists l, assoc "category" dataj = Some (JArr l))
  \/ (exists items, assoc "category" dataj = Some (JObj items)) ->
  result run = Raise "TypeError"
  /\ table run !! sid = Some sess'
  /\ ended sess' = false
  /\ max_turns cfg <= turns sess'.
Proof.
  cbv zeta. intros He Hc Hf Hm Hs Hge Hcat.
  rewrite (chat_substantive cfg pats env req tbl He Hc Hf Hm Hs).
  rewrite (substantive_closing cfg env _ _ _ _ (not_smalltalk_truthy pats _ Hs) Hge).
  unfold close_session.
  rewrite (surjective_pairing (classifier_raw cfg env _ _)).
  assert (in_suggestions cfg (read_category (parse_json_obj env
            (classifier_raw cfg env
               (add_turn (chat_message req) (open_session (now env) (chat_sid env req) tbl))
               (answer cfg env (chat_message req)
                  (add_turn (chat_message req)
                     (open_session (now env) (chat_sid env req) tbl))).2).1)) = None) as ->.
  { unfold read_category. destruct Hcat as [[l ->]|[items ->]]; reflexivity. }
  cbn [result table]. split; [reflexivity|]. split; [|split].
  - rewrite lookup_alter_eq, (get_sess_keeps_active _ _ _ He). reflexivity.
  - exact He.
  - cbn [add_turn turns]. lia.
Qed.

(** ** The text [parse_json_obj] hands to [json.loads] *)

Lemma upto_close_none (s : string) : upto_close s = None -> free_of "}" s = true.
Proof.
  induction s as [|c s IH]; [reflexivity|]. cbn [upto_close free_of].
  destruct (upto_close s); [discriminate|].
  destruct (Ascii.eqb c "}"); [discriminate|]. intros _. exact (IH eq_refl).
Qed.

Lemma upto_close_some (s g : string) :
  upto_close s = Some g ->
  exists a post, g = a ++ "}" /\ s = g ++ post /\ free_of "}" post = true.
Proof.
  revert g. induction s as [|c s IH]; intros g; [discriminate|]. cbn [upto_close].
  destruct (upto_close s) as [r|] eqn:Hr.
  - intros [= <-]. destruct (IH r eq_refl) as (a & post & -> & Hs & Hfree).
    exists (String c a), post. rewrite !sapp_cons. repeat split; [congruence|exact Hfree].
  - destruct (Ascii.eqb c "}") eqn:Hc; [|discriminate]. intros [= <-].
    apply Ascii.eqb_eq in Hc. subst c.
    exists "", s. repeat split. exact (upto_close_none s Hr).
Qed.

Lemma from_open_some (s s' : string) :
  from_open s = Some s' ->
  exists pre r, s = pre ++ s' /\ s' = String "{" r /\ free_of "{" pre = true.
Proof.
  induction s as [|c s IH]; [discriminate|]. cbn [from_open].
  destruct (Ascii.eqb c "{") eqn:Hc.
  - intros [= <-]. apply Ascii.eqb_eq in Hc. subst c. exists "", s. repeat split.
  - intros H. destruct (IH H) as (pre & r & -> & -> & Hfree).
    exists (String c pre), r. rewrite sapp_cons. repeat split.
    cbn [free_of]. rewrite Hc. exact Hfree.
Qed.

(** X18: [re.search(r"\{.*\}", s, re.S)] finds a text exactly when [s] has a
    closing brace somewhere after its first opening brace; the text found
    runs from that first opening brace to the last closing brace of [s],
    and searching it again finds the same text. *)
Theorem brace_span_exact (s g : string) :
  (brace_span s = Some g <->
   exists pre mid post,
     s = pre ++ "{" ++ mid ++ "}" ++ post /\ g = "{" ++ mid ++ "}"
     /\ free_of "{" pre = true /\ free_of "}" post = true)
  /\ (brace_span s = Some g -> brace_span g = Some g).
Proof.
  assert (brace_span s = Some g ->
          exists pre mid post,
            s = pre ++ "{" ++ mid ++ "}" ++ post /\ g = "{" ++ mid ++ "}"
            /\ free_of "{" pre = true /\ free_of "}" post = true) as Hfwd.
  { unfold brace_span. destruct (from_open s) as [s'|] eqn:Ho; [|discriminate].
    intros Hc. destruct (from_open_some s s' Ho) as (pre & r & -> & -> & Hpre).
    destruct (upto_close_some _ g Hc) as (a & post & -> & Hs' & Hpost).
    destruct a as [|c a].
    - rewrite sapp_nil_l in Hs'. discriminate.
    - rewrite !sapp_cons in Hs'. injection Hs' as <- ->.
      exists pre, a, post. rewrite !sapp_cons, !sapp_nil_l, sapp_assoc.
      repeat split; assumption. }
  split; [split; [exact Hfwd|]|].
  - intros (pre & mid & post & -> & -> & Hpre & Hpost).
    exact (brace_span_spec pre mid post Hpre Hpost).
  - intros H. destruct (Hfwd H) as (pre & mid & post & _ & -> & _ & _).
    pose proof (brace_span_spec "" mid "" eq_refl eq_refl) as Hg.
    rewrite sapp_nil_l, (sapp_nil_r "}") in Hg. exact Hg.
Qed.

(** ** Hot reload *)

Section ReloadFacts.

Variable stat : string -> option Z.

Lemma note_file_lookup (force : bool) (m : gmap string Z) (b : bool) (x fn : string) :
  (note_file stat force (m, b) x).1 !! fn
  = if decide (fn = x) then Some (mtime_of stat x) else m !! fn.
Proof.
  unfold note_file. cbn [fst].
  destruct (force || negb (bool_decide (m !! x = Some (mtime_of stat x)))) eqn:Hc.
  - cbn [fst]. destruct (decide (fn = x)) as [->|Hne].
    + apply lookup_insert_eq.
    + apply lookup_insert_ne. congruence.
  - cbn [fst]. destruct (decide (fn = x)) as [->|Hne]; [|reflexivity].
    apply orb_false_iff in Hc as [_ Hc]. apply negb_false_iff in Hc.
    apply bool_decide_eq_true in Hc. exact Hc.
Qed.

Lemma note_fold_lookup (force : bool) (l : list string) (m : gmap string Z) (b : bool)
    (fn : string) :
  (fold_left (note_file stat force) l (m, b)).1 !! fn
  = if bool_decide (fn ∈ l) then Some (mtime_of stat fn) else m !! fn.
Proof.
  revert m b. induction l as [|x l IH]; intros m b; [reflexivity|].
  cbn [fold_left]. destruct (note_file stat force (m, b) x) as [m1 b1] eqn:Hn.
  rewrite IH. pose proof (note_file_lookup force m b x fn) as Hx.
  rewrite Hn in Hx. cbn [fst] in Hx.
  destruct (decide (fn = x)) as [->|Hne].
  - rewrite (bool_decide_eq_true_2 (x ∈ x :: l)) by apply list_elem_of_here.
    destruct (bool_decide (x ∈ l)); [reflexivity|exact Hx].
  - destruct (bool_decide (fn ∈ l)) eqn:Hin.
    + apply bool_decide_eq_true in Hin.
      rewrite (bool_decide_eq_true_2 (fn ∈ x :: l)) by (apply list_elem_of_further; exact Hin).
      reflexivity.
    + apply bool_decide_eq_false in Hin.
      rewrite (bool_decide_eq_false_2 (fn ∈ x :: l)); [exact Hx|].
      intros H. apply elem_of_cons in H as [H|H]; [congruence|exact (Hin H)].
Qed.

Lemma note_fold_flag (force : bool) (l : list string) (m : gmap string Z) :
  (fold_left (note_file stat force) l (m, true)).2 = true.
Proof.
  revert m. induction l as [|x l IH]; intros m; [reflexivity|].
  cbn [fold_left]. unfold note_file at 2. cbn [fst].
  destruct (force || negb _); apply IH.
Qed.

Lemma note_fold_same (l : list string) (m : gmap string Z) (b : bool) :
  Forall (fun fn => m !! fn = Some (mtime_of stat fn)) l ->
  fold_left (note_file stat false) l (m, b) = (m, b).
Proof.
  induction 1 as [|x l Hx _ IH]; [reflexivity|].
  cbn [fold_left]. unfold note_file at 2. cbn [fst orb].
  rewrite (bool_decide_eq_true_2 _ Hx). exact IH.
Qed.

Lemma note_fold_changed (force : bool) (l : list string) (m : gmap string Z) (b : bool) :
  (force = true /\ l <> []) \/ Exists (fun fn => m !! fn <> Some (mtime_of stat fn)) l ->
  (fold_left (note_file stat force) l (m, b)).2 = true.
Proof.
  revert b. induction l as [|x l IH]; intros b H.
  - destruct H as [[_ H]|H]; [congruence|inversion H].
  - cbn [fold_left]. unfold note_file at 2. cbn [fst].
    destruct (force || negb (bool_decide (m !! x = Some (mtime_of stat x)))) eqn:Hc.
    + apply note_fold_flag.
    + apply orb_false_iff in Hc as [Hf Hc]. apply negb_false_iff in Hc.
      apply bool_decide_eq_true in Hc. apply IH.
      destruct H as [[H _]|H]; [congruence|].
      right. inversion H; subst; [congruence|assumption].
Qed.

End ReloadFacts.

Lemma reload_lookup (stat : string -> option Z) (loaded : Snapshot) (force : bool)
    (c : ConfigState) (fn : string) :
  mtimes (reload stat loaded force c) !! fn
  = if bool_decide (fn ∈ config_files) then Some (mtime_of stat fn) else mtimes c !! fn.
Proof.
  unfold reload.
  pose proof (note_fold_lookup stat force config_files (mtimes c) false fn) as H.
  destruct (fold_left _ _ _) as [recorded changed]. cbn [fst] in H.
  destruct (changed || force); exact H.
Qed.

Lemma reload_unchanged (stat : string -> option Z) (loaded : Snapshot) (c : ConfigState) :
  Forall (fun fn => mtimes c !! fn = Some (mtime_of stat fn)) config_files ->
  reload stat loaded false c = c.
Proof.
  intros Hall. unfold reload. rewrite (note_fold_same stat _ _ _ Hall).
  destruct c. reflexivity.
Qed.

(** X19: After [reload] the recorded modification time of each of the nine
    files is the one on disk ([-1] for a missing file) and no other entry
    has changed.  The snapshot is replaced by what [_load_all] reads when
    the reload is forced or some recorded time differs from the disk, and
    otherwise the whole state is left as it was. *)
Theorem reload_spec (stat : string -> option Z) (loaded : Snapshot) (force : bool)
    (c : ConfigState) :
  (forall fn, mtimes (reload stat loaded force c) !! fn
              = if bool_decide (fn ∈ config_files) then Some (mtime_of stat fn)
                else mtimes c !! fn)
  /\ (force = true
      \/ Exists (fun fn => mtimes c !! fn <> Some (mtime_of stat fn)) config_files ->
      data (reload stat loaded force c) = loaded)
  /\ (force = false ->
      Forall (fun fn => mtimes c !! fn = Some (mtime_of stat fn)) config_files ->
      reload stat loaded force c = c).
Proof.
  split; [|split].
  - intros fn. apply reload_lookup.
  - intros H. unfold reload.
    pose proof (note_fold_changed stat force config_files (mtimes c) false) as Hc.
    destruct (fold_left _ _ _) as [recorded changed]. cbn [snd] in Hc.
    destruct H as [-> | H].
    + rewrite orb_true_r. reflexivity.
    + rewrite (Hc (or_intror H)). reflexivity.
  - intros ->. apply reload_unchanged.
Qed.

(** X20: A reload right after a reload, on an unchanged disk, changes nothing:
    neither the recorded times nor the snapshot, whatever [_load_all]
    would read. *)
Theorem reload_settles (stat : string -> option Z) (loaded loaded' : Snapshot)
    (force : bool) (c : ConfigState) :
  reload stat loaded' false (reload stat loaded force c) = reload stat loaded force c.
Proof.
  apply reload_unchanged.
  apply Forall_forall. intros fn Hin.
  rewrite reload_lookup, (bool_decide_eq_true_2 _ Hin). reflexivity.
Qed.

(** ** The admin endpoints *)

Lemma require_admin_pass (st : AdminSettings) (header : option string) :
  _require_admin st header = None <->
  admin_enabled st = true /\ admin_token st <> "" /\ header = Some (admin_token st).
Proof.
  unfold _require_admin, str_or. split.
  - intros H. destruct (admin_enabled st); [|discriminate H]. cbn [negb] in H.
    destruct (admin_token st) as [|c want]; [discriminate H|].
    destruct header as [[|hc h]|]; cbn [default from_option id truthy negb orb] in H;
      try (cbn [String.eqb negb] in H; discriminate H).
    destruct (String.eqb (String hc h) (String c want)) eqn:Heq;
      [|cbn [negb] in H; discriminate H].
    apply String.eqb_eq in Heq. rewrite Heq. repeat split. discriminate.
  - intros (-> & Hne & ->). cbn [negb default].
    destruct (admin_token st) as [|c want]; [congruence|].
    cbn [truthy negb orb]. rewrite String.eqb_refl. reflexivity.
Qed.

(** X21: [_require_admin] lets a request through exactly when the admin
    endpoints are enabled, a non-empty token is configured and the header
    carries that token.  It answers 403 whenever they are disabled,
    whatever the header, and 401 otherwise; an empty configured token
    authorises nobody. *)
Theorem require_admin_decides (st : AdminSettings) (header : option string) :
  (_require_admin st header = None <->
   admin_enabled st = true /\ admin_token st <> "" /\ header = Some (admin_token st))
  /\ (admin_enabled st = false ->
      _require_admin st header = Some (HTTPException 403 "admin endpoints disabled"))
  /\ (admin_enabled st = true -> _require_admin st header <> None ->
      _require_admin st header = Some (HTTPException 401 "unauthorized"))
  /\ (admin_token st = "" -> _require_admin st header <> None).
Proof.
  split; [apply require_admin_pass|]. split; [|split].
  - intros He. unfold _require_admin. rewrite He. reflexivity.
  - intros He. unfold _require_admin. rewrite He. cbn [negb].
    destruct (negb _ || negb _); [reflexivity|congruence].
  - intros Hw H. apply require_admin_pass in H as (_ & Hne & _). congruence.
Qed.

(** X22: A request that [_require_admin] turns down leaves the configuration
    files and [CFG] untouched on all three admin endpoints and gets the
    error of [_require_admin], also when it names a file outside the
    allow-list: authorisation is checked first. *)
Theorem admin_rejected_no_effect (lib : Rendering) (stat : string -> option Z)
    (loaded : Snapshot) (header : option string) (payload : PutPayload) (srv : Server) :
  ~ (admin_enabled (snap_admin (data (CFG srv))) = true
     /\ admin_token (snap_admin (data (CFG srv))) <> ""
     /\ header = Some (admin_token (snap_admin (data (CFG srv))))) ->
  exists e,
    (e = HTTPException 403 "admin endpoints disabled" \/ e = HTTPException 401 "unauthorized")
    /\ admin_put_config lib stat loaded header payload srv = (inl e, srv)
    /\ admin_get_config stat loaded header srv = (inl e, srv)
    /\ admin_reload stat loaded header srv = (Some e, srv).
Proof.
  intros Hno. unfold admin_put_config, admin_get_config, admin_reload.
  destruct (_require_admin (snap_admin (data (CFG srv))) header) as [e|] eqn:Hr.
  - exists e. split; [|repeat split].
    destruct (admin_enabled (snap_admin (data (CFG srv)))) eqn:He.
    + right. unfold _require_admin in Hr. rewrite He in Hr. cbn [negb] in Hr.
      destruct (negb _ || negb _); congruence.
    + left. unfold _require_admin in Hr. rewrite He in Hr. cbn [negb] in Hr. congruence.
  - exfalso. apply Hno, require_admin_pass, Hr.
Qed.

Lemma reload_forced (stat : string -> option Z) (loaded : Snapshot) (c : ConfigState) :
  data (reload stat loaded true c) = loaded.
Proof.
  unfold reload. destruct (fold_left _ _ _) as [recorded changed].
  rewrite orb_true_r. reflexivity.
Qed.

Lemma allowed_json_or_text (f : string) :
  f ∈ ALLOWED_FILES ->
  endswith f ".json" = if bool_decide (f = "system_prompt.md" \/ f = "closing.txt")
                       then false else true.
Proof.
  unfold ALLOWED_FILES. intros H.
  repeat (apply elem_of_cons in H as [->|H]; [vm_compute; reflexivity|]).
  inversion H.
Qed.

(** X23: An authorised [PUT /admin/config] on a file of the allow-list writes
    that file and no other and forces a reload; when [_load_all] returns
    on the files as written, with [loaded], that is the new snapshot and
    the request reports the name of the file.  What it writes is
    [json.dumps] of the data for the seven JSON files, and for
    [system_prompt.md] and [closing.txt] the data itself when it is a
    non-empty string, [str()] of it when it is another true value, and
    the empty text when it is null, false, zero, the empty string, the
    empty list or the empty object. *)
Theorem admin_put_writes (lib : Rendering) (stat : string -> option Z)
    (loaded : Snapshot) (header : option string) (payload : PutPayload) (srv : Server)
    (f : string) :
  _require_admin (snap_admin (data (CFG srv))) header = None ->
  put_file payload = Some f ->
  f ∈ ALLOWED_FILES ->
  let run := admin_put_config lib stat loaded header payload srv in
  exists text,
    run.1 = inr f
    /\ disk run.2 !! f = Some text
    /\ (forall g, g <> f -> disk run.2 !! g = disk srv !! g)
    /\ data (CFG run.2) = loaded
    /\ (f <> "system_prompt.md" -> f <> "closing.txt" -> text = dumps lib (put_data payload))
    /\ (f = "system_prompt.md" \/ f = "closing.txt" ->
        (forall s, put_data payload = JStr s -> text = s)
        /\ (json_truthy (put_data payload) = false -> text = "")
        /\ (put_data payload = JNull \/ put_data payload = JBool false
            \/ put_data payload = JInt 0 \/ put_data payload = JFloat 0%float
            \/ put_data payload = JStr "" \/ put_data payload = JArr []
            \/ put_data payload = JObj [] -> text = "")
        /\ (json_truthy (put_data payload) = true ->
            (forall s, put_data payload <> JStr s) -> text = str_of lib (put_data payload))).
Proof.
  intros Hauth Hfile Hallowed. cbv zeta. unfold admin_put_config.
  rewrite Hauth, Hfile, (bool_decide_eq_true_2 _ Hallowed).
  rewrite (allowed_json_or_text f Hallowed). cbn [fst snd disk CFG].
  eexists. split; [reflexivity|]. split; [apply lookup_insert_eq|].
  split; [intros g Hg; apply lookup_insert_ne; congruence|].
  split; [|split].
  - apply reload_forced.
  - intros H1 H2. rewrite bool_decide_eq_false_2; [reflexivity|]. intros [?|?]; congruence.
  - intros Hf. rewrite (bool_decide_eq_true_2 _ Hf). unfold text_of. split; [|split; [|split]].
    + intros s ->. cbn [json_truthy]. destruct s; reflexivity.
    + intros ->. reflexivity.
    + intros [-> | [-> | [-> | [-> | [-> | [-> | ->]]]]]]; reflexivity.
    + intros -> Hns. destruct (put_data payload); try reflexivity.
      exfalso. exact (Hns _ eq_refl).
Qed.

(** X24: An authorised [PUT /admin/config] that names no file, or a file
    outside the allow-list, is answered with 400 and changes neither the
    files nor [CFG]. *)
Theorem admin_put_disallowed (lib : Rendering) (stat : string -> option Z)
    (loaded : Snapshot) (header : option string) (payload : PutPayload) (srv : Server) :
  _require_admin (snap_admin (data (CFG srv))) header = None ->
  (forall f, put_file payload = Some f -> f ∉ ALLOWED_FILES) ->
  exists detail,
    admin_put_config lib stat loaded header payload srv
    = (inl (HTTPException 400 detail), srv)
    /\ detail = "file not allowed: " ++ default "None" (put_file payload).
Proof.
  intros Hauth Hnot. unfold admin_put_config. rewrite Hauth.
  destruct (put_file payload) as [f|] eqn:Hf.
  - rewrite (bool_decide_eq_false_2 _ (Hnot f eq_refl)). eexists. split; reflexivity.
  - eexists. split; reflexivity.
Qed.

End Properties.

(** * Examples

    The counterexamples and the instances of the theorems, on text of the
    ASCII range. *)

#[local] Existing Instance ascii_text.

(** C8 fails as stated: the keyword [SOS] occurs in the message [sos] up
    to letter case, yet [is_crisis] does not fire, because the keyword is
    compared as it is written with the lowered message. *)
Lemma keyword_case_counterexample :
  (exists k, k ∈ crisis_keywords cfg_capitals /\ occurs_ci k "sos")
  /\ is_crisis cfg_capitals "sos" = false.
Proof.
  split; [|reflexivity].
  exists "SOS". split; [apply list_elem_of_here|].
  exists "", "". reflexivity.
Qed.

(** C9 fails as stated: with a context that maps [a] to the text of a
    token, a second pass resolves what the first one put in. *)
Lemma template_not_idempotent :
  _template "{{a}}" ctx_nested = "{{b}}"
  /\ _template (_template "{{a}}" ctx_nested) ctx_nested = "x"
  /\ _template (_template "{{a}}" ctx_nested) ctx_nested <> _template "{{a}}" ctx_nested.
Proof. repeat split. vm_compute. discriminate. Qed.

(** The whitespace of the ASCII range has the property of
    [brace_ends_spaces], and [ascii_lower] leaves no capital letter. *)
Lemma ascii_brace_ends_spaces : brace_ends_spaces.
Proof.
  intros l r. induction l as [|c l [IH1 IH2]].
  - split; [cbn; lia|reflexivity].
  - rewrite sapp_cons. cbn [spaces ascii_text ascii_spaces String.length] in *.
    destruct (ascii_isspace c); [|split; [lia|reflexivity]].
    split; [lia|]. f_equal. exact IH2.
Qed.

Lemma ascii_lower_no_capital (s : string) : no_capital (lower s) = true.
Proof.
  unfold no_capital. induction s as [|c s IH]; [reflexivity|].
  cbn [lower ascii_text ascii_lower all_in] in *. rewrite IH, andb_true_r.
  destruct c as [[] [] [] [] [] [] [] []]; vm_compute; reflexivity.
Qed.

Lemma template_absent_verbatim_witness :
  _template ("Halo " ++ "{{ clinic.phone}}" ++ " dari {{clinic.name}}") ctx_demo
    = _template "Halo " ctx_demo ++ "{{ clinic.phone}}"
      ++ _template " dari {{clinic.name}}" ctx_demo
  /\ _template (_template "{{clinic.name}} {{x}}" ctx_demo) ctx_demo
     = _template "{{clinic.name}} {{x}}" ctx_demo.
Proof.
  apply (template_absent_verbatim (py := ascii_text) ctx_demo "Halo " "{{ clinic.phone}}" "clinic.phone"
           " dari {{clinic.name}}" "{{clinic.name}} {{x}}");
    [exact ascii_brace_ends_spaces|vm_compute; reflexivity..].
Defined.

Lemma classifiers_match_lowered_text_witness :
  is_crisis cfg_capitals "Tolong, SOS!" = false.
Proof.
  destruct (classifiers_match_lowered_text (py := ascii_text) cfg_capitals "Tolong, SOS!" [])
    as (_ & _ & _ & _ & _ & H).
  destruct (H ascii_lower_no_capital) as (_ & Hcrisis & _).
  apply Hcrisis. repeat constructor.
Defined.

(** C2 fails as stated: the message [SOS] matches the configured crisis
    keyword [SOS] letter for letter, yet the router does not take the
    crisis route: it counts a turn, answers with the redirect of the
    domain gate and leaves the session active. *)
Lemma crisis_keyword_missed_counterexample :
  let run := chat cfg_capitals pats_demo (env_demo "{}") (ask "s1" "SOS") ∅ in
  (exists k, k ∈ crisis_keywords cfg_capitals /\ occurs k "SOS" /\ occurs_ci k "SOS")
  /\ result run = Return (plain redirect_reply false "s1" 4)
  /\ exists s, table run !! "s1" = Some s /\ ended s = false /\ turns s = 1.
Proof.
  cbv zeta. split; [|split].
  - exists "SOS". split; [apply list_elem_of_here|]. split; exists "", ""; reflexivity.
  - vm_compute. reflexivity.
  - eexists. repeat split; vm_compute; reflexivity.
Qed.

Lemma crisis_ends_session_witness :
  let run := chat (_load_all ctx_demo files_token) pats_demo (env_demo "{}")
               (ask "s1" "Aku MAU MATI saja") ∅ in
  result run
  = Return {| reply := Some "Kamu tidak sendirian. Hubungi CurhatKuy atau 119 ext. 8.";
              end_ := true; session_id := "s1"; remaining := 0; handoff := Some true;
              category := None; confidence := None |}
  /\ prompts run = []
  /\ (exists s', table run !! "s1" = Some s'
        /\ ended s' = true /\ turns s' = 0 /\ texts s' = []).
Proof.
  assert ("mau mati" ∈ crisis_keywords (_load_all ctx_demo files_token)) as Hin
    by (apply (bool_decide_unpack _); vm_compute; exact I).
  assert (occurs "mau mati" (lower (chat_message (ask "s1" "Aku MAU MATI saja")))) as Hocc
    by (exists "aku ", " saja"; vm_compute; reflexivity).
  pose proof (crisis_ends_session (py := ascii_text) (_load_all ctx_demo files_token) pats_demo (env_demo "{}")
                (ask "s1" "Aku MAU MATI saja") ∅ "mau mati" eq_refl Hin Hocc) as H.
  destruct H as (H1 & H2 & H3 & H4).
  destruct (H4 ctx_demo files_token eq_refl) as [_ Htok].
  rewrite (Htok "Kamu tidak sendirian. Hubungi " "{{ clinic.name }}" "clinic.name"
             " atau 119 ext. 8." eq_refl eq_refl eq_refl) in H1.
  repeat split; assumption.
Defined.

Lemma turn_accounting_witness :
  exists s', table (chat cfg_demo pats_demo (env_demo "{}") (ask "s1" "halo") tbl_four) !! "s1"
             = Some s'
             /\ turns s' = 4 /\ length (texts s') = 4%nat /\ ended s' = false.
Proof.
  destruct (turn_accounting (py := ascii_text) cfg_demo pats_demo (env_demo "{}") (ask "s1" "halo") tbl_four
              eq_refl eq_refl) as (_ & Hquiet & _).
  destruct (Hquiet (or_introl eq_refl) (or_intror eq_refl)) as (_ & s' & Hs' & Ht & Hx & He).
  exists s'. rewrite Hx. repeat split; assumption.
Defined.

Lemma faq_overshoots_turn_limit_witness :
  let run := chat cfg_demo pats_demo (env_demo "{}") (ask "s1" "Jam buka kapan?") tbl_four in
  result run = Return (plain "Klinik buka 09.00-17.00." false "s1" 0)
  /\ exists s', table run !! "s1" = Some s' /\ turns s' = 5
                /\ max_turns cfg_demo <= turns s' /\ ended s' = false.
Proof.
  exact (faq_overshoots_turn_limit (py := ascii_text) cfg_demo pats_demo (env_demo "{}")
           (ask "s1" "Jam buka kapan?") tbl_four "Klinik buka 09.00-17.00."
           eq_refl eq_refl eq_refl eq_refl ltac:(vm_compute; discriminate)).
Defined.

(** C3 fails as stated: a crisis message on a new session returns
    [remaining = 0] while the session has no turn counted, so
    [max(0, max_turns - turns)] is 5. *)
Lemma crisis_remaining_counterexample :
  let run := chat cfg_demo pats_demo (env_demo "{}") (ask "s1" "aku mau mati") ∅ in
  exists r s, result run = Return r /\ table run !! "s1" = Some s
              /\ end_ r = true /\ remaining r = 0
              /\ Z.max 0 (max_turns cfg_demo - turns s) = 5
              /\ remaining r <> Z.max 0 (max_turns cfg_demo - turns s).
Proof. eexists _, _. repeat split; try reflexivity. vm_compute. discriminate. Qed.

Lemma remaining_reported_witness :
  exists s, table (chat cfg_demo pats_demo (env_demo "{}") (ask "s1" "Jam buka kapan?") tbl_four)
              !! "s1" = Some s
            /\ ended s = false
            /\ 0 = Z.max 0 (max_turns cfg_demo - turns s).
Proof.
  destruct (remaining_reported (py := ascii_text) pats_demo
              (CallChat cfg_demo (env_demo "{}") (ask "s1" "Jam buka kapan?")) tbl_four
              (plain "Klinik buka 09.00-17.00." false "s1" 0) eq_refl)
    as (_ & _ & _ & _ & H).
  exact (H eq_refl).
Defined.

(** C1 fails as stated: with a hundred sessions in the table, the request
    after the one that ended session [s1] sweeps its entry away, and the
    next request on [s1] opens a new, active session and gets the
    small-talk reply with [end = false]. *)
Lemma ended_session_reopened :
  let env := env_demo "{}" in
  let t0 := serve pats_demo other_clients ∅ in
  let r1 := chat cfg_demo pats_demo env (ask "s1" "aku mau mati") t0 in
  let r2 := chat cfg_demo pats_demo env (ask "s1" "halo") (table r1) in
  let r3 := chat cfg_demo pats_demo env (ask "s1" "halo") (table r2) in
  (exists r, result r1 = Return r /\ end_ r = true)
  /\ result r2 = Return (plain ended_reply true "s1" 0)
  /\ table r2 !! "s1" = None
  /\ result r3 = Return (plain smalltalk_reply false "s1" 5).
Proof.
  cbv zeta. repeat split; [eexists; split|..]; vm_compute; reflexivity.
Qed.

Lemma ended_session_stays_ended_while_stored_witness :
  result (chat cfg_demo pats_demo (env_demo "{}") (ask "s1" "aku cemas")
            (serve pats_demo calls_between tbl_ended))
  = Return (plain ended_reply true "s1" 0)
  /\ (serve pats_demo [CallStatus cfg_demo (env_demo "{}") (Some "s1")] tbl_swept !! "s1" = None
      /\ result (chat cfg_demo pats_demo (env_demo "{}") (ask "s1" "aku cemas")
                   (serve pats_demo [CallStatus cfg_demo (env_demo "{}") (Some "s1")] tbl_swept))
         <> Return (plain ended_reply true "s1" 0)).
Proof.
  split.
  - refine (proj1 (proj1 (ended_session_stays_ended_while_stored (py := ascii_text) pats_demo tbl_ended "s1"
                     (set_ended (new_session 1000)) calls_between cfg_demo (env_demo "{}")
                     (ask "s1" "aku cemas") _ eq_refl eq_refl) _)).
    + vm_compute. reflexivity.
    + vm_compute. repeat split; eexists; reflexivity.
  - assert (serve pats_demo [CallStatus cfg_demo (env_demo "{}") (Some "s1")] tbl_swept !! "s1"
            = None) as Hgone by (vm_compute; reflexivity).
    split; [exact Hgone|].
    refine (proj1 (proj2 (proj1 (proj2 (ended_session_stays_ended_while_stored (py := ascii_text) pats_demo
                     tbl_swept "s1" (set_ended (new_session 1000))
                     [CallStatus cfg_demo (env_demo "{}") (Some "s1")] cfg_demo (env_demo "{}")
                     (ask "s1" "aku cemas") _ eq_refl eq_refl)) Hgone))).
    vm_compute. reflexivity.
Defined.

(** C6 fails as stated: with [max_turns = 1] the first message is outside
    the domain, the gate fires, and the same call goes on to the turn
    limit: it sends the classification prompt, appends the closing text to
    the redirect reply and ends the session. *)
Lemma gate_then_closing_counterexample :
  let run := chat cfg_one pats_demo (env_demo "{}") (ask "s1" "cuaca hari ini bagaimana") ∅ in
  is_psychology_domain cfg_one ["cuaca hari ini bagaimana"] = false
  /\ (exists r, result run = Return r /\ end_ r = true
                /\ reply r = Some (with_closing redirect_reply (closing cfg_one))
                /\ reply r <> Some redirect_reply)
  /\ prompts run = [cls_prompt cfg_one "cuaca hari ini bagaimana"]
  /\ (exists s, table run !! "s1" = Some s /\ ended s = true).
Proof.
  cbv zeta. split; [reflexivity|]. split; [|split].
  - eexists. repeat split; [vm_compute; reflexivity..|]. vm_compute. discriminate.
  - vm_compute. reflexivity.
  - eexists. split; vm_compute; reflexivity.
Qed.

Lemma domain_gate_keeps_turn_limit_witness :
  let run := chat cfg_demo pats_demo (env_demo "{}") (ask "s1" "cuaca hari ini bagaimana") ∅ in
  result run = Return (plain redirect_reply false "s1" 4)
  /\ prompts run = []
  /\ table run !! "s1" = Some (add_turn "cuaca hari ini bagaimana" (new_session 1000)).
Proof.
  refine (proj1 (domain_gate_keeps_turn_limit (py := ascii_text) cfg_demo pats_demo (env_demo "{}")
                   (ask "s1" "cuaca hari ini bagaimana") ∅
                   eq_refl eq_refl (or_introl eq_refl) eq_refl eq_refl eq_refl) _).
  vm_compute. reflexivity.
Defined.

(** C4 fails as stated: the classifier answers with an object whose
    category is null; the closing turn returns that null as the category
    of the response. *)
Lemma null_category_counterexample :
  let run := chat cfg_demo pats_demo (env_demo obj_null)
               (ask "s1" "aku merasa cemas sekali") tbl_four in
  (exists s, table run !! "s1" = Some s /\ turns s = max_turns cfg_demo /\ ended s = true)
  /\ exists r, result run = Return r /\ end_ r = true /\ category r = Some JNull.
Proof.
  cbv zeta. split.
  - eexists. repeat split; vm_compute; reflexivity.
  - eexists. repeat split; vm_compute; reflexivity.
Qed.

Lemma closing_turn_witness :
  result (chat cfg_demo pats_demo (env_demo obj_ok) (ask "s1" "aku merasa cemas sekali")
            tbl_four)
  = Return {| reply := Some (with_suggestion "Aku mengerti, ceritakan lebih lanjut."
                               "Psikolog Klinis Dewasa" "Terima kasih sudah berbagi.");
              end_ := true; session_id := "s1"; remaining := 0; handoff := None;
              category := Some (JStr "kecemasan");
              confidence := Some (Some 0.9%float) |}.
Proof.
  refine (eq_trans (proj1 (closing_turn (py := ascii_text) cfg_demo pats_demo (env_demo obj_ok)
                    (ask "s1" "aku merasa cemas sekali") tbl_four true
                    eq_refl eq_refl (or_introl eq_refl) eq_refl eq_refl eq_refl _ _)) _).
  - vm_compute. discriminate.
  - vm_compute. reflexivity.
  - vm_compute. reflexivity.
Defined.

(** C7 fails as stated.  First, the text matched is the one up to the last
    closing brace: a note in braces after the object makes the parse fail
    although the first brace-delimited object is valid.  Second, with the
    sentinel label among the suggestions, an answer without any object
    yields the recommendation of that label. *)
Lemma greedy_span_counterexample :
  (first_braced_object obj_with_note = Some obj_ok
   /\ json_loads (env_demo "") obj_ok
      = Some [("category", JStr "kecemasan"); ("confidence", JFloat 0.9%float)]
   /\ brace_span obj_with_note = Some (obj_ok ++ " (format {label}")
   /\ parse_json_obj (env_demo "") obj_with_note = [])
  /\ (parse_json_obj (env_demo "maaf, tidak bisa") "maaf, tidak bisa" = []
      /\ exists r, result (chat cfg_sentinel pats_demo (env_demo "maaf, tidak bisa")
                             (ask "s1" "aku cemas") ∅) = Return r
                   /\ reply r = Some (with_suggestion "Aku mengerti, ceritakan lebih lanjut."
                                        "Admin Klinik" (closing cfg_sentinel))).
Proof.
  split; [repeat split; vm_compute; reflexivity|].
  split; [reflexivity|]. eexists. split; vm_compute; reflexivity.
Qed.

Lemma parse_json_obj_degrades_witness :
  parse_json_obj (env_demo "maaf, tidak bisa") ("Hasil: " ++ "{" ++ obj_inner ++ "}" ++ " ok")
    = [("category", JStr "kecemasan"); ("confidence", JFloat 0.9%float)]
  /\ parse_json_obj (env_demo "maaf, tidak bisa") "maaf, tidak bisa" = []
  /\ result (close_session cfg_demo (env_demo "maaf, tidak bisa") "s1"
               (add_turn "aku cemas" (new_session 1000)) "Baik." []
               {[ "s1" := add_turn "aku cemas" (new_session 1000) ]})
     = Return {| reply := Some (with_closing "Baik." (closing cfg_demo)); end_ := true;
                 session_id := "s1"; remaining := 0; handoff := None;
                 category := Some (JStr "non_psikologi"); confidence := Some None |}.
Proof.
  exact (parse_json_obj_degrades (py := ascii_text) (env_demo "maaf, tidak bisa") cfg_demo
           "Hasil: " obj_inner " ok" "maaf, tidak bisa" "s1"
           (add_turn "aku cemas" (new_session 1000)) "Baik." []
           {[ "s1" := add_turn "aku cemas" (new_session 1000) ]}
           eq_refl eq_refl (or_introl eq_refl) eq_refl eq_refl).
Defined.

Lemma join_split_dot_witness :
  split_dot (join "." ["clinic"; "name"]) = ["clinic"; "name"].
Proof.
  apply (join_split_dot ["clinic"; "name"]); [discriminate|repeat constructor].
Defined.

Lemma template_without_braces_witness :
  _template "Klinik buka 09.00-17.00." ctx_demo = "Klinik buka 09.00-17.00.".
Proof. apply (template_without_braces (py := ascii_text) ctx_demo). reflexivity. Defined.

Lemma template_resolved_token_witness :
  _template ("Halo dari " ++ "{{ clinic.name }}" ++ "!") ctx_demo
  = _template "Halo dari " ctx_demo ++ "CurhatKuy" ++ _template "!" ctx_demo.
Proof.
  apply (template_resolved_token (py := ascii_text) ctx_demo "Halo dari " "{{ clinic.name }}" "clinic.name" "!"
           (VStr "CurhatKuy"));
    [exact ascii_brace_ends_spaces|vm_compute; reflexivity..].
Defined.

Lemma empty_keyword_matches_all_witness :
  is_crisis cfg_blank_keyword "halo" = true.
Proof.
  destruct (empty_keyword_matches_all (py := ascii_text) cfg_blank_keyword "halo" []) as [Hcrisis _].
  apply Hcrisis. apply (bool_decide_unpack _). vm_compute. exact I.
Defined.

Lemma blank_message_is_smalltalk_witness :
  result (chat cfg_demo pats_demo (env_demo "{}") (ask "s1" "   ") tbl_four)
  = Return (plain smalltalk_reply false "s1" 1).
Proof.
  refine (proj1 (blank_message_is_smalltalk (py := ascii_text) cfg_demo pats_demo (env_demo "{}")
                   (ask "s1" "   ") tbl_four eq_refl eq_refl eq_refl _ _));
    apply (bool_decide_unpack _); vm_compute; exact I.
Defined.

Lemma turns_count_transcript_witness :
  turns (add_turn "Jam buka kapan?" (open_session 1000 "s1" tbl_four)) = 5%Z.
Proof.
  refine (eq_trans (proj1 (turns_count_transcript (py := ascii_text) pats_demo
            [CallChat cfg_demo (env_demo "{}") (ask "s1" "Jam buka kapan?")] tbl_four "s1"
            (add_turn "Jam buka kapan?" (open_session 1000 "s1" tbl_four)) _ _)) _).
  - apply (bool_decide_unpack _). vm_compute. exact I.
  - vm_compute. reflexivity.
  - vm_compute. reflexivity.
Defined.

Lemma request_monotone_witness :
  let s' := add_turn "Jam buka kapan?" (open_session 1000 "s1" tbl_four) in
  turns sess_four <= turns s' <= turns sess_four + 1
  /\ texts sess_four `prefix_of` texts s'.
Proof.
  cbv zeta.
  destruct (request_monotone (py := ascii_text) pats_demo
              (CallChat cfg_demo (env_demo "{}") (ask "s1" "Jam buka kapan?")) tbl_four "s1"
              sess_four eq_refl) as [_ H].
  assert (table (handle pats_demo
                   (CallChat cfg_demo (env_demo "{}") (ask "s1" "Jam buka kapan?")) tbl_four)
            !! "s1" = Some (add_turn "Jam buka kapan?" (open_session 1000 "s1" tbl_four)))
    as Hafter by (vm_compute; reflexivity).
  destruct (H _ Hafter) as (Ht & Hx & _).
  split; assumption.
Defined.

Lemma request_isolated_witness :
  table (handle pats_demo (CallChat cfg_demo (env_demo "{}") (ask "s2" "halo")) tbl_four) !! "s1"
  = tbl_four !! "s1".
Proof.
  destruct (request_isolated (py := ascii_text) pats_demo (CallChat cfg_demo (env_demo "{}") (ask "s2" "halo"))
              tbl_four "s1" ltac:(vm_compute; discriminate)) as [H|(_ & Hmod & _)].
  - exact H.
  - vm_compute in Hmod. discriminate.
Defined.

Lemma sweep_leaves_clean_witness :
  ended (new_session 1000) = false /\ 1000 - 60 * 60 <= ts (new_session 1000).
Proof.
  apply (sweep_leaves_clean 1000 "s1" (serve pats_demo other_clients ∅) "7" (new_session 1000));
    vm_compute; reflexivity.
Defined.

Lemma chat_prompts_bounded_witness :
  (length (prompts (chat cfg_demo pats_demo (env_demo obj_ok)
                      (ask "s1" "aku merasa cemas sekali") tbl_four)) <= 2)%nat.
Proof.
  exact (proj1 (chat_prompts_bounded (py := ascii_text) cfg_demo pats_demo (env_demo obj_ok)
                  (ask "s1" "aku merasa cemas sekali") tbl_four)).
Defined.

Lemma generated_reply_degrades_witness :
  result (chat cfg_demo pats_demo (env_demo "{}") (ask "s1" "aku sering cemas") ∅)
  = Return (plain "Aku mengerti, ceritakan lebih lanjut." false "s1" 4).
Proof.
  pose proof (generated_reply_degrades (py := ascii_text) cfg_demo pats_demo (env_demo "{}")
                (ask "s1" "aku sering cemas") ∅ eq_refl eq_refl (or_introl eq_refl)
                eq_refl eq_refl eq_refl eq_refl) as (r & Hr & _ & _ & Hkey).
  destruct (Hkey eq_refl) as [_ Hreply]. vm_compute in Hreply. rewrite Hreply in Hr.
  exact Hr.
Defined.

Lemma unhashable_category_raises_witness :
  result (chat cfg_demo pats_demo env_list_category (ask "s1" "aku merasa cemas sekali")
            tbl_four)
  = Raise "TypeError".
Proof.
  refine (proj1 (unhashable_category_raises (py := ascii_text) cfg_demo pats_demo env_list_category
                   (ask "s1" "aku merasa cemas sekali") tbl_four
                   eq_refl eq_refl (or_introl eq_refl) eq_refl eq_refl _ _)).
  - vm_compute. discriminate.
  - left. eexists. vm_compute. reflexivity.
Defined.

Lemma last_slice_window_witness :
  length (last_slice 5 ["a"; "b"; "c"; "d"; "e"; "f"; "g"]) = 5%nat
  /\ last_slice 0 ["a"; "b"] = ["a"; "b"].
Proof.
  destruct (last_slice_window 5 ["a"; "b"; "c"; "d"; "e"; "f"; "g"]) as (_ & H5 & _).
  destruct (last_slice_window 0 ["a"; "b"]) as (_ & _ & H0 & _).
  split; [exact (H5 eq_refl)|exact (H0 eq_refl)].
Defined.

Lemma brace_span_exact_witness :
  brace_span (obj_ok ++ " (format {label}") = Some (obj_ok ++ " (format {label}").
Proof.
  apply (proj2 (brace_span_exact obj_with_note (obj_ok ++ " (format {label}"))).
  vm_compute. reflexivity.
Defined.

Lemma reload_spec_witness :
  data (reload (fun _ => Some 7) {| snap_admin := {| admin_enabled := false; admin_token := "" |};
                                    snap_config := cfg_one |} false
          {| mtimes := ∅;
             data := {| snap_admin := {| admin_enabled := false; admin_token := "" |};
                        snap_config := cfg_demo |} |})
  = {| snap_admin := {| admin_enabled := false; admin_token := "" |}; snap_config := cfg_one |}.
Proof.
  apply reload_spec. right. apply Exists_cons_hd. vm_compute. discriminate.
Defined.

Lemma require_admin_decides_witness :
  _require_admin {| admin_enabled := false; admin_token := "rahasia" |} (Some "rahasia")
  = Some (HTTPException 403 "admin endpoints disabled").
Proof.
  apply (require_admin_decides {| admin_enabled := false; admin_token := "rahasia" |}
           (Some "rahasia")). reflexivity.
Defined.

Lemma admin_rejected_no_effect_witness :
  exists e,
    admin_put_config lib_demo (fun _ => Some 7) snap_admin_on (Some "tebakan")
      {| put_file := Some "../backend.py"; put_data := JStr "x" |} srv_demo
    = (inl e, srv_demo).
Proof.
  pose proof (admin_rejected_no_effect lib_demo (fun _ => Some 7) snap_admin_on
                (Some "tebakan") {| put_file := Some "../backend.py"; put_data := JStr "x" |}
                srv_demo ltac:(intros (_ & _ & H); vm_compute in H; discriminate H))
    as (e & _ & Hput & _).
  exists e. exact Hput.
Defined.

Lemma admin_put_writes_witness :
  let run := admin_put_config lib_demo (fun _ => Some 7) snap_admin_on (Some "rahasia")
               put_closing srv_demo in
  run.1 = inr "closing.txt"
  /\ disk run.2 !! "closing.txt" = Some "Terima kasih, {{clinic.name}}.".
Proof.
  cbv zeta.
  destruct (admin_put_writes lib_demo (fun _ => Some 7) snap_admin_on (Some "rahasia")
              put_closing srv_demo "closing.txt" eq_refl eq_refl
              ltac:(apply (bool_decide_unpack _); vm_compute; exact I))
    as (text & Hres & Hdisk & _ & _ & _ & Htext).
  destruct (Htext (or_intror eq_refl)) as [Hstr _].
  rewrite (Hstr _ eq_refl) in Hdisk. split; assumption.
Defined.

Lemma admin_put_disallowed_witness :
  exists detail,
    admin_put_config lib_demo (fun _ => Some 7) snap_admin_on (Some "rahasia")
      {| put_file := Some "../backend.py"; put_data := JStr "x" |} srv_demo
    = (inl (HTTPException 400 detail), srv_demo).
Proof.
  destruct (admin_put_disallowed lib_demo (fun _ => Some 7) snap_admin_on (Some "rahasia")
              {| put_file := Some "../backend.py"; put_data := JStr "x" |} srv_demo eq_refl
              ltac:(intros f [= <-]; apply (bool_decide_unpack _); vm_compute; exact I))
    as (detail & H & _).
  exists detail. exact H.
Defined.
